(** * Hypernode GPU host agent: a shallow embedding and its properties

    The agent is the Python program that the quick-install script writes to
    [agent.py] (class [HypernodeAgent] and [main]).  The Windows installer
    carries the same program with different log texts; the embedding follows
    the first one.

    Conventions of the embedding.
    - A Python [str] whose code points are all below 256 is a [string],
      one [ascii] per character; the texts of the host, of the command line
      and of the source are such.  A [str] the server sends may hold any
      code point: see [JUni].
    - A value produced by [json.loads] is a [json]; Python's [None] is
      [JNull]; a [dict] is an association list in insertion order, looked up
      by its first binding for a key.
    - An [async def] is a computation in the monad [M]: it threads the
      object's fields, appends to a trace of observable events, and ends by
      returning, by raising, or by still waiting when the observation stops.
    - The world outside the process (the host, the network, the scheduler of
      the event loop) is an explicit argument.
    - Standard output encodes its text as UTF-8: [print] fails, with
      [UnicodeEncodeError], exactly when the text holds a surrogate code
      point, and then writes nothing.
    - An interrupt reaches the process while it waits for the next frame.
    - A JSON number is an integer; the agent never inspects one. *)

From Stdlib Require Import String Ascii List NArith ZArith Bool Arith Lia.
Import ListNotations.
Set Warnings "-register-all".
Local Open Scope string_scope.
Local Open Scope list_scope.

(* ------------------------------------------------------------------ *)
(** ** Python strings *)

Module Py.

(** [str.isspace] on one character (code points below 256). *)
Definition isspace (c : ascii) : bool :=
  let n := nat_of_ascii c in
  (((9 <=? n) && (n <=? 13)) || ((28 <=? n) && (n <=? 32))
   || (n =? 133) || (n =? 160))%nat.

(** [s.lstrip()] *)
Fixpoint lstrip (s : string) : string :=
  match s with
  | EmptyString => EmptyString
  | String c s' => if isspace c then lstrip s' else s
  end.

Definition is_empty (s : string) : bool :=
  match s with EmptyString => true | String _ _ => false end.

(** [s.rstrip()] *)
Fixpoint rstrip (s : string) : string :=
  match s with
  | EmptyString => EmptyString
  | String c s' =>
      let r := rstrip s' in
      if is_empty r && isspace c then EmptyString else String c r
  end.

(** [s.strip()] *)
Definition strip (s : string) : string := lstrip (rstrip s).

(** [s.split(sep)] for a one-character separator: never the empty list. *)
Fixpoint split (sep : ascii) (s : string) : list string :=
  match s with
  | EmptyString => [EmptyString]
  | String c s' =>
      if Ascii.eqb c sep then EmptyString :: split sep s'
      else match split sep s' with
           | head :: tail => String c head :: tail
           | [] => [String c EmptyString]
           end
  end.

Definition newline : ascii := ascii_of_nat 10.
Definition comma : ascii := ascii_of_nat 44.

(** Truth value of a [str]. *)
Definition truthy (s : string) : bool := negb (is_empty s).

End Py.

(* ------------------------------------------------------------------ *)
(** ** JSON values *)

(** [JStr s] is a [str] whose code points are all below 256; [JUni points]
    is any other [str], given by its code points. *)
Inductive json :=
| JNull
| JBool (b : bool)
| JNum (n : Z)
| JStr (s : string)
| JUni (points : list N)
| JArr (items : list json)
| JObj (fields : list (string * json)).

(** First binding of [key] in a dict's items. *)
Fixpoint lookup (key : string) (fields : list (string * json)) : option json :=
  match fields with
  | [] => None
  | (k, v) :: rest => if String.eqb k key then Some v else lookup key rest
  end.

(** [value == 'text'] for a value that came from [json.loads] and a text
    of the source. *)
Definition eq_str (value : json) (text : string) : bool :=
  match value with
  | JStr s => String.eqb s text
  | _ => false
  end.

(** Equality of JSON values is decidable. *)
Definition json_eq_dec : forall a b : json, {a = b} + {a <> b}.
Proof.
  fix IH 1. intros a b.
  destruct a as [|x|x|x|x|xs|xs], b as [|y|y|y|y|ys|ys];
    try (right; discriminate).
  - left; reflexivity.
  - destruct (bool_dec x y); [left; congruence | right; congruence].
  - destruct (Z.eq_dec x y); [left; congruence | right; congruence].
  - destruct (string_dec x y); [left; congruence | right; congruence].
  - destruct (list_eq_dec N.eq_dec x y); [left; congruence | right; congruence].
  - destruct (list_eq_dec IH xs ys); [left; congruence | right; congruence].
  - assert (D : forall p q : string * json, {p = q} + {p <> q}).
    { intros [k u] [k' v]. destruct (string_dec k k'); [|right; congruence].
      destruct (IH u v); [left; congruence | right; congruence]. }
    destruct (list_eq_dec D xs ys); [left; congruence | right; congruence].
Defined.

(** How many times a value occurs in a list of values. *)
Definition occurrences (v : json) (l : list json) : nat :=
  count_occ json_eq_dec l v.

(* ------------------------------------------------------------------ *)
(** ** Exceptions, events and the monad of method bodies *)

Inductive exn :=
| JSONDecodeError
| AttributeError
| KeyError
| TypeError
| FileNotFoundError
| TimeoutExpired
| OSError
| InvalidHandshake
| ConnectionClosedOK
| ConnectionClosedError
| UnicodeEncodeError
| UnicodeDecodeError
| ValueError
| RecursionError
| CancelledError
| KeyboardInterrupt
| SystemExit (code : Z).

(** Subclasses of [Exception]; the others derive from [BaseException]
    only and pass through [except Exception]. *)
Definition is_Exception (e : exn) : bool :=
  match e with
  | CancelledError | KeyboardInterrupt | SystemExit _ => false
  | _ => true
  end.

Definition is_CancelledError (e : exn) : bool :=
  match e with CancelledError => true | _ => false end.

Definition is_KeyboardInterrupt (e : exn) : bool :=
  match e with KeyboardInterrupt => true | _ => false end.

(** [websockets.exceptions.ConnectionClosed] and its subclasses. *)
Definition is_ConnectionClosed (e : exn) : bool :=
  match e with
  | ConnectionClosedOK | ConnectionClosedError => true
  | _ => false
  end.

(** One piece of an f-string: literal text or an interpolated value.
    [Stamp] is [self.timestamp()], the local wall clock. *)
Inductive piece :=
| Lit (text : string)
| Val (v : json)
| Len (n : nat)
| Err (e : exn)
| Stamp.

Inductive event :=
| Print (line : list piece)
| Sleep (seconds : nat)
| WsConnect (uri : string) (opened : bool)
| WsSend (payload : json) (delivered : bool).

Inductive outcome (A : Type) :=
| Returned (a : A)
| Raised (e : exn)
| Waiting.
Arguments Returned {A} a.
Arguments Raised {A} e.
Arguments Waiting {A}.

Record run (S A : Type) := Run {
  trace : list event;
  final : S;
  result : outcome A
}.
Arguments Run {S A} trace final result.
Arguments trace {S A} r.
Arguments final {S A} r.
Arguments result {S A} r.

Definition M (S A : Type) : Type := S -> run S A.

Definition ret {S A} (a : A) : M S A := fun s => Run [] s (Returned a).

Definition bind {S A B} (m : M S A) (k : A -> M S B) : M S B :=
  fun s =>
    let r := m s in
    match result r with
    | Returned a =>
        let r' := k a (final r) in
        Run (trace r ++ trace r') (final r') (result r')
    | Raised e => Run (trace r) (final r) (Raised e)
    | Waiting => Run (trace r) (final r) Waiting
    end.

Definition raise {S A} (e : exn) : M S A := fun s => Run [] s (Raised e).
Definition waiting {S A} : M S A := fun s => Run [] s Waiting.
Definition emit {S} (ev : event) : M S unit := fun s => Run [ev] s (Returned tt).
Definition get {S} : M S S := fun s => Run [] s (Returned s).
Definition put {S} (s' : S) : M S unit := fun _ => Run [] s' (Returned tt).

(** [try: body  except <class>: handler]; [catches] is the class test. *)
Definition try_except {S A} (catches : exn -> bool)
    (body : M S A) (handler : exn -> M S A) : M S A :=
  fun s =>
    let r := body s in
    match result r with
    | Raised e =>
        if catches e then
          let r' := handler e (final r) in
          Run (trace r ++ trace r') (final r') (result r')
        else r
    | _ => r
    end.

(** [try: body  finally: cleanup].  A computation that is still waiting has
    not left the block, so its cleanup has not run. *)
Definition try_finally {S A} (body : M S A) (cleanup : M S unit) : M S A :=
  fun s =>
    let r := body s in
    match result r with
    | Waiting => r
    | res =>
        let r' := cleanup (final r) in
        match result r' with
        | Returned _ => Run (trace r ++ trace r') (final r') res
        | Raised e => Run (trace r ++ trace r') (final r') (Raised e)
        | Waiting => Run (trace r ++ trace r') (final r') Waiting
        end
    end.

Declare Scope py_scope.
Delimit Scope py_scope with py.
Notation "x <- m ;; k" := (bind m (fun x => k))
  (at level 61, m at next level, right associativity) : py_scope.
Notation "m ;; k" := (bind m (fun _ => k))
  (at level 61, right associativity) : py_scope.
Local Open Scope py_scope.

(** Surrogate code points, U+D800 to U+DFFF: UTF-8 has no encoding for
    them. *)
Definition is_surrogate (point : N) : bool :=
  ((55296 <=? point) && (point <=? 57343))%N.

(** Whether the text an f-string makes of a value can be written.  A [str]
    is put in as it is; the text of any other value is its [repr], in which
    a surrogate is written as an escape. *)
Definition encodable (v : json) : bool :=
  match v with
  | JUni points => negb (existsb is_surrogate points)
  | _ => true
  end.

Definition piece_encodable (p : piece) : bool :=
  match p with
  | Val v => encodable v
  | _ => true
  end.

(** [print(f"...")]: the line is written whole, or the encoder raises and
    nothing is written. *)
Definition print {S} (line : list piece) : M S unit :=
  if forallb piece_encodable line then emit (Print line)
  else raise UnicodeEncodeError.

Definition asyncio_sleep {S} (seconds : nat) : M S unit := emit (Sleep seconds).

(** [await ws.send(json.dumps(payload))]: the frame is written when the
    connection is open, and [ConnectionClosed] is raised when it is not. *)
Definition ws_send {S} (payload : json) (link : bool) : M S unit :=
  emit (WsSend payload link) ;;
  if link then ret tt else raise ConnectionClosedError.

(** [data.get(key)] (with [default] the null value) and
    [data.get(key, default)]: only a dict has [get]. *)
Definition dict_get {S} (data : json) (key : string) (default : json) : M S json :=
  match data with
  | JObj fields =>
      ret (match lookup key fields with Some v => v | None => default end)
  | _ => raise AttributeError
  end.

(* ------------------------------------------------------------------ *)
(** ** The host and GPU detection *)

(** What [subprocess.run(['nvidia-smi', ...], capture_output=True,
    text=True, timeout=5)] does on this host. *)
Inductive smi_outcome :=
| SmiRaises (e : exn)
| SmiCompleted (returncode : Z) (stdout : string).

Record host := Host {
  hostname : string;
  system : string;
  release : string;
  machine : string;
  nvidia_smi : smi_outcome
}.

Definition subprocess_run {S} (smi : smi_outcome) : M S (Z * string) :=
  match smi with
  | SmiRaises e => raise e
  | SmiCompleted rc out => ret (rc, out)
  end.

Definition gpu_entry (model vram : string) : json :=
  JObj [("model", JStr model); ("vram", JStr vram)].

(** Body of the [for line in ...] loop; the state is the local [gpus]. *)
Definition detect_line (line : string) : M (list json) unit :=
  if Py.truthy line then
    let parts := Py.split Py.comma line in
    if (2 <=? length parts)%nat then
      gpus <- get ;;
      put (gpus ++ [gpu_entry (Py.strip (nth 0 parts EmptyString)) (Py.strip (nth 1 parts EmptyString))])
    else ret tt
  else ret tt.

Fixpoint for_each {S A} (items : list A) (body : A -> M S unit) : M S unit :=
  match items with
  | [] => ret tt
  | x :: rest => body x ;; for_each rest body
  end.

(** [detect_gpus]: [gpus = []], the guarded block, [return gpus]. *)
Definition detect_gpus {S} (smi : smi_outcome) : M S (list json) :=
  fun u =>
    let r :=
      (try_except (fun _ => true)
         (result <- subprocess_run smi ;;
          if (fst result =? 0)%Z then
            for_each (Py.split Py.newline (Py.strip (snd result))) detect_line
          else ret tt)
         (fun _ => ret tt)
       ;; get) []
    in Run (trace r) u (result r).

(** [data[key]] *)
Definition subscript {S} (data : json) (key : string) : M S json :=
  match data with
  | JObj fields =>
      match lookup key fields with Some v => ret v | None => raise KeyError end
  | _ => raise TypeError
  end.

(** The items a [for] loop draws from a value. *)
Definition iterate {S} (value : json) : M S (list json) :=
  match value with
  | JArr items => ret items
  | _ => raise TypeError
  end.

(* ------------------------------------------------------------------ *)
(** ** The agent object *)

Inductive websocket := Socket (uri : string).

Record agent := Agent {
  endpoint : string;
  token : string;
  node_id : json;
  ws : option websocket;
  running : bool
}.

(** [__init__] *)
Definition HypernodeAgent (endpoint token : string) : agent :=
  Agent endpoint token JNull None false.

Definition set_node_id (v : json) : M agent unit :=
  self <- get ;;
  put (Agent (endpoint self) (token self) v (ws self) (running self)).

Definition set_ws (v : websocket) : M agent unit :=
  self <- get ;;
  put (Agent (endpoint self) (token self) (node_id self) (Some v) (running self)).

Definition set_running (v : bool) : M agent unit :=
  self <- get ;;
  put (Agent (endpoint self) (token self) (node_id self) (ws self) v).

(** [await self.ws.send(json.dumps(payload))] *)
Definition self_ws_send (payload : json) (link : bool) : M agent unit :=
  self <- get ;;
  match ws self with
  | Some _ => ws_send payload link
  | None => raise AttributeError
  end.

Definition get_host_info (h : host) : M agent json :=
  gpus <- detect_gpus (nvidia_smi h) ;;
  ret (JObj [("hostname", JStr (hostname h));
             ("os", JStr (system h));
             ("os_version", JStr (release h));
             ("arch", JStr (machine h));
             ("gpus", JArr gpus)]).

Definition register (h : host) (link : bool) : M agent unit :=
  host_info <- get_host_info h ;;
  self <- get ;;
  let message := JObj [("type", JStr "register");
                       ("token", JStr (token self));
                       ("hostInfo", host_info)] in
  self_ws_send message link ;;
  print [Lit "["; Stamp; Lit "] ✅ Registration request sent"] ;;
  name <- subscript host_info "hostname" ;;
  print [Lit "  📍 Hostname: "; Val name] ;;
  os <- subscript host_info "os" ;;
  os_version <- subscript host_info "os_version" ;;
  print [Lit "  💻 OS: "; Val os; Lit " "; Val os_version] ;;
  gpus <- subscript host_info "gpus" ;;
  items <- iterate gpus ;;
  print [Lit "  🎮 GPUs: ";
         match items with
         | [] => Lit "None (CPU mode)"
         | _ => Len (length items)
         end] ;;
  for_each items (fun gpu =>
    model <- subscript gpu "model" ;;
    vram <- subscript gpu "vram" ;;
    print [Lit "    - "; Val model; Lit " ("; Val vram; Lit ")"]).

Definition heartbeat_message (self : agent) (utcnow : string) : json :=
  JObj [("type", JStr "heartbeat");
        ("nodeId", node_id self);
        ("timestamp", JStr utcnow)].

(** [send_heartbeat].  Each element of [wakes] is one scheduling of the
    task: the reading of [datetime.utcnow().isoformat()] and whether the
    connection is open for the send.  When [wakes] is used up the task is
    suspended in its sleep. *)
Fixpoint send_heartbeat (wakes : list (string * bool)) : M agent unit :=
  match wakes with
  | [] => waiting
  | (utcnow, link) :: later =>
      self <- get ;;
      if running self then
        go_on <- try_except is_Exception
                   (self <- get ;;
                    self_ws_send (heartbeat_message self utcnow) link ;;
                    asyncio_sleep 10 ;;
                    ret true)
                   (fun e =>
                      print [Lit "["; Stamp; Lit "] ⚠️  Heartbeat error: "; Err e] ;;
                      ret false) ;;
        if go_on then send_heartbeat later else ret tt
      else ret tt
  end.

(** Why [json.loads] gives up on a frame that is not simply malformed:
    the document is nested deeper than the interpreter recurses, it holds
    an integer literal longer than [int] converts, or the frame is binary
    and its bytes are not text. *)
Inductive refusal :=
| TooDeep
| HugeNumber
| NotText.

Definition refusal_error (why : refusal) : exn :=
  match why with
  | TooDeep => RecursionError
  | HugeNumber => ValueError
  | NotText => UnicodeDecodeError
  end.

(** An inbound frame, seen through [json.loads]: either the call raises or
    it yields a value. *)
Inductive frame :=
| Garbage (text : string)
| Refused (why : refusal)
| Json (data : json).

Definition json_loads {S} (message : frame) : M S json :=
  match message with
  | Garbage _ => raise JSONDecodeError
  | Refused why => raise (refusal_error why)
  | Json data => ret data
  end.

Definition job_result (job_id node : json) : json :=
  JObj [("type", JStr "jobResult");
        ("jobId", job_id);
        ("nodeId", node);
        ("status", JStr "completed");
        ("result", JStr "Job completed successfully")].

(** The [try] block of [handle_message]; [link] tells whether the
    connection is still open when the handler comes to send. *)
Definition handle_message_try (message : frame) (link : bool) : M agent unit :=
  data <- json_loads message ;;
  msg_type <- dict_get data "type" JNull ;;
  if eq_str msg_type "registered" then
    nid <- dict_get data "nodeId" JNull ;;
    set_node_id nid ;;
    self <- get ;;
    print [Lit "["; Stamp; Lit "] ✅ Registered successfully!"] ;;
    print [Lit "  🆔 Node ID: "; Val (node_id self)] ;;
    print [Lit "  💚 Status: Online"] ;;
    print [Lit EmptyString] ;;
    print [Lit "  🌐 View your node at: http://localhost:3000/app"] ;;
    print [Lit EmptyString]
  else if eq_str msg_type "job" then
    job_id <- dict_get data "jobId" JNull ;;
    print [Lit "["; Stamp; Lit "] 📋 Received job: "; Val job_id] ;;
    (* Simulate job execution *)
    asyncio_sleep 2 ;;
    self <- get ;;
    self_ws_send (job_result job_id (node_id self)) link ;;
    print [Lit "["; Stamp; Lit "] ✅ Job "; Val job_id; Lit " completed"]
  else if eq_str msg_type "error" then
    text <- dict_get data "message" (JStr "Unknown error") ;;
    print [Lit "["; Stamp; Lit "] ❌ Error: "; Val text]
  else ret tt.

(** The line the [except Exception as e] clause of [handle_message] prints. *)
Definition handling_error (e : exn) : event :=
  Print [Lit "["; Stamp; Lit "] ⚠️  Error handling message: "; Err e].

(** [handle_message] *)
Definition handle_message (message : frame) (link : bool) : M agent unit :=
  try_except is_Exception
    (handle_message_try message link)
    (fun e => print [Lit "["; Stamp; Lit "] ⚠️  Error handling message: "; Err e]).

(* ------------------------------------------------------------------ *)
(** ** The connection and the event loop *)

(** What the event loop does next while [connect] sits in its receive
    loop: it hands the next inbound frame to the handler, or it wakes the
    heartbeat task.  A handler runs to its end before the next stimulus:
    the only handler that suspends is the one of a job, it writes no field,
    and the heartbeat task writes none either, so a heartbeat that falls
    into its sleep is placed before or after it. *)
Inductive stimulus :=
| Deliver (message : frame) (link : bool)
| Wake (utcnow : string) (link : bool).

(** How [async for message in websocket] ends: the iterator is exhausted
    (the peer closed the connection normally) or the iteration raises
    ([ConnectionClosedError] on an abnormal closure, [CancelledError] when
    the process is interrupted). *)
Inductive ending :=
| Exhausted
| Broken (e : exn).

Record world := World {
  platform : host;
  dial : option exn;          (* [websockets.connect]: opens, or raises *)
  register_link : bool;       (* connection open for the registration send *)
  schedule : list stimulus;
  finish : option ending      (* [None]: the observation stops here *)
}.

Definition websockets_connect {S} (uri : string) (d : option exn) : M S websocket :=
  match d with
  | None => emit (WsConnect uri true) ;; ret (Socket uri)
  | Some e => emit (WsConnect uri false) ;; raise e
  end.

(** Runs a background task on what is scheduled for it and tells whether
    it is still alive (suspended) afterwards.  An exception that ends a
    task stays in the task object. *)
Definition step_task {S} (task : M S unit) : M S bool :=
  fun s =>
    let r := task s in
    Run (trace r) (final r)
        (Returned (match result r with Waiting => true | _ => false end)).

(** The [async for] loop of [connect], with the heartbeat task beside it;
    [heartbeat] tells whether that task is alive. *)
Fixpoint receive_loop (heartbeat : bool) (stimuli : list stimulus)
    (fin : option ending) : M agent unit :=
  match stimuli with
  | [] =>
      match fin with
      | None => waiting
      | Some Exhausted => ret tt
      | Some (Broken e) => raise e
      end
  | Deliver message link :: later =>
      handle_message message link ;;
      receive_loop heartbeat later fin
  | Wake utcnow link :: later =>
      if heartbeat then
        alive <- step_task (send_heartbeat [(utcnow, link)]) ;;
        receive_loop alive later fin
      else receive_loop heartbeat later fin
  end.

Definition connect (w : world) : M agent unit :=
  self <- get ;;
  print [Lit "["; Stamp; Lit "] 🔌 Connecting to "; Val (JStr (endpoint self)); Lit "..."] ;;
  try_except is_Exception
    (websocket <- websockets_connect (endpoint self) (dial w) ;;
     set_ws websocket ;;
     set_running true ;;
     print [Lit "["; Stamp; Lit "] ✅ Connected!"] ;;
     register (platform w) (register_link w) ;;
     (* heartbeat_task = asyncio.create_task(self.send_heartbeat()) *)
     try_finally
       (try_except is_ConnectionClosed
          (receive_loop true (schedule w) (finish w))
          (fun _ => print [Lit "["; Stamp; Lit "] ⚠️  Connection closed"]))
       (set_running false (* heartbeat_task.cancel() *)))
    (fun e =>
       print [Lit "["; Stamp; Lit "] ❌ Connection error: "; Err e] ;;
       raise e).

(** [asyncio.run]: an interrupt cancels the main task and comes out as
    [KeyboardInterrupt]. *)
Definition asyncio_run {S A} (coroutine : M S A) : M S A :=
  try_except is_CancelledError coroutine (fun _ => raise KeyboardInterrupt).

Definition rule : string :=
  "============================================================".

(** [main], after argument parsing. *)
Definition main (w : world) : M agent unit :=
  print [Lit rule] ;;
  print [Lit "🚀 Hypernode GPU Host Agent"] ;;
  print [Lit rule] ;;
  print [Lit EmptyString] ;;
  try_except (fun e => is_KeyboardInterrupt e || is_Exception e)
    (asyncio_run (connect w))
    (fun e =>
       if is_KeyboardInterrupt e then
         print [Lit (String Py.newline "["); Stamp;
                Lit "] 👋 Shutting down gracefully..."]
       else
         print [Lit (String Py.newline "["); Stamp;
                Lit "] ❌ Fatal error: "; Err e] ;;
         raise (SystemExit 1)).

(** The whole process: [agent = HypernodeAgent(endpoint, token)] and
    [main]'s body on it. *)
Definition process (endpoint token : string) (w : world) : run agent unit :=
  main w (HypernodeAgent endpoint token).

(** Exit status of the process, [None] when it has none.  [SystemExit]
    carries the status; a [KeyboardInterrupt] that reaches the top makes the
    interpreter end itself with the interrupt signal, so that the process
    is killed and leaves no status; any other exception that reaches the top
    ends the interpreter with status 1; a process that is still running has
    no status yet. *)
Definition exit_of (res : outcome unit) : option Z :=
  match res with
  | Returned _ => Some 0%Z
  | Raised (SystemExit code) => Some code
  | Raised KeyboardInterrupt => None
  | Raised _ => Some 1%Z
  | Waiting => None
  end.

Definition exit_status {S} (r : run S unit) : option Z := exit_of (result r).

(* ------------------------------------------------------------------ *)
(** ** Reading a trace *)

(** Payloads handed to [ws.send], in order (written or not). *)
Definition send_call (ev : event) : list json :=
  match ev with
  | WsSend payload _ => [payload]
  | _ => []
  end.

Definition send_calls (t : list event) : list json := flat_map send_call t.

(** Payloads written to the connection, in order. *)
Definition written (ev : event) : list json :=
  match ev with
  | WsSend payload true => [payload]
  | _ => []
  end.

Definition sent (t : list event) : list json := flat_map written t.

(** The ["type"] tag of a message. *)
Definition has_type (tag : string) (message : json) : bool :=
  match message with
  | JObj fields =>
      match lookup "type" fields with
      | Some v => eq_str v tag
      | None => false
      end
  | _ => false
  end.

(** The value of a field of a message, if the message has it. *)
Definition field (key : string) (message : json) : option json :=
  match message with
  | JObj fields => lookup key fields
  | _ => None
  end.

Definition is_connect (ev : event) : bool :=
  match ev with WsConnect _ _ => true | _ => false end.

(** Attempts to open a connection, in order. *)
Definition connects (t : list event) : list event := filter is_connect t.

Definition is_print (ev : event) : bool :=
  match ev with Print _ => true | _ => false end.

Definition is_sleep (ev : event) : bool :=
  match ev with Sleep _ => true | _ => false end.

(** The pauses of a trace, in seconds. *)
Definition sleeps (t : list event) : list event := filter is_sleep t.

(* ------------------------------------------------------------------ *)
(** ** Descriptions used in the statements *)

(** What one line of the tool's output contributes to the GPU list: a
    non-empty line with at least two comma-separated fields gives one entry
    made of its first two fields, stripped; any other line gives none. *)
Definition line_entry (line : string) : list json :=
  match line with
  | EmptyString => []
  | _ =>
      match Py.split Py.comma line with
      | first :: second :: _ => [gpu_entry (Py.strip first) (Py.strip second)]
      | _ => []
      end
  end.

(** The GPU list read off the raw outcome of the tool. *)
Definition gpus_of_outcome (smi : smi_outcome) : list json :=
  match smi with
  | SmiCompleted 0 stdout => flat_map line_entry (Py.split Py.newline stdout)
  | _ => []
  end.

(** Applies [f] to the last element of a list. *)
Fixpoint map_last {A} (f : A -> A) (l : list A) : list A :=
  match l with
  | [] => []
  | [x] => [f x]
  | x :: rest => x :: map_last f rest
  end.

(** [s] followed by the single character [c]. *)
Definition snoc (s : string) (c : ascii) : string :=
  (s ++ String c EmptyString)%string.

Fixpoint all_space (s : string) : bool :=
  match s with
  | EmptyString => true
  | String c s' => Py.isspace c && all_space s'
  end.


(** The value [data.get(key)] yields on a dict with these items. *)
Definition get_or_null (key : string) (fields : list (string * json)) : json :=
  match lookup key fields with Some v => v | None => JNull end.

(** The job id of a frame the handler treats as a job assignment. *)
Definition job_id_of (message : frame) : option json :=
  match message with
  | Json (JObj fields) =>
      if has_type "job" (JObj fields) then Some (get_or_null "jobId" fields)
      else None
  | _ => None
  end.

(** The node id of a frame the handler treats as a registration
    acknowledgment. *)
Definition registered_id (message : frame) : option json :=
  match message with
  | Json (JObj fields) =>
      if has_type "registered" (JObj fields) then Some (get_or_null "nodeId" fields)
      else None
  | _ => None
  end.

(** The agent with its node id replaced. *)
Definition with_node_id (self : agent) (v : json) : agent :=
  Agent (endpoint self) (token self) v (ws self) (running self).

(** What the handler does with a job assignment, as a trace.  The receipt
    line comes first: when it cannot be printed the handler logs that and
    does nothing else. *)
Definition job_trace (self : agent) (job_id : json) (link : bool) : list event :=
  if encodable job_id then
    [Print [Lit "["; Stamp; Lit "] 📋 Received job: "; Val job_id]; Sleep 2] ++
    match ws self with
    | None => [handling_error AttributeError]
    | Some _ =>
        [WsSend (job_result job_id (node_id self)) link;
         if link
         then Print [Lit "["; Stamp; Lit "] ✅ Job "; Val job_id; Lit " completed"]
         else handling_error ConnectionClosedError]
    end
  else [handling_error UnicodeEncodeError].

Definition registered_trace (nid : json) : list event :=
  Print [Lit "["; Stamp; Lit "] ✅ Registered successfully!"] ::
  if encodable nid then
    [Print [Lit "  🆔 Node ID: "; Val nid];
     Print [Lit "  💚 Status: Online"];
     Print [Lit EmptyString];
     Print [Lit "  🌐 View your node at: http://localhost:3000/app"];
     Print [Lit EmptyString]]
  else [handling_error UnicodeEncodeError].

(** The text an [error] frame carries, or the default. *)
Definition error_text (fields : list (string * json)) : json :=
  match lookup "message" fields with
  | Some v => v
  | None => JStr "Unknown error"
  end.

Definition error_trace (fields : list (string * json)) : list event :=
  if encodable (error_text fields) then
    [Print [Lit "["; Stamp; Lit "] ❌ Error: "; Val (error_text fields)]]
  else [handling_error UnicodeEncodeError].

Definition is_dict (data : json) : bool :=
  match data with JObj _ => true | _ => false end.

(** The trace of one call of the handler, by the kind of frame. *)
Definition reaction (message : frame) (link : bool) (self : agent) : list event :=
  match message with
  | Garbage _ => [handling_error JSONDecodeError]
  | Refused why => [handling_error (refusal_error why)]
  | Json (JObj fields) =>
      if has_type "registered" (JObj fields) then
        registered_trace (get_or_null "nodeId" fields)
      else if has_type "job" (JObj fields) then
        job_trace self (get_or_null "jobId" fields) link
      else if has_type "error" (JObj fields) then error_trace fields
      else []
  | Json _ => [handling_error AttributeError]
  end.

(** The agent after one call of the handler. *)
Definition after_message (message : frame) (self : agent) : agent :=
  match registered_id message with
  | Some v => with_node_id self v
  | None => self
  end.

(** The line the [except] clause of [send_heartbeat] prints. *)
Definition heartbeat_error (e : exn) : event :=
  Print [Lit "["; Stamp; Lit "] ⚠️  Heartbeat error: "; Err e].

(** One scheduling of the heartbeat task, as a trace and whether the task
    is alive afterwards. *)
Definition beat (self : agent) (utcnow : string) (link : bool) : list event * bool :=
  if running self then
    match ws self with
    | None => ([heartbeat_error AttributeError], false)
    | Some _ =>
        if link then
          ([WsSend (heartbeat_message self utcnow) true; Sleep 10], true)
        else
          ([WsSend (heartbeat_message self utcnow) false;
            heartbeat_error ConnectionClosedError], false)
    end
  else ([], false).

(** The result of the receive loop is fixed by how the stream ends. *)
Definition loop_result (fin : option ending) : outcome unit :=
  match fin with
  | None => Waiting
  | Some Exhausted => Returned tt
  | Some (Broken e) => Raised e
  end.

(** The dict [get_host_info] returns on a host. *)
Definition host_info (h : host) : json :=
  JObj [("hostname", JStr (hostname h));
        ("os", JStr (system h));
        ("os_version", JStr (release h));
        ("arch", JStr (machine h));
        ("gpus", JArr (gpus_of_outcome (nvidia_smi h)))].

(** The registration request of an agent on a host. *)
Definition register_message (self : agent) (h : host) : json :=
  JObj [("type", JStr "register");
        ("token", JStr (token self));
        ("hostInfo", host_info h)].

Definition gpu_line (gpu : json) : event :=
  Print [Lit "    - ";
         Val (match field "model" gpu with Some v => v | None => JNull end);
         Lit " (";
         Val (match field "vram" gpu with Some v => v | None => JNull end);
         Lit ")"].

(** What [register] prints once the request is written. *)
Definition register_log (h : host) : list event :=
  [Print [Lit "["; Stamp; Lit "] ✅ Registration request sent"];
   Print [Lit "  📍 Hostname: "; Val (JStr (hostname h))];
   Print [Lit "  💻 OS: "; Val (JStr (system h)); Lit " "; Val (JStr (release h))];
   Print [Lit "  🎮 GPUs: ";
          match gpus_of_outcome (nvidia_smi h) with
          | [] => Lit "None (CPU mode)"
          | gpus => Len (length gpus)
          end]]
  ++ map gpu_line (gpus_of_outcome (nvidia_smi h)).

Definition is_gpu_entry (gpu : json) : Prop :=
  exists model vram, gpu = gpu_entry model vram.

(** The agent once the connection is open. *)
Definition connected (self : agent) : agent :=
  Agent (endpoint self) (token self) (node_id self)
        (Some (Socket (endpoint self))) true.

(** The agent after the [finally] clause of [connect]. *)
Definition stopped (self : agent) : agent :=
  Agent (endpoint self) (token self) (node_id self) (ws self) false.

Definition connecting_line (self : agent) : event :=
  Print [Lit "["; Stamp; Lit "] 🔌 Connecting to "; Val (JStr (endpoint self)); Lit "..."].

Definition connected_line : event :=
  Print [Lit "["; Stamp; Lit "] ✅ Connected!"].

Definition connection_error (e : exn) : event :=
  Print [Lit "["; Stamp; Lit "] ❌ Connection error: "; Err e].

Definition connection_closed : event :=
  Print [Lit "["; Stamp; Lit "] ⚠️  Connection closed"].

(** What [connect] prints when its receive loop is left. *)
Definition closing_log (fin : option ending) : list event :=
  match fin with
  | Some (Broken e) =>
      if is_ConnectionClosed e then [connection_closed]
      else if is_Exception e then [connection_error e]
      else []
  | _ => []
  end.

Definition closing_state (fin : option ending) (self : agent) : agent :=
  match fin with
  | None => self
  | Some _ => stopped self
  end.

Definition closing_result (fin : option ending) : outcome unit :=
  match fin with
  | None => Waiting
  | Some Exhausted => Returned tt
  | Some (Broken e) => if is_ConnectionClosed e then Returned tt else Raised e
  end.

Definition banner : list event :=
  [Print [Lit rule]; Print [Lit "🚀 Hypernode GPU Host Agent"];
   Print [Lit rule]; Print [Lit EmptyString]].

(** What [main] prints after [asyncio.run] is left. *)
Definition farewell (res : outcome unit) : list event :=
  match res with
  | Raised e =>
      if is_CancelledError e || is_KeyboardInterrupt e then
        [Print [Lit (String Py.newline "["); Stamp;
                Lit "] 👋 Shutting down gracefully..."]]
      else if is_Exception e then
        [Print [Lit (String Py.newline "["); Stamp;
                Lit "] ❌ Fatal error: "; Err e]]
      else []
  | _ => []
  end.

(** How [main] ends, from how [connect] ended. *)
Definition verdict (res : outcome unit) : outcome unit :=
  match res with
  | Raised e =>
      if is_CancelledError e || is_KeyboardInterrupt e then Returned tt
      else if is_Exception e then Raised (SystemExit 1)
      else Raised e
  | other => other
  end.

(* ------------------------------------------------------------------ *)
(** ** Sample inputs *)

(** Text ending in a line feed. *)
Definition line (text : string) : string :=
  (text ++ String Py.newline EmptyString)%string.

Definition one_gpu_host : host :=
  Host "gpu-box" "Linux" "6.8.0" "x86_64"
       (SmiCompleted 0 (line "NVIDIA GeForce RTX 4090, 24564 MiB")).

Definition cpu_host : host :=
  Host "cpu-box" "Linux" "6.8.0" "x86_64" (SmiRaises FileNotFoundError).

(** A run with some events put before it. *)
Definition prefix {S A} (t : list event) (r : run S A) : run S A :=
  Run (t ++ trace r) (final r) (result r).

(** Frames the handler has no branch for: text that is not JSON or that
    [json.loads] gives up on, a JSON value that is not an object, an object
    whose type tag is missing or is none of the three the handler knows. *)
Definition unrecognised (message : frame) : bool :=
  match message with
  | Garbage _ => true
  | Refused _ => true
  | Json (JObj fields) =>
      negb (has_type "registered" (JObj fields))
      && negb (has_type "job" (JObj fields))
      && negb (has_type "error" (JObj fields))
  | Json _ => true
  end.

Definition registered_frame (nid : string) : frame :=
  Json (JObj [("type", JStr "registered"); ("nodeId", JStr nid)]).

Definition error_frame (text : string) : frame :=
  Json (JObj [("type", JStr "error"); ("message", JStr text)]).

(** A job assignment with the fields of the wire protocol. *)
Definition full_job_frame (job_id script : string) (timeout : Z) : frame :=
  Json (JObj [("type", JStr "job");
              ("jobId", JStr job_id);
              ("jobType", JStr "script");
              ("resourceType", JStr "CPU");
              ("script", JStr script);
              ("timeoutSeconds", JNum timeout)]).


(** An agent in the middle of a session. *)
Definition serving (nid : json) : agent :=
  Agent "ws://localhost:3003" "token-1" nid
        (Some (Socket "ws://localhost:3003")) true.

(** The node id after a run of stimuli: the one carried by the last
    registration acknowledgment among them, or the one held before. *)
Fixpoint last_registered (stimuli : list stimulus) (held : json) : json :=
  match stimuli with
  | [] => held
  | Deliver message _ :: later =>
      last_registered later
        (match registered_id message with Some v => v | None => held end)
  | Wake _ _ :: later => last_registered later held
  end.

(** How [connect] ends in a world. *)
Definition connect_result (w : world) : outcome unit :=
  match dial w with
  | Some e => Raised e
  | None =>
      if register_link w then closing_result (finish w)
      else Raised ConnectionClosedError
  end.

(** The same world with other stimuli. *)
Definition with_schedule (w : world) (stimuli : list stimulus) : world :=
  World (platform w) (dial w) (register_link w) stimuli (finish w).

(** The server answers the registration with an [error] frame; the
    heartbeat task runs before and after it. *)
Definition rejecting (fin : option ending) : world :=
  World cpu_host None true
        [Wake "2025-01-01T00:00:00" true;
         Deliver (error_frame "Invalid token") true;
         Wake "2025-01-01T00:00:10" true]
        fin.

(** The server cannot be reached. *)
Definition unreachable : world :=
  World cpu_host (Some OSError) true [] None.

(** The connection drops in the middle of a session. *)
Definition dropped : world :=
  World cpu_host None true
        [Wake "2025-01-01T00:00:00" true;
         Deliver (registered_frame "node-1") true]
        (Some (Broken ConnectionClosedError)).

(** Job ids of the job assignments among the stimuli, in order. *)
Fixpoint jobs_received (stimuli : list stimulus) : list json :=
  match stimuli with
  | [] => []
  | Deliver message _ :: later =>
      match job_id_of message with
      | Some j => j :: jobs_received later
      | None => jobs_received later
      end
  | Wake _ _ :: later => jobs_received later
  end.

(** The job id of a job assignment the handler takes up: it can print the
    receipt, so it goes on to the pause and to the result. *)
Definition taken_job (message : frame) : option json :=
  match job_id_of message with
  | Some j => if encodable j then Some j else None
  | None => None
  end.

(** Job ids of the job assignments the handler takes up, in order. *)
Fixpoint jobs_taken (stimuli : list stimulus) : list json :=
  match stimuli with
  | [] => []
  | Deliver message _ :: later =>
      match taken_job message with
      | Some j => j :: jobs_taken later
      | None => jobs_taken later
      end
  | Wake _ _ :: later => jobs_taken later
  end.

(** Job ids of the job assignments the handler takes up and whose handler
    finds the connection open when it sends. *)
Fixpoint jobs_answerable (stimuli : list stimulus) : list json :=
  match stimuli with
  | [] => []
  | Deliver message link :: later =>
      match taken_job message with
      | Some j => if link then j :: jobs_answerable later else jobs_answerable later
      | None => jobs_answerable later
      end
  | Wake _ _ :: later => jobs_answerable later
  end.

(** Job ids carried by the [jobResult] messages among some payloads. *)
Definition result_id (message : json) : list json :=
  if has_type "jobResult" message then
    match field "jobId" message with
    | Some j => [j]
    | None => []
    end
  else [].

Definition result_ids (payloads : list json) : list json :=
  flat_map result_id payloads.

Definition is_job_result (message : json) : Prop :=
  exists job_id node, message = job_result job_id node.

Definition is_heartbeat (message : json) : Prop :=
  exists self utcnow, message = heartbeat_message self utcnow.

(** The agent a process starts from. *)
Definition fresh (endpoint token : string) : agent :=
  HypernodeAgent endpoint token.

(** The [result] field the wire protocol describes: an object with logs,
    exit code and the two hashes. *)
Definition structured_result (message : json) : bool :=
  match field "result" message with
  | Some (JObj r) =>
      match lookup "logs" r, lookup "exitCode" r,
            lookup "executionHash" r, lookup "logsHash" r with
      | Some _, Some _, Some _, Some _ => true
      | _, _, _, _ => false
      end
  | _ => false
  end.

(** Heartbeat sends and heartbeat pauses of a trace. *)
Definition is_heartbeat_event (ev : event) : bool :=
  match ev with
  | WsSend message _ => has_type "heartbeat" message
  | Sleep seconds => Nat.eqb seconds 10
  | _ => false
  end.

Definition heartbeat_view (t : list event) : list event :=
  filter is_heartbeat_event t.

(** Every heartbeat that was written is followed by a pause of ten
    seconds before the next heartbeat event, and a heartbeat that could
    not be written is the last one. *)
Fixpoint cadence (view : list event) : bool :=
  match view with
  | [] => true
  | WsSend _ true :: Sleep 10 :: rest => cadence rest
  | [WsSend _ false] => true
  | _ => false
  end.

(** A session with one job, answered and closed. *)
Definition one_job : world :=
  World one_gpu_host None true
        [Wake "2025-01-01T00:00:00" true;
         Deliver (registered_frame "node-1") true;
         Deliver (full_job_frame "job-1" "print('done')" 300) true;
         Wake "2025-01-01T00:00:10" true]
        (Some Exhausted).

(** The connection opens and is closed again before the registration
    request can be written. *)
Definition cut_off : world :=
  World cpu_host None false [] None.

(** A job arrives and the connection closes while its handler waits. *)
Definition lost_job : world :=
  World cpu_host None true
        [Deliver (registered_frame "node-1") true;
         Deliver (full_job_frame "job-1" "print('done')" 300) false]
        (Some (Broken ConnectionClosedError)).

(** The heartbeat task runs once; no frame has arrived. *)
Definition unacknowledged : world :=
  World cpu_host None true [Wake "2025-01-01T00:00:00" true] None.

(** The pauses the code takes: two seconds in place of a job, ten seconds
    between heartbeats. *)
Definition known_pause (ev : event) : Prop := ev = Sleep 2 \/ ev = Sleep 10.

(* ------------------------------------------------------------------ *)
(** ** Further descriptions *)



(** The pauses taken in place of a job. *)
Definition is_job_pause (ev : event) : bool :=
  match ev with Sleep seconds => Nat.eqb seconds 2 | _ => false end.

Definition job_pauses (t : list event) : list event := filter is_job_pause t.

(** The line [main] prints on an interrupt. *)
Definition shutdown_line : event :=
  Print [Lit (String Py.newline "["); Stamp;
         Lit "] 👋 Shutting down gracefully..."].

(** Ctrl-C during the connection attempt or during the session. *)
Definition interrupted (w : world) : Prop :=
  dial w = Some CancelledError \/
  (dial w = None /\ register_link w = true /\
   finish w = Some (Broken CancelledError)).

(** The session is cut by Ctrl-C after a job was answered. *)
Definition interrupted_session : world :=
  World cpu_host None true
        [Wake "2025-01-01T00:00:00" true;
         Deliver (registered_frame "node-1") true;
         Deliver (full_job_frame "job-1" "print('done')" 300) true]
        (Some (Broken CancelledError)).



(** The agent [connect] leaves behind in a world. *)
Definition after_connect (w : world) (self : agent) : agent :=
  match dial w with
  | Some _ => self
  | None =>
      if register_link w then
        closing_state (finish w)
          (with_node_id (connected self)
             (last_registered (schedule w) (node_id self)))
      else connected self
  end.




(** [c in s] for a character. *)
Fixpoint contains (c : ascii) (s : string) : bool :=
  match s with
  | EmptyString => false
  | String d s' => Ascii.eqb d c || contains c s'
  end.

(** A text that can stand in a column of the tool's CSV output and comes
    back unchanged: no comma, no line feed, no blank at either end. *)
Definition clean_field (s : string) : Prop :=
  Py.strip s = s /\ contains Py.comma s = false /\ contains Py.newline s = false.

(** The tool's report for some GPUs, as [--format=csv,noheader] prints it:
    one line per GPU, name and memory separated by a comma and a blank. *)
Fixpoint smi_report (gpus : list (string * string)) : string :=
  match gpus with
  | [] => EmptyString
  | (name, memory) :: rest =>
      (name ++ String Py.comma (String (ascii_of_nat 32) memory)
            ++ String Py.newline (smi_report rest))%string
  end.

(* ------------------------------------------------------------------ *)
(** ** The install script

    The shell script around the agent: it takes the token and an optional
    endpoint as positional parameters, writes [agent.py] into a fresh
    directory, installs the dependency and starts the agent.  It runs
    under [set -e]: a command that fails ends the script with its status,
    except in the condition of an [if] and on the left of [||]. *)

Module Sh.

Inductive event :=
| Echo (text : string)
| Exec (argv : list string) (status : Z)
| Write (file : string) (status : Z)
| Start (argv : list string).          (* started and still running *)

Inductive ending :=
| Exited (status : Z)
| Running.

(** A script so far: what it has done, and a value to go on with or the
    way it ended. *)
Definition sh (A : Type) : Type := (list event * (A + ending))%type.

Definition ret {A} (a : A) : sh A := ([], inl a).

Definition bind {A B} (m : sh A) (k : A -> sh B) : sh B :=
  match snd m with
  | inl a => (fst m ++ fst (k a), snd (k a))
  | inr e => (fst m, inr e)
  end.

Definition echo (text : string) : sh unit := ([Echo text], inl tt).

Definition exit {A} (status : Z) : sh A := ([], inr (Exited status)).

(** A simple command under [set -e]. *)
Definition run (argv : list string) (status : Z) : sh unit :=
  ([Exec argv status], if (status =? 0)%Z then inl tt else inr (Exited status)).

(** A command on the left of [||]: its status is only looked at. *)
Definition try (argv : list string) (status : Z) : sh bool :=
  ([Exec argv status], inl (status =? 0)%Z).

(** What the machine does with the commands of the script. *)
Record env := Env {
  mktemp_d : Z * string;                       (* status, directory printed *)
  cd : string -> Z;
  cat_agent : Z;                               (* [cat > agent.py] *)
  chmod_agent : Z;
  pip3_install : Z;
  python3_pip_install : Z;
  python3_agent : string -> string -> option Z (* endpoint, token *)
}.

(** [$n], empty when the parameter is not set. *)
Definition positional (n : nat) (args : list string) : string :=
  nth (n - 1) args EmptyString.

(** [${value:-default}] *)
Definition or_default (value default : string) : string :=
  match value with
  | EmptyString => default
  | _ => value
  end.

End Sh.

Declare Scope sh_scope.
Delimit Scope sh_scope with sh.
Notation "x <- m ;; k" := (Sh.bind m (fun x => k))
  (at level 61, m at next level, right associativity) : sh_scope.
Notation "m ;; k" := (Sh.bind m (fun _ => k))
  (at level 61, right associativity) : sh_scope.

Definition agent_command (endpoint token : string) : list string :=
  ["python3"; "agent.py"; "--endpoint"; endpoint; "--token"; token].

(** The script, on its positional parameters. *)
Definition install_sh (args : list string) (e : Sh.env) : Sh.sh unit :=
  (let TOKEN := Sh.positional 1 args in
   let ENDPOINT := Sh.or_default (Sh.positional 2 args) "ws://localhost:3003" in
   if Py.is_empty TOKEN then
     Sh.echo "❌ Error: Token is required" ;;
     Sh.echo "Usage: curl -sSL http://localhost:3000/install.sh | bash -s -- YOUR_TOKEN" ;;
     Sh.exit 1
   else
     Sh.echo "🚀 Installing Hypernode GPU Host Agent..." ;;
     Sh.echo EmptyString ;;
     Sh.run ["mktemp"; "-d"] (fst (Sh.mktemp_d e)) ;;
     let TEMP_DIR := snd (Sh.mktemp_d e) in
     Sh.run ["cd"; TEMP_DIR] (Sh.cd e TEMP_DIR) ;;
     Sh.echo "📥 Downloading agent..." ;;
     (([Sh.Write "agent.py" (Sh.cat_agent e)],
       if (Sh.cat_agent e =? 0)%Z then inl tt
       else inr (Sh.Exited (Sh.cat_agent e))) : Sh.sh unit) ;;
     Sh.run ["chmod"; "+x"; "agent.py"] (Sh.chmod_agent e) ;;
     Sh.echo "✅ Agent downloaded!" ;;
     Sh.echo EmptyString ;;
     Sh.echo "📦 Installing dependencies..." ;;
     installed <- Sh.try ["pip3"; "install"; "websockets"; "-q"] (Sh.pip3_install e) ;;
     (if installed then Sh.ret tt
      else Sh.run ["python3"; "-m"; "pip"; "install"; "websockets"; "-q"]
                  (Sh.python3_pip_install e)) ;;
     Sh.echo EmptyString ;;
     Sh.echo "🎉 Installation complete!" ;;
     Sh.echo EmptyString ;;
     Sh.echo "🚀 Starting agent..." ;;
     Sh.echo EmptyString ;;
     match Sh.python3_agent e ENDPOINT TOKEN with
     | Some status =>
         ([Sh.Exec (agent_command ENDPOINT TOKEN) status], inr (Sh.Exited status))
     | None =>
         ([Sh.Start (agent_command ENDPOINT TOKEN)], inr Sh.Running)
     end)%sh.

(** The commands a script has run or started, without its messages. *)
Definition commands (t : list Sh.event) : list Sh.event :=
  filter (fun ev => match ev with Sh.Echo _ => false | _ => true end) t.

(** The command lines with which the agent was run or started. *)
Definition agent_runs (t : list Sh.event) : list (list string) :=
  flat_map (fun ev =>
              match ev with
              | Sh.Exec ("python3" :: "agent.py" :: rest) _ =>
                  ["python3" :: "agent.py" :: rest]
              | Sh.Start argv => [argv]
              | _ => []
              end) t.

(** Everything before the agent goes well. *)
Definition prepared (e : Sh.env) : bool :=
  (fst (Sh.mktemp_d e) =? 0)%Z
  && (Sh.cd e (snd (Sh.mktemp_d e)) =? 0)%Z
  && (Sh.cat_agent e =? 0)%Z
  && (Sh.chmod_agent e =? 0)%Z
  && ((Sh.pip3_install e =? 0)%Z || (Sh.python3_pip_install e =? 0)%Z).

(** A machine on which every step succeeds and the agent ends with the
    given status. *)
Definition smooth (agent : option Z) : Sh.env :=
  Sh.Env (0%Z, "/tmp/tmp.Xa1") (fun _ => 0%Z) 0%Z 0%Z 0%Z 0%Z (fun _ _ => agent).

(** No [pip3] on the path, and the module route fails as well. *)
Definition no_pip : Sh.env :=
  Sh.Env (0%Z, "/tmp/tmp.Xa1") (fun _ => 0%Z) 0%Z 0%Z 127%Z 1%Z (fun _ _ => Some 0%Z).

(* ------------------------------------------------------------------ *)
(** ** The agent of the Windows installer

    The second installer writes its own copy of the agent.  [detect_gpus]
    and [get_host_info] are the same code; the other methods differ in
    what they print, and the job handler in the text it reports. *)

Module Win.

Definition register (h : host) (link : bool) : M agent unit :=
  host_info <- get_host_info h ;;
  self <- get ;;
  let message := JObj [("type", JStr "register");
                       ("token", JStr (token self));
                       ("hostInfo", host_info)] in
  self_ws_send message link ;;
  print [Lit "["; Stamp; Lit "] Registration sent"] ;;
  name <- subscript host_info "hostname" ;;
  print [Lit "  Hostname: "; Val name] ;;
  os <- subscript host_info "os" ;;
  os_version <- subscript host_info "os_version" ;;
  print [Lit "  OS: "; Val os; Lit " "; Val os_version] ;;
  arch <- subscript host_info "arch" ;;
  print [Lit "  Arch: "; Val arch] ;;
  gpus <- subscript host_info "gpus" ;;
  items <- iterate gpus ;;
  (match items with
   | _ :: _ =>
       print [Lit "  GPUs: "; Len (length items)] ;;
       for_each items (fun gpu =>
         model <- subscript gpu "model" ;;
         vram <- subscript gpu "vram" ;;
         print [Lit "    - "; Val model; Lit " ("; Val vram; Lit ")"])
   | [] => print [Lit "  GPUs: None (CPU mode)"]
   end) ;;
  print [Lit EmptyString].

Definition heartbeat_error (e : exn) : event :=
  Print [Lit "["; Stamp; Lit "] Heartbeat error: "; Err e].

Fixpoint send_heartbeat (wakes : list (string * bool)) : M agent unit :=
  match wakes with
  | [] => waiting
  | (utcnow, link) :: later =>
      self <- get ;;
      if running self then
        go_on <- try_except is_Exception
                   (self <- get ;;
                    self_ws_send (heartbeat_message self utcnow) link ;;
                    asyncio_sleep 10 ;;
                    ret true)
                   (fun e =>
                      print [Lit "["; Stamp; Lit "] Heartbeat error: "; Err e] ;;
                      ret false) ;;
        if go_on then send_heartbeat later else ret tt
      else ret tt
  end.

Definition job_result (job_id node : json) : json :=
  JObj [("type", JStr "jobResult");
        ("jobId", job_id);
        ("nodeId", node);
        ("status", JStr "completed");
        ("result", JStr "Job completed")].

Definition handle_message_try (message : frame) (link : bool) : M agent unit :=
  data <- json_loads message ;;
  msg_type <- dict_get data "type" JNull ;;
  if eq_str msg_type "registered" then
    nid <- dict_get data "nodeId" JNull ;;
    set_node_id nid ;;
    self <- get ;;
    print [Lit "["; Stamp; Lit "] ==================================="] ;;
    print [Lit "["; Stamp; Lit "] REGISTRATION SUCCESSFUL!"] ;;
    print [Lit "["; Stamp; Lit "] ==================================="] ;;
    print [Lit "  Node ID: "; Val (node_id self)] ;;
    print [Lit "  Status: ONLINE"] ;;
    print [Lit EmptyString] ;;
    print [Lit "  View your node at: http://localhost:3000/app"] ;;
    print [Lit EmptyString] ;;
    print [Lit "["; Stamp; Lit "] Waiting for compute jobs..."] ;;
    print [Lit EmptyString]
  else if eq_str msg_type "job" then
    job_id <- dict_get data "jobId" JNull ;;
    print [Lit "["; Stamp; Lit "] Received job: "; Val job_id] ;;
    asyncio_sleep 2 ;;
    self <- get ;;
    self_ws_send (job_result job_id (node_id self)) link ;;
    print [Lit "["; Stamp; Lit "] Job "; Val job_id; Lit " completed"]
  else if eq_str msg_type "error" then
    text <- dict_get data "message" (JStr "Unknown") ;;
    print [Lit "["; Stamp; Lit "] Error from server: "; Val text]
  else ret tt.

Definition handling_error (e : exn) : event :=
  Print [Lit "["; Stamp; Lit "] Error handling message: "; Err e].

Definition handle_message (message : frame) (link : bool) : M agent unit :=
  try_except is_Exception
    (handle_message_try message link)
    (fun e => print [Lit "["; Stamp; Lit "] Error handling message: "; Err e]).

Fixpoint receive_loop (heartbeat : bool) (stimuli : list stimulus)
    (fin : option ending) : M agent unit :=
  match stimuli with
  | [] =>
      match fin with
      | None => waiting
      | Some Exhausted => ret tt
      | Some (Broken e) => raise e
      end
  | Deliver message link :: later =>
      handle_message message link ;;
      receive_loop heartbeat later fin
  | Wake utcnow link :: later =>
      if heartbeat then
        alive <- step_task (send_heartbeat [(utcnow, link)]) ;;
        receive_loop alive later fin
      else receive_loop heartbeat later fin
  end.

Definition connect (w : world) : M agent unit :=
  self <- get ;;
  print [Lit "["; Stamp; Lit "] Connecting to "; Val (JStr (endpoint self)); Lit "..."] ;;
  try_except is_Exception
    (websocket <- websockets_connect (endpoint self) (dial w) ;;
     set_ws websocket ;;
     set_running true ;;
     print [Lit "["; Stamp; Lit "] Connected successfully!"] ;;
     print [Lit EmptyString] ;;
     register (platform w) (register_link w) ;;
     try_finally
       (try_except is_ConnectionClosed
          (receive_loop true (schedule w) (finish w))
          (fun _ => print [Lit "["; Stamp; Lit "] Connection closed by server"]))
       (set_running false))
    (fun e =>
       print [Lit "["; Stamp; Lit "] Connection error: "; Err e] ;;
       print [Lit EmptyString] ;;
       print [Lit "Possible issues:"] ;;
       print [Lit "  - Backend server not running"] ;;
       print [Lit "  - Wrong endpoint address"] ;;
       print [Lit "  - Firewall blocking connection"] ;;
       raise e).

Definition main (w : world) : M agent unit :=
  print [Lit rule] ;;
  print [Lit "   HYPERNODE GPU HOST AGENT"] ;;
  print [Lit rule] ;;
  print [Lit EmptyString] ;;
  try_except (fun e => is_KeyboardInterrupt e || is_Exception e)
    (asyncio_run (connect w))
    (fun e =>
       if is_KeyboardInterrupt e then
         print [Lit (String Py.newline "["); Stamp;
                Lit "] Shutting down gracefully..."] ;;
         print [Lit "Goodbye!"]
       else
         print [Lit (String Py.newline "["); Stamp;
                Lit "] Fatal error: "; Err e] ;;
         raise (SystemExit 1)).

Definition process (endpoint token : string) (w : world) : run agent unit :=
  main w (HypernodeAgent endpoint token).

End Win.

(** What a trace shows outside the console: everything but the prints. *)
Definition wire (t : list event) : list event :=
  filter (fun ev => negb (is_print ev)) t.

(** A [jobResult] with the result text of the Windows agent. *)
Definition retext (message : json) : json :=
  match message with
  | JObj fields =>
      if has_type "jobResult" message then
        JObj (map (fun kv =>
                     if String.eqb (fst kv) "result"
                     then ("result", JStr "Job completed")
                     else kv) fields)
      else message
  | _ => message
  end.

Definition retext_event (ev : event) : event :=
  match ev with
  | WsSend payload delivered => WsSend (retext payload) delivered
  | _ => ev
  end.

(** Two runs that differ in their prints and in the result text only. *)
Definition same_on_wire {A} (win unix : run agent A) : Prop :=
  wire (trace win) = map retext_event (wire (trace unix))
  /\ final win = final unix
  /\ result win = result unix.

(* ------------------------------------------------------------------ *)
(** ** The agent of the PowerShell module

    [public/install.ps1] writes a shorter agent: its handler has no
    [try] and knows the [registered] frame only, its heartbeat task ends
    silently on any exception, and neither [connect] nor the program
    catches anything. *)

Module Ps.

Definition register (h : host) (link : bool) : M agent unit :=
  host_info <- get_host_info h ;;
  self <- get ;;
  self_ws_send (JObj [("type", JStr "register");
                      ("token", JStr (token self));
                      ("hostInfo", host_info)]) link ;;
  print [Lit "["; Stamp; Lit "] ✅ Registration sent"] ;;
  name <- subscript host_info "hostname" ;;
  print [Lit "  📍 Hostname: "; Val name] ;;
  gpus <- subscript host_info "gpus" ;;
  items <- iterate gpus ;;
  print [Lit "  🎮 GPUs: ";
         match items with
         | [] => Lit "None (CPU mode)"
         | _ => Len (length items)
         end].

Fixpoint send_heartbeat (wakes : list (string * bool)) : M agent unit :=
  match wakes with
  | [] => waiting
  | (utcnow, link) :: later =>
      self <- get ;;
      if running self then
        go_on <- try_except (fun _ => true)
                   (self <- get ;;
                    self_ws_send (heartbeat_message self utcnow) link ;;
                    asyncio_sleep 10 ;;
                    ret true)
                   (fun _ => ret false) ;;
        if go_on then send_heartbeat later else ret tt
      else ret tt
  end.

Definition handle_message (message : frame) : M agent unit :=
  data <- json_loads message ;;
  msg_type <- dict_get data "type" JNull ;;
  if eq_str msg_type "registered" then
    nid <- dict_get data "nodeId" JNull ;;
    set_node_id nid ;;
    self <- get ;;
    print [Lit "["; Stamp; Lit "] ✅ Registered! Node ID: "; Val (node_id self)] ;;
    print [Lit "  🌐 View at: http://localhost:3000/app"; Lit (String Py.newline EmptyString)]
  else ret tt.

Fixpoint receive_loop (heartbeat : bool) (stimuli : list stimulus)
    (fin : option ending) : M agent unit :=
  match stimuli with
  | [] =>
      match fin with
      | None => waiting
      | Some Exhausted => ret tt
      | Some (Broken e) => raise e
      end
  | Deliver message _ :: later =>
      handle_message message ;;
      receive_loop heartbeat later fin
  | Wake utcnow link :: later =>
      if heartbeat then
        alive <- step_task (send_heartbeat [(utcnow, link)]) ;;
        receive_loop alive later fin
      else receive_loop heartbeat later fin
  end.

Definition connect (w : world) : M agent unit :=
  self <- get ;;
  print [Lit "["; Stamp; Lit "] 🔌 Connecting to "; Val (JStr (endpoint self)); Lit "..."] ;;
  websocket <- websockets_connect (endpoint self) (dial w) ;;
  set_ws websocket ;;
  set_running true ;;
  print [Lit "["; Stamp; Lit "] ✅ Connected!"] ;;
  register (platform w) (register_link w) ;;
  try_finally
    (receive_loop true (schedule w) (finish w))
    (set_running false).

(** The program after argument parsing. *)
Definition program (endpoint token : string) (w : world) : run agent unit :=
  (print [Lit rule] ;;
   print [Lit "🚀 Hypernode GPU Host Agent"] ;;
   print [Lit rule; Lit (String Py.newline EmptyString)] ;;
   asyncio_run (connect w)) (HypernodeAgent endpoint token).

End Ps.

(** The exception the handler of that agent raises on a frame, if any:
    from [json.loads], from [data.get], or from the line printed for a
    [registered] frame whose node id cannot be written. *)
Definition frame_error (message : frame) : option exn :=
  match message with
  | Garbage _ => Some JSONDecodeError
  | Refused why => Some (refusal_error why)
  | Json (JObj fields) =>
      if has_type "registered" (JObj fields)
         && negb (encodable (get_or_null "nodeId" fields))
      then Some UnicodeEncodeError
      else None
  | Json _ => Some AttributeError
  end.


(* ================================================================== *)
(** * Properties *)

(** ** Strings *)

Lemma split_not_nil sep s : Py.split sep s <> [].
Proof.
  destruct s as [|c s]; simpl; [discriminate|].
  destruct (Ascii.eqb c sep); [discriminate|].
  destruct (Py.split sep s); discriminate.
Qed.

Lemma split_cons sep c s :
  Ascii.eqb c sep = false ->
  exists head tail,
    Py.split sep s = head :: tail /\
    Py.split sep (String c s) = String c head :: tail.
Proof.
  intros Hc. simpl. rewrite Hc.
  destruct (Py.split sep s) as [|head tail] eqn:E.
  - exfalso. exact (split_not_nil _ _ E).
  - exists head, tail. split; reflexivity.
Qed.

Lemma space_not_comma c : Py.isspace c = true -> Ascii.eqb c Py.comma = false.
Proof.
  intros H. destruct (Ascii.eqb c Py.comma) eqn:E; [|reflexivity].
  apply Ascii.eqb_eq in E. subst c. discriminate H.
Qed.

Lemma strip_cons_space c s :
  Py.isspace c = true -> Py.strip (String c s) = Py.strip s.
Proof.
  intros Hc. unfold Py.strip. simpl. rewrite Hc, andb_true_r.
  destruct (Py.rstrip s) as [|d r] eqn:E; simpl.
  - reflexivity.
  - rewrite Hc. reflexivity.
Qed.

Lemma rstrip_snoc_space c s :
  Py.isspace c = true -> Py.rstrip (snoc s c) = Py.rstrip s.
Proof.
  intros Hc. unfold snoc. induction s as [|d s IH]; simpl.
  - rewrite Hc. reflexivity.
  - rewrite IH. reflexivity.
Qed.

Lemma strip_snoc_space c s :
  Py.isspace c = true -> Py.strip (snoc s c) = Py.strip s.
Proof.
  intros Hc. unfold Py.strip. rewrite rstrip_snoc_space by exact Hc. reflexivity.
Qed.

Lemma split_snoc sep c s :
  Py.split sep (snoc s c) =
  if Ascii.eqb c sep then Py.split sep s ++ [EmptyString]
  else map_last (fun line => snoc line c) (Py.split sep s).
Proof.
  unfold snoc. induction s as [|a s IH].
  - simpl. destruct (Ascii.eqb c sep); reflexivity.
  - change (String a s ++ String c EmptyString)%string
      with (String a (s ++ String c EmptyString))%string.
    destruct (Ascii.eqb a sep) eqn:Ea.
    + simpl. rewrite Ea, IH.
      destruct (Ascii.eqb c sep); [reflexivity|].
      destruct (Py.split sep s) as [|h t] eqn:E; [exfalso; exact (split_not_nil _ _ E)|].
      reflexivity.
    + simpl. rewrite Ea, IH.
      destruct (Py.split sep s) as [|h t] eqn:E; [exfalso; exact (split_not_nil _ _ E)|].
      destruct (Ascii.eqb c sep).
      * reflexivity.
      * destruct t; reflexivity.
Qed.

(** ** GPU detection *)

Lemma line_entry_single c :
  Py.isspace c = true -> line_entry (String c EmptyString) = [].
Proof.
  intros Hc. unfold line_entry. simpl.
  rewrite (space_not_comma _ Hc). reflexivity.
Qed.

Lemma line_entry_cons_space c line :
  Py.isspace c = true -> line_entry (String c line) = line_entry line.
Proof.
  intros Hc. destruct line as [|d rest].
  - rewrite line_entry_single by exact Hc. reflexivity.
  - destruct (split_cons Py.comma c (String d rest) (space_not_comma _ Hc))
      as (head & tail & E1 & E2).
    unfold line_entry. rewrite E1, E2.
    destruct tail as [|second more]; [reflexivity|].
    rewrite strip_cons_space by exact Hc. reflexivity.
Qed.

Lemma line_entry_snoc_space c line :
  Py.isspace c = true -> line_entry (snoc line c) = line_entry line.
Proof.
  intros Hc. destruct line as [|d rest].
  - apply line_entry_single. exact Hc.
  - assert (E : Py.split Py.comma (snoc (String d rest) c) =
                map_last (fun p => snoc p c) (Py.split Py.comma (String d rest))).
    { rewrite split_snoc, (space_not_comma _ Hc). reflexivity. }
    unfold line_entry at 1 2. change (snoc (String d rest) c)
      with (String d (snoc rest c)) at 1.
    change (String d (snoc rest c)) with (snoc (String d rest) c).
    rewrite E.
    destruct (Py.split Py.comma (String d rest)) as [|first [|second [|third more]]];
      simpl; try reflexivity.
    rewrite strip_snoc_space by exact Hc. reflexivity.
Qed.

Lemma lines_cons_space c s :
  Py.isspace c = true ->
  flat_map line_entry (Py.split Py.newline (String c s)) =
  flat_map line_entry (Py.split Py.newline s).
Proof.
  intros Hc. destruct (Ascii.eqb c Py.newline) eqn:E.
  - simpl. rewrite E. reflexivity.
  - destruct (split_cons Py.newline c s E) as (head & tail & E1 & E2).
    rewrite E1, E2. cbn [flat_map].
    rewrite line_entry_cons_space by exact Hc. reflexivity.
Qed.

Lemma lines_lstrip s :
  flat_map line_entry (Py.split Py.newline (Py.lstrip s)) =
  flat_map line_entry (Py.split Py.newline s).
Proof.
  induction s as [|c s IH]; [reflexivity|].
  cbn [Py.lstrip]. destruct (Py.isspace c) eqn:Hc; [|reflexivity].
  rewrite IH. symmetry. apply lines_cons_space. exact Hc.
Qed.

Lemma flat_map_map_last (f : string -> string) lines :
  (forall line, line_entry (f line) = line_entry line) ->
  flat_map line_entry (map_last f lines) = flat_map line_entry lines.
Proof.
  intros Hf. induction lines as [|x [|y rest] IH]; simpl in *.
  - reflexivity.
  - rewrite Hf. reflexivity.
  - rewrite IH. reflexivity.
Qed.

Lemma lines_snoc_space c s :
  Py.isspace c = true ->
  flat_map line_entry (Py.split Py.newline (snoc s c)) =
  flat_map line_entry (Py.split Py.newline s).
Proof.
  intros Hc. rewrite split_snoc.
  destruct (Ascii.eqb c Py.newline).
  - rewrite flat_map_app. simpl. apply app_nil_r.
  - apply flat_map_map_last. intros line.
    apply line_entry_snoc_space. exact Hc.
Qed.

Lemma append_snoc s c w :
  (s ++ String c w)%string = (snoc s c ++ w)%string.
Proof.
  unfold snoc. induction s as [|a s IH]; simpl; [reflexivity|].
  rewrite IH. reflexivity.
Qed.

Lemma lines_append_space w : forall s,
  all_space w = true ->
  flat_map line_entry (Py.split Py.newline (s ++ w)%string) =
  flat_map line_entry (Py.split Py.newline s).
Proof.
  induction w as [|c w IH]; intros s Hw.
  - assert (E : (s ++ EmptyString)%string = s).
    { clear. induction s as [|a s IH]; simpl; [reflexivity|]. rewrite IH. reflexivity. }
    rewrite E. reflexivity.
  - simpl in Hw. apply andb_true_iff in Hw. destruct Hw as [Hc Hw].
    rewrite append_snoc, IH by exact Hw.
    apply lines_snoc_space. exact Hc.
Qed.

Lemma rstrip_tail s :
  exists w, all_space w = true /\ s = (Py.rstrip s ++ w)%string.
Proof.
  induction s as [|c s (w & Hw & E)].
  - exists EmptyString. split; reflexivity.
  - simpl. destruct (Py.rstrip s) as [|d r] eqn:Er; simpl.
    + destruct (Py.isspace c) eqn:Hc.
      * exists (String c s). split; [|reflexivity].
        simpl. rewrite Hc. simpl in E. rewrite E. exact Hw.
      * exists w. split; [exact Hw|]. simpl in E. rewrite <- E. reflexivity.
    + exists w. split; [exact Hw|]. simpl in E. rewrite <- E. reflexivity.
Qed.

Lemma lines_strip s :
  flat_map line_entry (Py.split Py.newline (Py.strip s)) =
  flat_map line_entry (Py.split Py.newline s).
Proof.
  unfold Py.strip. rewrite lines_lstrip.
  destruct (rstrip_tail s) as (w & Hw & E).
  rewrite E at 2. symmetry. apply lines_append_space. exact Hw.
Qed.

Lemma detect_line_entry line gpus :
  detect_line line gpus = Run [] (gpus ++ line_entry line) (Returned tt).
Proof.
  unfold detect_line, line_entry, Py.truthy.
  destruct line as [|c rest]; simpl Py.is_empty; cbv iota beta.
  - simpl. rewrite app_nil_r. reflexivity.
  - destruct (Py.split Py.comma (String c rest)) as [|first [|second more]];
      simpl; try (rewrite app_nil_r); reflexivity.
Qed.

Lemma for_each_detect_line lines : forall gpus,
  for_each lines detect_line gpus =
  Run [] (gpus ++ flat_map line_entry lines) (Returned tt).
Proof.
  induction lines as [|line lines IH]; intros gpus.
  - simpl. rewrite app_nil_r. reflexivity.
  - simpl. unfold bind. rewrite detect_line_entry. simpl.
    rewrite IH. simpl. rewrite <- app_assoc. reflexivity.
Qed.

Lemma detect_gpus_run {S} smi (s : S) :
  detect_gpus smi s = Run [] s (Returned (gpus_of_outcome smi)).
Proof.
  unfold detect_gpus, gpus_of_outcome.
  destruct smi as [e|rc out].
  - reflexivity.
  - unfold bind, try_except, subprocess_run. simpl.
    destruct rc as [|rc|rc]; simpl; try reflexivity.
    rewrite for_each_detect_line. simpl.
    rewrite lines_strip. reflexivity.
Qed.

(** ** The message handler, case by case *)

Lemma eq_str_true v text : eq_str v text = true -> v = JStr text.
Proof.
  destruct v; simpl; try discriminate.
  intros H. apply String.eqb_eq in H. subst. reflexivity.
Qed.

Lemma eq_str_exclusive v a b :
  String.eqb a b = false -> eq_str v a = true -> eq_str v b = false.
Proof.
  intros Hab Ha. apply eq_str_true in Ha. subst v. exact Hab.
Qed.

Lemma has_type_tag tag fields :
  has_type tag (JObj fields) = eq_str (get_or_null "type" fields) tag.
Proof.
  unfold has_type, get_or_null. destruct (lookup "type" fields); reflexivity.
Qed.

Lemma handle_garbage text link self :
  handle_message (Garbage text) link self =
  Run [handling_error JSONDecodeError] self (Returned tt).
Proof. reflexivity. Qed.

Lemma handle_not_dict data link self :
  is_dict data = false ->
  handle_message (Json data) link self =
  Run [handling_error AttributeError] self (Returned tt).
Proof. destruct data; try discriminate; reflexivity. Qed.

Lemma run_eta {S A} (r : run S A) : Run (trace r) (final r) (result r) = r.
Proof. destruct r. reflexivity. Qed.

Lemma bind_ret {S A B} (a : A) (k : A -> M S B) s : bind (ret a) k s = k a s.
Proof. unfold bind, ret. simpl. apply run_eta. Qed.

Lemma try_except_returned {S A} catches (body : M S A) handler s t s' a :
  body s = Run t s' (Returned a) ->
  try_except catches body handler s = Run t s' (Returned a).
Proof. intros E. unfold try_except. rewrite E. reflexivity. Qed.

Lemma bind_returned {S A B} (m : M S A) (k : A -> M S B) s t s' a :
  m s = Run t s' (Returned a) -> bind m k s = prefix t (k a s').
Proof. intros E. unfold bind, prefix. rewrite E. reflexivity. Qed.

Lemma bind_raised {S A B} (m : M S A) (k : A -> M S B) s t s' e :
  m s = Run t s' (Raised e) -> bind m k s = Run t s' (Raised e).
Proof. intros E. unfold bind. rewrite E. reflexivity. Qed.

Lemma prefix_nil {S A} (r : run S A) : prefix [] r = r.
Proof. apply run_eta. Qed.

(** Evaluates the primitive computations of the monad. *)
Ltac run_norm :=
  cbn beta iota zeta delta
    [bind ret raise emit get put print asyncio_sleep ws_send self_ws_send
     set_ws set_running set_node_id websockets_connect
     forallb piece_encodable encodable andb
     trace final result app endpoint token node_id ws running].

(** Runs the first computation of a sequence. *)
Ltac run_step :=
  cbv beta zeta;
  first [ erewrite bind_returned by (run_norm; reflexivity)
        | erewrite bind_raised by (run_norm; reflexivity) ].

(** The [try] block on a dict, once the type tag is read. *)
Ltac read_tag fields :=
  unfold handle_message_try, json_loads;
  rewrite bind_ret; cbn [dict_get]; rewrite bind_ret;
  fold (get_or_null "type" fields).

Lemma print_ok {S} (line : list piece) (s : S) :
  forallb piece_encodable line = true ->
  print line s = Run [Print line] s (Returned tt).
Proof. intros H. unfold print. rewrite H. reflexivity. Qed.

Lemma print_fails {S} (line : list piece) (s : S) :
  forallb piece_encodable line = false ->
  print line s = Run [] s (Raised UnicodeEncodeError).
Proof. intros H. unfold print. rewrite H. reflexivity. Qed.

(** Runs a [print] whose line holds a value known to be writable, or known
    not to be. *)
Ltac print_step He :=
  cbv beta zeta;
  first [ erewrite bind_returned
            by (apply print_ok; cbn [forallb piece_encodable encodable andb];
                rewrite ?He; reflexivity)
        | erewrite bind_raised
            by (apply print_fails; cbn [forallb piece_encodable encodable andb];
                rewrite ?He; reflexivity) ].

Lemma caught_and_logged message link self t s' e :
  handle_message_try message link self = Run t s' (Raised e) ->
  is_Exception e = true ->
  handle_message message link self = Run (t ++ [handling_error e]) s' (Returned tt).
Proof.
  intros E He. unfold handle_message, try_except. rewrite E.
  cbn [result trace final]. rewrite He. reflexivity.
Qed.

Lemma handle_try_registered fields link self :
  has_type "registered" (JObj fields) = true ->
  handle_message_try (Json (JObj fields)) link self =
  Run (Print [Lit "["; Stamp; Lit "] ✅ Registered successfully!"] ::
       if encodable (get_or_null "nodeId" fields) then
         [Print [Lit "  🆔 Node ID: "; Val (get_or_null "nodeId" fields)];
          Print [Lit "  💚 Status: Online"];
          Print [Lit EmptyString];
          Print [Lit "  🌐 View your node at: http://localhost:3000/app"];
          Print [Lit EmptyString]]
       else [])
      (with_node_id self (get_or_null "nodeId" fields))
      (if encodable (get_or_null "nodeId" fields) then Returned tt
       else Raised UnicodeEncodeError).
Proof.
  rewrite has_type_tag. intros H.
  read_tag fields. rewrite H.
  cbn [dict_get]. rewrite bind_ret. fold (get_or_null "nodeId" fields).
  do 3 run_step. cbn [node_id].
  destruct (encodable (get_or_null "nodeId" fields)) eqn:He.
  - print_step He. repeat run_step. reflexivity.
  - print_step He. reflexivity.
Qed.

Lemma handle_registered fields link self :
  has_type "registered" (JObj fields) = true ->
  handle_message (Json (JObj fields)) link self =
  Run (registered_trace (get_or_null "nodeId" fields))
      (with_node_id self (get_or_null "nodeId" fields)) (Returned tt).
Proof.
  intros H. pose proof (handle_try_registered fields link self H) as E.
  unfold registered_trace.
  destruct (encodable (get_or_null "nodeId" fields)).
  - apply try_except_returned. exact E.
  - apply (caught_and_logged _ _ _ _ _ UnicodeEncodeError E eq_refl).
Qed.

Lemma handle_try_job fields link self :
  has_type "job" (JObj fields) = true ->
  handle_message_try (Json (JObj fields)) link self =
  if encodable (get_or_null "jobId" fields) then
    Run ([Print [Lit "["; Stamp; Lit "] 📋 Received job: ";
                 Val (get_or_null "jobId" fields)]; Sleep 2] ++
         match ws self with
         | None => []
         | Some _ =>
             WsSend (job_result (get_or_null "jobId" fields) (node_id self)) link ::
             if link
             then [Print [Lit "["; Stamp; Lit "] ✅ Job ";
                          Val (get_or_null "jobId" fields); Lit " completed"]]
             else []
         end)
        self
        (match ws self with
         | None => Raised AttributeError
         | Some _ => if link then Returned tt else Raised ConnectionClosedError
         end)
  else Run [] self (Raised UnicodeEncodeError).
Proof.
  rewrite has_type_tag. intros H.
  assert (H' : eq_str (get_or_null "type" fields) "registered" = false)
    by (apply (eq_str_exclusive _ "job"); [reflexivity | exact H]).
  read_tag fields. rewrite H', H.
  cbn [dict_get]. rewrite bind_ret. fold (get_or_null "jobId" fields).
  destruct (encodable (get_or_null "jobId" fields)) eqn:He.
  - print_step He. do 2 run_step.
    destruct self as [ep tk nid [sock|] rn]; destruct link; cbn [ws node_id].
    + run_step.
      rewrite print_ok
        by (cbn [forallb piece_encodable]; rewrite He; reflexivity).
      reflexivity.
    + run_step. reflexivity.
    + run_step. reflexivity.
    + run_step. reflexivity.
  - print_step He. reflexivity.
Qed.

Lemma handle_job fields link self :
  has_type "job" (JObj fields) = true ->
  handle_message (Json (JObj fields)) link self =
  Run (job_trace self (get_or_null "jobId" fields) link) self (Returned tt).
Proof.
  intros H. pose proof (handle_try_job fields link self H) as E.
  unfold job_trace.
  destruct (encodable (get_or_null "jobId" fields)).
  - unfold handle_message, try_except. rewrite E.
    destruct (ws self); [destruct link|]; reflexivity.
  - apply (caught_and_logged _ _ _ [] self UnicodeEncodeError E eq_refl).
Qed.

Lemma handle_try_error fields link self :
  has_type "error" (JObj fields) = true ->
  handle_message_try (Json (JObj fields)) link self =
  if encodable (error_text fields) then
    Run [Print [Lit "["; Stamp; Lit "] ❌ Error: "; Val (error_text fields)]]
        self (Returned tt)
  else Run [] self (Raised UnicodeEncodeError).
Proof.
  rewrite has_type_tag. intros H.
  assert (H1 : eq_str (get_or_null "type" fields) "registered" = false)
    by (apply (eq_str_exclusive _ "error"); [reflexivity | exact H]).
  assert (H2 : eq_str (get_or_null "type" fields) "job" = false)
    by (apply (eq_str_exclusive _ "error"); [reflexivity | exact H]).
  read_tag fields. rewrite H1, H2, H.
  cbn [dict_get]. rewrite bind_ret. fold (error_text fields).
  destruct (encodable (error_text fields)) eqn:He.
  - apply print_ok. cbn [forallb piece_encodable]. rewrite He. reflexivity.
  - apply print_fails. cbn [forallb piece_encodable]. rewrite He. reflexivity.
Qed.

Lemma handle_error fields link self :
  has_type "error" (JObj fields) = true ->
  handle_message (Json (JObj fields)) link self =
  Run (error_trace fields) self (Returned tt).
Proof.
  intros H. pose proof (handle_try_error fields link self H) as E.
  unfold error_trace.
  destruct (encodable (error_text fields)).
  - apply try_except_returned. exact E.
  - apply (caught_and_logged _ _ _ [] self UnicodeEncodeError E eq_refl).
Qed.

Lemma handle_try_other fields link self :
  has_type "registered" (JObj fields) = false ->
  has_type "job" (JObj fields) = false ->
  has_type "error" (JObj fields) = false ->
  handle_message_try (Json (JObj fields)) link self = Run [] self (Returned tt).
Proof.
  rewrite !has_type_tag. intros H1 H2 H3.
  read_tag fields. rewrite H1, H2, H3. reflexivity.
Qed.

Lemma handle_other fields link self :
  has_type "registered" (JObj fields) = false ->
  has_type "job" (JObj fields) = false ->
  has_type "error" (JObj fields) = false ->
  handle_message (Json (JObj fields)) link self = Run [] self (Returned tt).
Proof.
  intros H1 H2 H3. apply try_except_returned.
  apply handle_try_other; assumption.
Qed.

Lemma handle_message_run message link self :
  handle_message message link self =
  Run (reaction message link self) (after_message message self) (Returned tt).
Proof.
  destruct message as [text|why|data]; [reflexivity|destruct why; reflexivity|].
  destruct data; try reflexivity.
  unfold reaction, after_message, registered_id.
  destruct (has_type "registered" (JObj fields)) eqn:H1.
  { apply handle_registered. exact H1. }
  destruct (has_type "job" (JObj fields)) eqn:H2.
  { apply handle_job. exact H2. }
  destruct (has_type "error" (JObj fields)) eqn:H3.
  { apply handle_error. exact H3. }
  apply handle_other; assumption.
Qed.

Lemma after_message_ws message self : ws (after_message message self) = ws self.
Proof. unfold after_message. destruct (registered_id message); reflexivity. Qed.

Lemma after_message_running message self :
  running (after_message message self) = running self.
Proof. unfold after_message. destruct (registered_id message); reflexivity. Qed.

Lemma has_type_job_not_registered fields :
  has_type "job" (JObj fields) = true ->
  has_type "registered" (JObj fields) = false.
Proof.
  rewrite !has_type_tag. apply eq_str_exclusive. reflexivity.
Qed.

(** Splits on the lines of a handler that the console may refuse. *)
Ltac console_cases :=
  unfold registered_trace, error_trace, job_trace;
  repeat match goal with
         | |- context [if encodable ?v then _ else _] => destruct (encodable v)
         end.

Lemma reaction_send_calls message link self sock :
  ws self = Some sock ->
  send_calls (reaction message link self) =
  match taken_job message with
  | Some j => [job_result j (node_id self)]
  | None => []
  end.
Proof.
  intros Hws. destruct message as [text|why|data]; [reflexivity|reflexivity|].
  destruct data; try reflexivity.
  unfold reaction, taken_job, job_id_of.
  destruct (has_type "job" (JObj fields)) eqn:H2.
  - rewrite (has_type_job_not_registered _ H2).
    unfold job_trace. destruct (encodable _); [|reflexivity].
    rewrite Hws. simpl. destruct link; reflexivity.
  - destruct (has_type "registered" (JObj fields)); [console_cases; reflexivity|].
    destruct (has_type "error" (JObj fields)); console_cases; reflexivity.
Qed.

Lemma reaction_sent message link self sock :
  ws self = Some sock ->
  sent (reaction message link self) =
  match taken_job message with
  | Some j => if link then [job_result j (node_id self)] else []
  | None => []
  end.
Proof.
  intros Hws. destruct message as [text|why|data]; [reflexivity|reflexivity|].
  destruct data; try reflexivity.
  unfold reaction, taken_job, job_id_of.
  destruct (has_type "job" (JObj fields)) eqn:H2.
  - rewrite (has_type_job_not_registered _ H2).
    unfold job_trace. destruct (encodable _); [|reflexivity].
    rewrite Hws. simpl. destruct link; reflexivity.
  - destruct (has_type "registered" (JObj fields)); [console_cases; reflexivity|].
    destruct (has_type "error" (JObj fields)); console_cases; reflexivity.
Qed.

Lemma reaction_calls_shape message link self :
  Forall is_job_result (send_calls (reaction message link self)).
Proof.
  destruct message as [text|why|data]; [constructor|constructor|].
  destruct data; try constructor.
  unfold reaction.
  destruct (has_type "registered" (JObj fields)); [console_cases; constructor|].
  destruct (has_type "job" (JObj fields)).
  { unfold job_trace. destruct (encodable _); [|constructor].
    destruct (ws self); [|constructor].
    destruct link; (constructor; [eexists; eexists; reflexivity | constructor]). }
  destruct (has_type "error" (JObj fields)); console_cases; constructor.
Qed.

(** ** The heartbeat task and the receive loop *)

Lemma step_heartbeat utcnow link self :
  step_task (send_heartbeat [(utcnow, link)]) self =
  Run (fst (beat self utcnow link)) self (Returned (snd (beat self utcnow link))).
Proof.
  destruct self as [ep tk nid [sock|] [|]]; destruct link; reflexivity.
Qed.

Lemma receive_loop_deliver hb message link later fin self :
  receive_loop hb (Deliver message link :: later) fin self =
  let r := receive_loop hb later fin (after_message message self) in
  Run (reaction message link self ++ trace r) (final r) (result r).
Proof.
  cbn [receive_loop]. unfold bind. rewrite handle_message_run. reflexivity.
Qed.

Lemma receive_loop_wake utcnow link later fin self :
  receive_loop true (Wake utcnow link :: later) fin self =
  let r := receive_loop (snd (beat self utcnow link)) later fin self in
  Run (fst (beat self utcnow link) ++ trace r) (final r) (result r).
Proof.
  cbn [receive_loop]. unfold bind. rewrite step_heartbeat. reflexivity.
Qed.

Lemma receive_loop_wake_dead utcnow link later fin self :
  receive_loop false (Wake utcnow link :: later) fin self =
  receive_loop false later fin self.
Proof. reflexivity. Qed.

Lemma receive_loop_result stimuli fin : forall hb self,
  result (receive_loop hb stimuli fin self) = loop_result fin.
Proof.
  induction stimuli as [|[message link|utcnow link] later IH]; intros hb self.
  - destruct fin as [[|e]|]; reflexivity.
  - rewrite receive_loop_deliver. simpl. apply IH.
  - destruct hb.
    + rewrite receive_loop_wake. simpl. apply IH.
    + rewrite receive_loop_wake_dead. apply IH.
Qed.

Lemma receive_loop_ws stimuli fin : forall hb self,
  ws (final (receive_loop hb stimuli fin self)) = ws self.
Proof.
  induction stimuli as [|[message link|utcnow link] later IH]; intros hb self.
  - destruct fin as [[|e]|]; reflexivity.
  - rewrite receive_loop_deliver. simpl. rewrite IH. apply after_message_ws.
  - destruct hb.
    + rewrite receive_loop_wake. simpl. apply IH.
    + rewrite receive_loop_wake_dead. apply IH.
Qed.

Lemma receive_loop_running stimuli fin : forall hb self,
  running (final (receive_loop hb stimuli fin self)) = running self.
Proof.
  induction stimuli as [|[message link|utcnow link] later IH]; intros hb self.
  - destruct fin as [[|e]|]; reflexivity.
  - rewrite receive_loop_deliver. simpl. rewrite IH. apply after_message_running.
  - destruct hb.
    + rewrite receive_loop_wake. simpl. apply IH.
    + rewrite receive_loop_wake_dead. apply IH.
Qed.

(** ** Registration *)

Lemma line_entry_entries line : Forall is_gpu_entry (line_entry line).
Proof.
  unfold line_entry. destruct line as [|c rest]; [constructor|].
  destruct (Py.split Py.comma (String c rest)) as [|first [|second more]];
    constructor; [|constructor].
  exists (Py.strip first), (Py.strip second). reflexivity.
Qed.

Lemma gpus_are_entries smi : Forall is_gpu_entry (gpus_of_outcome smi).
Proof.
  destruct smi as [e|rc out]; [constructor|].
  destruct rc; try constructor. simpl.
  induction (Py.split Py.newline out) as [|line lines IH]; simpl.
  - constructor.
  - apply Forall_app. split; [apply line_entry_entries | exact IH].
Qed.

Lemma for_each_gpu_lines items (self : agent) :
  Forall is_gpu_entry items ->
  for_each items (fun gpu =>
    model <- subscript gpu "model" ;;
    vram <- subscript gpu "vram" ;;
    print [Lit "    - "; Val model; Lit " ("; Val vram; Lit ")"]) self =
  Run (map gpu_line items) self (Returned tt).
Proof.
  induction 1 as [|gpu items (model & vram & ->) _ IH]; [reflexivity|].
  cbn [for_each map]. unfold bind at 1. simpl. rewrite IH. reflexivity.
Qed.

Lemma get_host_info_run h self :
  get_host_info h self = Run [] self (Returned (host_info h)).
Proof.
  unfold get_host_info.
  erewrite bind_returned by apply detect_gpus_run.
  reflexivity.
Qed.

Lemma register_run h link self sock :
  ws self = Some sock ->
  register h link self =
  Run (WsSend (register_message self h) link ::
       if link then register_log h else [])
      self
      (if link then Returned tt else Raised ConnectionClosedError).
Proof.
  destruct self as [ep tk nid sk rn]. simpl. intros ->.
  unfold register.
  erewrite bind_returned by apply get_host_info_run.
  run_step.
  destruct link.
  - repeat run_step. cbv beta.
    erewrite bind_returned
      by (apply print_ok; destruct (gpus_of_outcome (nvidia_smi h)); reflexivity).
    rewrite for_each_gpu_lines by apply gpus_are_entries.
    unfold register_log, register_message, host_info.
    destruct (gpus_of_outcome (nvidia_smi h)); reflexivity.
  - run_step. reflexivity.
Qed.

(** ** The connection and the process *)

Lemma connect_refused w self e :
  dial w = Some e ->
  connect w self =
  Run ([connecting_line self; WsConnect (endpoint self) false] ++
       if is_Exception e then [connection_error e] else [])
      self (Raised e).
Proof.
  intros Hd. unfold connect. do 2 run_step. rewrite Hd.
  unfold try_except. erewrite bind_raised by reflexivity.
  destruct e; reflexivity.
Qed.

Lemma connect_unregistered w self :
  dial w = None -> register_link w = false ->
  connect w self =
  Run [connecting_line self; WsConnect (endpoint self) true; connected_line;
       WsSend (register_message self (platform w)) false;
       connection_error ConnectionClosedError]
      (connected self) (Raised ConnectionClosedError).
Proof.
  intros Hd Hr. unfold connect. do 2 run_step. rewrite Hd, Hr.
  unfold try_except. do 4 run_step.
  erewrite bind_raised
    by exact (register_run (platform w) false (connected self)
                (Socket (endpoint self)) eq_refl).
  reflexivity.
Qed.

Lemma prefix_run {S A} t t' (s : S) (res : outcome A) :
  prefix t (Run t' s res) = Run (t ++ t') s res.
Proof. reflexivity. Qed.

(** The receive loop inside its [try ... except ConnectionClosed ...
    finally] block. *)
Lemma guarded_loop_run stimuli fin self :
  try_finally
    (try_except is_ConnectionClosed
       (receive_loop true stimuli fin)
       (fun _ => print [Lit "["; Stamp; Lit "] ⚠️  Connection closed"]))
    (set_running false) self =
  let r := receive_loop true stimuli fin self in
  Run (trace r ++
       match fin with
       | Some (Broken e) => if is_ConnectionClosed e then [connection_closed] else []
       | _ => []
       end)
      (closing_state fin (final r))
      (closing_result fin).
Proof.
  unfold try_finally, try_except.
  pose proof (receive_loop_result stimuli fin true self) as Hres.
  destruct (receive_loop true stimuli fin self) as [t f res].
  cbn [result] in Hres. subst res.
  destruct fin as [[|e]|]; [|destruct e|];
    cbn; rewrite ?app_nil_r; reflexivity.
Qed.

Lemma connect_served w self :
  dial w = None -> register_link w = true ->
  connect w self =
  let r := receive_loop true (schedule w) (finish w) (connected self) in
  Run ([connecting_line self; WsConnect (endpoint self) true; connected_line;
        WsSend (register_message self (platform w)) true]
       ++ register_log (platform w) ++ trace r ++ closing_log (finish w))
      (closing_state (finish w) (final r))
      (closing_result (finish w)).
Proof.
  intros Hd Hr. unfold connect. do 2 run_step. rewrite Hd, Hr.
  assert (E : (websocket <- websockets_connect (endpoint self) None ;;
               set_ws websocket ;;
               set_running true ;;
               print [Lit "["; Stamp; Lit "] ✅ Connected!"] ;;
               register (platform w) true ;;
               try_finally
                 (try_except is_ConnectionClosed
                    (receive_loop true (schedule w) (finish w))
                    (fun _ => print [Lit "["; Stamp; Lit "] ⚠️  Connection closed"]))
                 (set_running false)) self =
              let r := receive_loop true (schedule w) (finish w) (connected self) in
              Run ([WsConnect (endpoint self) true; connected_line;
                    WsSend (register_message self (platform w)) true]
                   ++ register_log (platform w) ++ trace r ++
                   match finish w with
                   | Some (Broken e) =>
                       if is_ConnectionClosed e then [connection_closed] else []
                   | _ => []
                   end)
                  (closing_state (finish w) (final r))
                  (closing_result (finish w))).
  { do 4 run_step.
    erewrite bind_returned
      by exact (register_run (platform w) true (connected self)
                  (Socket (endpoint self)) eq_refl).
    cbv beta zeta.
    change {| endpoint := endpoint self; token := token self;
              node_id := node_id self;
              ws := Some (Socket (endpoint self)); running := true |}
      with (connected self).
    rewrite guarded_loop_run. cbv zeta.
    rewrite !prefix_run. reflexivity. }
  unfold try_except at 1. rewrite E. cbv zeta.
  cbn [result trace final].
  destruct (finish w) as [[|e]|]; [|destruct e|];
    cbn [closing_result closing_log is_ConnectionClosed is_Exception];
    rewrite ?prefix_run; cbn [bind print emit raise trace final result app];
    rewrite ?prefix_run; rewrite <- ?app_assoc; rewrite ?app_nil_r; reflexivity.
Qed.

Lemma main_run w self :
  main w self =
  let r := connect w self in
  Run (banner ++ trace r ++ farewell (result r)) (final r) (verdict (result r)).
Proof.
  unfold main. do 4 run_step. cbv beta.
  unfold asyncio_run, try_except.
  destruct (connect w self) as [t f [[]|e|]]; simpl.
  - rewrite app_nil_r. reflexivity.
  - destruct e; simpl; rewrite ?app_nil_r; reflexivity.
  - rewrite app_nil_r. reflexivity.
Qed.

(* ================================================================== *)
(** * The claims *)

(** C10.  GPU detection is total: whatever [nvidia-smi] does (absent, timed
    out, failed, non-zero exit code, any output), [detect_gpus] returns a
    list and raises nothing, the list being empty in the failure cases; the
    list is read off the output line by line, and each element is a dict
    with exactly the fields [model] and [vram], the stripped first and
    second comma-separated fields of a non-empty output line that has at
    least two fields. *)
Theorem detect_gpus_total (S : Type) (smi : smi_outcome) (s : S) :
  detect_gpus smi s = Run [] s (Returned (gpus_of_outcome smi))
  /\ (forall e, gpus_of_outcome (SmiRaises e) = [])
  /\ (forall rc out, rc <> 0%Z -> gpus_of_outcome (SmiCompleted rc out) = [])
  /\ (forall gpu, In gpu (gpus_of_outcome smi) ->
        exists out text first second more,
          smi = SmiCompleted 0 out /\
          In text (Py.split Py.newline out) /\
          text <> EmptyString /\
          Py.split Py.comma text = first :: second :: more /\
          gpu = JObj [("model", JStr (Py.strip first));
                      ("vram", JStr (Py.strip second))]).
Proof.
  split; [apply detect_gpus_run|].
  split; [reflexivity|].
  split.
  { intros rc out Hrc. destruct rc; [contradiction Hrc| |]; reflexivity. }
  intros gpu Hin.
  destruct smi as [e|rc out]; [contradiction|].
  destruct rc; try contradiction.
  simpl in Hin. apply in_flat_map in Hin. destruct Hin as (text & Hl & Hg).
  exists out, text.
  unfold line_entry in Hg.
  destruct text as [|c rest]; [contradiction|].
  destruct (Py.split Py.comma (String c rest)) as [|first [|second more]] eqn:E;
    try contradiction.
  destruct Hg as [<-|[]].
  exists first, second, more.
  repeat split; try assumption; try reflexivity. discriminate.
Qed.

Lemma detect_gpus_total_witness :
  exists out text first second more,
    nvidia_smi one_gpu_host = SmiCompleted 0 out /\
    In text (Py.split Py.newline out) /\
    text <> EmptyString /\
    Py.split Py.comma text = first :: second :: more /\
    gpu_entry "NVIDIA GeForce RTX 4090" "24564 MiB" =
      JObj [("model", JStr (Py.strip first)); ("vram", JStr (Py.strip second))].
Proof.
  apply (proj2 (proj2 (proj2 (detect_gpus_total unit (nvidia_smi one_gpu_host) tt)))).
  vm_compute. left. reflexivity.
Defined.

Lemma handle_try_raises message link self e :
  result (handle_message_try message link self) = Raised e ->
  is_Exception e = true.
Proof.
  destruct message as [text|why|data].
  { simpl. intros [= <-]. reflexivity. }
  { destruct why; simpl; intros [= <-]; reflexivity. }
  destruct data; try (simpl; intros [= <-]; reflexivity).
  destruct (has_type "registered" (JObj fields)) eqn:H1.
  { rewrite (handle_try_registered fields link self H1). cbn [result].
    destruct (encodable _); [discriminate|]. intros [= <-]. reflexivity. }
  destruct (has_type "job" (JObj fields)) eqn:H2.
  { rewrite (handle_try_job fields link self H2).
    destruct (encodable _); cbn [result].
    - destruct (ws self); [destruct link|];
        try discriminate; intros [= <-]; reflexivity.
    - intros [= <-]. reflexivity. }
  destruct (has_type "error" (JObj fields)) eqn:H3.
  { rewrite (handle_try_error fields link self H3).
    destruct (encodable _); cbn [result]; [discriminate|].
    intros [= <-]. reflexivity. }
  rewrite (handle_try_other fields link self H1 H2 H3). discriminate.
Qed.

Lemma reaction_unrecognised message link self :
  unrecognised message = true ->
  reaction message link self =
  match message with
  | Garbage _ => [handling_error JSONDecodeError]
  | Refused why => [handling_error (refusal_error why)]
  | Json (JObj _) => []
  | Json _ => [handling_error AttributeError]
  end.
Proof.
  destruct message as [text|why|data]; [reflexivity|reflexivity|].
  destruct data; try reflexivity.
  unfold unrecognised, reaction.
  destruct (has_type "registered" (JObj fields)); [discriminate|].
  destruct (has_type "job" (JObj fields)); [discriminate|].
  destruct (has_type "error" (JObj fields)); [discriminate|].
  reflexivity.
Qed.

Lemma unrecognised_not_registered message :
  unrecognised message = true -> registered_id message = None.
Proof.
  destruct message as [text|why|data]; [reflexivity|reflexivity|].
  destruct data; try reflexivity.
  unfold unrecognised, registered_id.
  destruct (has_type "registered" (JObj fields)); [discriminate|reflexivity].
Qed.

(** C9.  For every inbound frame (text that is not JSON or that
    [json.loads] gives up on, JSON that is not an object, an object without
    a type or with an unknown type, or any other frame) the handler returns
    normally: whatever its [try] block raises, a line that cannot be
    printed included, is an [Exception], which the handler catches and
    logs.  A frame it does not recognise changes no field and sends
    nothing; the only trace is the log line of the error, if there was one.
    The receive loop then goes on with the frames that follow. *)
Theorem handle_message_never_raises (message : frame) (link : bool) (self : agent) :
  result (handle_message message link self) = Returned tt
  /\ (forall e,
        result (handle_message_try message link self) = Raised e ->
        is_Exception e = true /\
        trace (handle_message message link self) =
          trace (handle_message_try message link self) ++ [handling_error e] /\
        final (handle_message message link self) =
          final (handle_message_try message link self))
  /\ (unrecognised message = true ->
        final (handle_message message link self) = self /\
        trace (handle_message message link self) =
          match message with
          | Garbage _ => [handling_error JSONDecodeError]
          | Refused why => [handling_error (refusal_error why)]
          | Json (JObj _) => []
          | Json _ => [handling_error AttributeError]
          end)
  /\ (forall hb later fin,
        receive_loop hb (Deliver message link :: later) fin self =
        prefix (trace (handle_message message link self))
               (receive_loop hb later fin
                  (final (handle_message message link self)))).
Proof.
  split; [rewrite handle_message_run; reflexivity|].
  split.
  { intros e He. pose proof (handle_try_raises _ _ _ _ He) as Hex.
    split; [exact Hex|].
    unfold handle_message, try_except. rewrite He, Hex. split; reflexivity. }
  split.
  { intros Hu. rewrite handle_message_run. simpl. split.
    - unfold after_message. rewrite unrecognised_not_registered by exact Hu.
      reflexivity.
    - apply reaction_unrecognised. exact Hu. }
  intros hb later fin. rewrite receive_loop_deliver, handle_message_run.
  reflexivity.
Qed.

Lemma handle_message_never_raises_witness :
  final (handle_message (Json (JNum 7)) true (serving JNull)) = serving JNull /\
  trace (handle_message (Json (JNum 7)) true (serving JNull)) =
    [handling_error AttributeError].
Proof.
  apply (proj1 (proj2 (proj2
           (handle_message_never_raises (Json (JNum 7)) true (serving JNull))))).
  reflexivity.
Defined.

Lemma receive_loop_node_id stimuli fin : forall hb self,
  node_id (final (receive_loop hb stimuli fin self)) =
  last_registered stimuli (node_id self).
Proof.
  induction stimuli as [|[message link|utcnow link] later IH]; intros hb self.
  - destruct fin as [[|e]|]; reflexivity.
  - rewrite receive_loop_deliver. simpl. rewrite IH.
    unfold after_message. destruct (registered_id message); reflexivity.
  - destruct hb.
    + rewrite receive_loop_wake. simpl. apply IH.
    + rewrite receive_loop_wake_dead. apply IH.
Qed.

(** C7, as the code has it.  The node id is what the last [registered]
    frame carried: every [registered] frame overwrites it with its [nodeId]
    field (null when the field is absent), whether or not it was set
    before; no other frame and no heartbeat changes it. *)
Theorem node_id_follows_registered (message : frame) (link : bool) (self : agent) :
  node_id (final (handle_message message link self)) =
    match registered_id message with
    | Some v => v
    | None => node_id self
    end
  /\ (forall utcnow, final (step_task (send_heartbeat [(utcnow, link)]) self) = self)
  /\ (forall hb stimuli fin,
        node_id (final (receive_loop hb stimuli fin self)) =
        last_registered stimuli (node_id self)).
Proof.
  split.
  { rewrite handle_message_run. simpl. unfold after_message.
    destruct (registered_id message); reflexivity. }
  split.
  { intros utcnow. rewrite step_heartbeat. reflexivity. }
  intros hb stimuli fin. apply receive_loop_node_id.
Qed.

(** C7 fails as stated: a second [registered] frame replaces a node id
    that was already set. *)
Lemma node_id_set_twice :
  node_id (final (handle_message (registered_frame "node-1") true (serving JNull)))
    = JStr "node-1"
  /\ node_id (final (handle_message (registered_frame "node-2") true
                       (serving (JStr "node-1"))))
    = JStr "node-2"
  /\ node_id (final (receive_loop true
                       [Deliver (registered_frame "node-1") true;
                        Deliver (registered_frame "node-2") true]
                       None (serving JNull)))
    <> JStr "node-1".
Proof.
  split; [reflexivity|]. split; [reflexivity|].
  vm_compute. discriminate.
Qed.

(** ** How the process ends *)

Lemma connect_result_run w self : result (connect w self) = connect_result w.
Proof.
  unfold connect_result. destruct (dial w) as [e|] eqn:Hd.
  - rewrite (connect_refused w self e Hd). reflexivity.
  - destruct (register_link w) eqn:Hr.
    + rewrite (connect_served w self Hd Hr). reflexivity.
    + rewrite (connect_unregistered w self Hd Hr). reflexivity.
Qed.

Lemma process_exit endpoint token w :
  exit_status (process endpoint token w) = exit_of (verdict (connect_result w)).
Proof.
  unfold exit_status, process. rewrite main_run. cbv zeta. cbn [result].
  rewrite connect_result_run. reflexivity.
Qed.

(** C1, as the code has it.  An [error] frame is only logged: the handler
    prints the server's text, sends nothing, changes no field and returns;
    the receive loop goes on with what follows, and the exit status of the
    process is the same whatever frames arrive. *)
Theorem error_frame_is_only_logged (fields : list (string * json))
    (link : bool) (self : agent) :
  has_type "error" (JObj fields) = true ->
  handle_message (Json (JObj fields)) link self =
    Run (error_trace fields) self (Returned tt)
  /\ send_calls (error_trace fields) = []
  /\ (forall hb later fin,
        receive_loop hb (Deliver (Json (JObj fields)) link :: later) fin self =
        prefix (error_trace fields) (receive_loop hb later fin self))
  /\ (forall endpoint token w stimuli,
        exit_status (process endpoint token (with_schedule w stimuli)) =
        exit_status (process endpoint token w)).
Proof.
  intros H. split; [apply handle_error; exact H|].
  split; [console_cases; reflexivity|].
  split.
  { intros hb later fin. rewrite receive_loop_deliver.
    unfold reaction, after_message, registered_id.
    rewrite has_type_tag in H.
    rewrite !has_type_tag.
    rewrite (eq_str_exclusive _ "error" "registered" eq_refl H).
    rewrite (eq_str_exclusive _ "error" "job" eq_refl H), H.
    reflexivity. }
  intros endpoint token w stimuli. rewrite !process_exit. reflexivity.
Qed.

Lemma error_frame_is_only_logged_witness :
  handle_message (error_frame "Invalid token") true (serving JNull) =
    Run [Print [Lit "["; Stamp; Lit "] ❌ Error: "; Val (JStr "Invalid token")]]
        (serving JNull) (Returned tt).
Proof.
  apply (proj1 (error_frame_is_only_logged
                  [("type", JStr "error"); ("message", JStr "Invalid token")]
                  true (serving JNull) eq_refl)).
Defined.

(** C1 fails as stated: after the [error] frame the agent is still
    running and sends a heartbeat; when the server later closes the
    connection, the exit status is 0. *)
Lemma error_frame_not_fatal :
  exit_status (process "ws://localhost:3003" "bad-token" (rejecting None)) = None
  /\ exit_status (process "ws://localhost:3003" "bad-token"
                    (rejecting (Some Exhausted))) = Some 0%Z
  /\ exists before after,
       trace (process "ws://localhost:3003" "bad-token" (rejecting None)) =
         before ++
         Print [Lit "["; Stamp; Lit "] ❌ Error: "; Val (JStr "Invalid token")]
         :: after
       /\ sent after =
          [JObj [("type", JStr "heartbeat"); ("nodeId", JNull);
                 ("timestamp", JStr "2025-01-01T00:00:10")]].
Proof.
  split; [vm_compute; reflexivity|].
  split; [vm_compute; reflexivity|].
  eexists (firstn 14 (trace (process "ws://localhost:3003" "bad-token" (rejecting None)))).
  eexists (skipn 15 (trace (process "ws://localhost:3003" "bad-token" (rejecting None)))).
  split; vm_compute; reflexivity.
Qed.

(** C3, as the code has it.  A job assignment is not executed: whatever
    its script and its [timeoutSeconds], the handler of a job whose id it
    can print pauses for a fixed two seconds, terminates nothing, and hands
    one [jobResult] with status [completed] to the connection; the message
    is written when the connection is still open, and when it is not the
    send raises and the handler logs the error.  Whatever the frame, a
    message the handler hands to the connection has status [completed]: no
    job is reported as timed out or failed. *)
Theorem job_always_completed (fields : list (string * json)) (link : bool)
    (self : agent) (sock : websocket) :
  has_type "job" (JObj fields) = true ->
  ws self = Some sock ->
  encodable (get_or_null "jobId" fields) = true ->
  handle_message (Json (JObj fields)) link self =
    Run [Print [Lit "["; Stamp; Lit "] 📋 Received job: ";
                Val (get_or_null "jobId" fields)];
         Sleep 2;
         WsSend (job_result (get_or_null "jobId" fields) (node_id self)) link;
         if link
         then Print [Lit "["; Stamp; Lit "] ✅ Job ";
                     Val (get_or_null "jobId" fields); Lit " completed"]
         else handling_error ConnectionClosedError]
        self (Returned tt)
  /\ sent (trace (handle_message (Json (JObj fields)) link self)) =
     (if link then [job_result (get_or_null "jobId" fields) (node_id self)]
      else [])
  /\ field "status" (job_result (get_or_null "jobId" fields) (node_id self))
     = Some (JStr "completed")
  /\ (forall message link' self' payload,
        In payload (send_calls (trace (handle_message message link' self'))) ->
        field "status" payload = Some (JStr "completed")).
Proof.
  intros H Hws He.
  assert (E : handle_message (Json (JObj fields)) link self =
    Run [Print [Lit "["; Stamp; Lit "] 📋 Received job: ";
                Val (get_or_null "jobId" fields)];
         Sleep 2;
         WsSend (job_result (get_or_null "jobId" fields) (node_id self)) link;
         if link
         then Print [Lit "["; Stamp; Lit "] ✅ Job ";
                     Val (get_or_null "jobId" fields); Lit " completed"]
         else handling_error ConnectionClosedError]
        self (Returned tt)).
  { rewrite (handle_job fields link self H). unfold job_trace.
    rewrite He, Hws. reflexivity. }
  split; [exact E|].
  split; [rewrite E; destruct link; reflexivity|].
  split; [reflexivity|].
  intros message link' self' payload Hin.
  rewrite handle_message_run in Hin. cbn [trace] in Hin.
  pose proof (reaction_calls_shape message link' self') as Hall.
  rewrite Forall_forall in Hall.
  destruct (Hall _ Hin) as (j & n & ->). reflexivity.
Qed.

Lemma job_always_completed_witness :
  sent (trace (handle_message
                 (Json (JObj [("type", JStr "job"); ("jobId", JStr "job-1")]))
                 true (serving (JStr "node-1")))) =
    [job_result (get_or_null "jobId"
                   [("type", JStr "job"); ("jobId", JStr "job-1")])
                (node_id (serving (JStr "node-1")))]
  /\ field "status" (job_result (get_or_null "jobId"
                                   [("type", JStr "job"); ("jobId", JStr "job-1")])
                                (node_id (serving (JStr "node-1"))))
     = Some (JStr "completed").
Proof.
  pose proof (job_always_completed
                [("type", JStr "job"); ("jobId", JStr "job-1")] true
                (serving (JStr "node-1")) (Socket "ws://localhost:3003")
                eq_refl eq_refl eq_refl) as H.
  split; [exact (proj1 (proj2 H)) | exact (proj1 (proj2 (proj2 H)))].
Defined.

(** C3 fails as stated: a job whose script never ends, with a timeout of
    one second, is held for two seconds, is not terminated, and is
    reported [completed]. *)
Lemma endless_job_reported_completed :
  let r := handle_message (full_job_frame "job-1" "while True: pass" 1) true
             (serving (JStr "node-1")) in
  sleeps (trace r) = [Sleep 2]
  /\ map (field "status") (sent (trace r)) = [Some (JStr "completed")]
  /\ map (field "jobId") (sent (trace r)) = [Some (JStr "job-1")]
  /\ Some (JStr "completed") <> Some (JStr "TimedOut").
Proof.
  cbv zeta. repeat split; try (vm_compute; reflexivity). discriminate.
Qed.

(** ** Reading the trace of a process *)

Lemma prints_quiet t :
  forallb is_print t = true ->
  send_calls t = [] /\ sent t = [] /\ connects t = [] /\ sleeps t = [].
Proof.
  induction t as [|ev t IH]; simpl; [repeat split|].
  intros H. apply andb_true_iff in H. destruct H as [Hev Ht].
  destruct ev; try discriminate. simpl. apply IH. exact Ht.
Qed.

Lemma register_log_prints h : forallb is_print (register_log h) = true.
Proof.
  unfold register_log. rewrite forallb_app. simpl.
  induction (gpus_of_outcome (nvidia_smi h)); simpl; auto.
Qed.

Lemma closing_log_prints fin : forallb is_print (closing_log fin) = true.
Proof. destruct fin as [[|e]|]; try reflexivity. destruct e; reflexivity. Qed.

Lemma farewell_prints res : forallb is_print (farewell res) = true.
Proof. destruct res as [a|e|]; try reflexivity. destruct e; reflexivity. Qed.

Lemma send_calls_app a b : send_calls (a ++ b) = send_calls a ++ send_calls b.
Proof. apply flat_map_app. Qed.

Lemma sent_app a b : sent (a ++ b) = sent a ++ sent b.
Proof. apply flat_map_app. Qed.

Lemma connects_app a b : connects (a ++ b) = connects a ++ connects b.
Proof. apply filter_app. Qed.

Lemma process_trace endpoint token w :
  trace (process endpoint token w) =
  banner ++ trace (connect w (fresh endpoint token))
         ++ farewell (connect_result w).
Proof.
  unfold process, fresh. rewrite main_run. cbv zeta. cbn [trace].
  rewrite connect_result_run. reflexivity.
Qed.

Lemma connect_trace w self :
  trace (connect w self) =
  match dial w with
  | Some e =>
      [connecting_line self; WsConnect (endpoint self) false] ++
      (if is_Exception e then [connection_error e] else [])
  | None =>
      [connecting_line self; WsConnect (endpoint self) true; connected_line;
       WsSend (register_message self (platform w)) (register_link w)] ++
      (if register_link w then
         register_log (platform w) ++
         trace (receive_loop true (schedule w) (finish w) (connected self)) ++
         closing_log (finish w)
       else [connection_error ConnectionClosedError])
  end.
Proof.
  destruct (dial w) as [e|] eqn:Hd.
  - rewrite (connect_refused w self e Hd). reflexivity.
  - destruct (register_link w) eqn:Hr.
    + rewrite (connect_served w self Hd Hr). reflexivity.
    + rewrite (connect_unregistered w self Hd Hr). reflexivity.
Qed.

Lemma process_send_calls endpoint token w :
  send_calls (trace (process endpoint token w)) =
  match dial w with
  | Some _ => []
  | None =>
      register_message (fresh endpoint token) (platform w) ::
      if register_link w then
        send_calls (trace (receive_loop true (schedule w) (finish w)
                             (connected (fresh endpoint token))))
      else []
  end.
Proof.
  rewrite process_trace, !send_calls_app, connect_trace.
  rewrite (proj1 (prints_quiet _ (farewell_prints (connect_result w)))).
  rewrite app_nil_r. change (send_calls banner) with (@nil json).
  rewrite app_nil_l.
  destruct (dial w) as [e|].
  - destruct (is_Exception e); reflexivity.
  - destruct (register_link w); [|reflexivity].
    rewrite !send_calls_app.
    rewrite (proj1 (prints_quiet _ (register_log_prints (platform w)))).
    rewrite (proj1 (prints_quiet _ (closing_log_prints (finish w)))).
    rewrite app_nil_r. reflexivity.
Qed.

Lemma process_sent endpoint token w :
  sent (trace (process endpoint token w)) =
  match dial w with
  | Some _ => []
  | None =>
      if register_link w then
        register_message (fresh endpoint token) (platform w) ::
        sent (trace (receive_loop true (schedule w) (finish w)
                       (connected (fresh endpoint token))))
      else []
  end.
Proof.
  rewrite process_trace, !sent_app, connect_trace.
  rewrite (proj1 (proj2 (prints_quiet _ (farewell_prints (connect_result w))))).
  rewrite app_nil_r. change (sent banner) with (@nil json).
  rewrite app_nil_l.
  destruct (dial w) as [e|].
  - destruct (is_Exception e); reflexivity.
  - destruct (register_link w); [|reflexivity].
    rewrite !sent_app.
    rewrite (proj1 (proj2 (prints_quiet _ (register_log_prints (platform w))))).
    rewrite (proj1 (proj2 (prints_quiet _ (closing_log_prints (finish w))))).
    rewrite app_nil_r. reflexivity.
Qed.

(** ** What the receive loop sends *)

Lemma reaction_connects message link self :
  connects (reaction message link self) = [].
Proof.
  destruct message as [text|why|data]; [reflexivity|reflexivity|].
  destruct data; try reflexivity.
  unfold reaction.
  destruct (has_type "registered" (JObj fields)); [console_cases; reflexivity|].
  destruct (has_type "job" (JObj fields)).
  { unfold job_trace. destruct (encodable _); [|reflexivity].
    destruct (ws self); [destruct link|]; reflexivity. }
  destruct (has_type "error" (JObj fields)); console_cases; reflexivity.
Qed.

Lemma beat_connects self utcnow link :
  connects (fst (beat self utcnow link)) = [].
Proof.
  unfold beat. destruct (running self); [|reflexivity].
  destruct (ws self); [destruct link|]; reflexivity.
Qed.

Lemma loop_connects stimuli fin : forall hb self,
  connects (trace (receive_loop hb stimuli fin self)) = [].
Proof.
  induction stimuli as [|[message link|utcnow link] later IH]; intros hb self.
  - destruct fin as [[|e]|]; reflexivity.
  - rewrite receive_loop_deliver. cbv zeta. cbn [trace].
    rewrite connects_app, reaction_connects, IH. reflexivity.
  - destruct hb.
    + rewrite receive_loop_wake. cbv zeta. cbn [trace].
      rewrite connects_app, beat_connects, IH. reflexivity.
    + rewrite receive_loop_wake_dead. apply IH.
Qed.

Lemma beat_calls_shape self utcnow link :
  Forall is_heartbeat (send_calls (fst (beat self utcnow link))).
Proof.
  unfold beat. destruct (running self); [|constructor].
  destruct (ws self); [|constructor].
  destruct link; (constructor; [eexists; eexists; reflexivity | constructor]).
Qed.

Lemma loop_calls_shape stimuli fin : forall hb self,
  Forall (fun m => is_job_result m \/ is_heartbeat m)
         (send_calls (trace (receive_loop hb stimuli fin self))).
Proof.
  induction stimuli as [|[message link|utcnow link] later IH]; intros hb self.
  - destruct fin as [[|e]|]; constructor.
  - rewrite receive_loop_deliver. cbv zeta. cbn [trace].
    rewrite send_calls_app. apply Forall_app. split; [|apply IH].
    eapply Forall_impl; [|apply reaction_calls_shape]. intros m Hm. left. exact Hm.
  - destruct hb.
    + rewrite receive_loop_wake. cbv zeta. cbn [trace].
      rewrite send_calls_app. apply Forall_app. split; [|apply IH].
      eapply Forall_impl; [|apply beat_calls_shape]. intros m Hm. right. exact Hm.
    + rewrite receive_loop_wake_dead. apply IH.
Qed.

Lemma sent_among_calls t : incl (sent t) (send_calls t).
Proof.
  induction t as [|ev t IH]; [apply incl_refl|].
  unfold sent, send_calls. cbn [flat_map].
  destruct ev as [l|n|u o|payload [|]]; cbn [written send_call app];
    try exact IH.
  - intros m [<-|Hm]; [left; reflexivity | right; apply IH; exact Hm].
  - intros m Hm. right. apply IH. exact Hm.
Qed.

Lemma result_ids_app a b : result_ids (a ++ b) = result_ids a ++ result_ids b.
Proof. apply flat_map_app. Qed.

Lemma beat_result_ids self utcnow link :
  result_ids (send_calls (fst (beat self utcnow link))) = [] /\
  result_ids (sent (fst (beat self utcnow link))) = [].
Proof.
  unfold beat. destruct (running self); [|split; reflexivity].
  destruct (ws self); [|split; reflexivity].
  destruct link; split; reflexivity.
Qed.

Lemma loop_result_ids stimuli fin : forall hb self sock,
  ws self = Some sock ->
  result_ids (send_calls (trace (receive_loop hb stimuli fin self))) =
    jobs_taken stimuli /\
  result_ids (sent (trace (receive_loop hb stimuli fin self))) =
    jobs_answerable stimuli.
Proof.
  induction stimuli as [|[message link|utcnow link] later IH];
    intros hb self sock Hws.
  - destruct fin as [[|e]|]; split; reflexivity.
  - rewrite receive_loop_deliver. cbv zeta. cbn [trace].
    rewrite send_calls_app, sent_app, !result_ids_app.
    rewrite (reaction_send_calls message link self sock Hws).
    rewrite (reaction_sent message link self sock Hws).
    assert (Hws' : ws (after_message message self) = Some sock)
      by (rewrite after_message_ws; exact Hws).
    destruct (IH hb (after_message message self) sock Hws') as [IH1 IH2].
    rewrite IH1, IH2. cbn [jobs_taken jobs_answerable].
    destruct (taken_job message) as [j|]; [|split; reflexivity].
    destruct link; split; reflexivity.
  - destruct hb.
    + rewrite receive_loop_wake. cbv zeta. cbn [trace].
      rewrite send_calls_app, sent_app, !result_ids_app.
      destruct (beat_result_ids self utcnow link) as [B1 B2].
      rewrite B1, B2. cbn [app jobs_taken jobs_answerable].
      apply (IH _ self sock Hws).
    + rewrite receive_loop_wake_dead. apply (IH _ self sock Hws).
Qed.

Lemma sleeps_app a b : sleeps (a ++ b) = sleeps a ++ sleeps b.
Proof. apply filter_app. Qed.

Lemma reaction_sleeps message link self :
  Forall known_pause (sleeps (reaction message link self)).
Proof.
  destruct message as [text|why|data]; [constructor|constructor|].
  destruct data; try constructor.
  unfold reaction.
  destruct (has_type "registered" (JObj fields)); [console_cases; constructor|].
  destruct (has_type "job" (JObj fields)).
  { unfold job_trace. destruct (encodable _); [|constructor].
    destruct (ws self); [destruct link|];
      (constructor; [left; reflexivity | constructor]). }
  destruct (has_type "error" (JObj fields)); console_cases; constructor.
Qed.

Lemma beat_sleeps self utcnow link :
  Forall known_pause (sleeps (fst (beat self utcnow link))).
Proof.
  unfold beat. destruct (running self); [|constructor].
  destruct (ws self); [|constructor].
  destruct link; [|constructor].
  constructor; [right; reflexivity | constructor].
Qed.

Lemma loop_sleeps stimuli fin : forall hb self,
  Forall known_pause (sleeps (trace (receive_loop hb stimuli fin self))).
Proof.
  induction stimuli as [|[message link|utcnow link] later IH]; intros hb self.
  - destruct fin as [[|e]|]; constructor.
  - rewrite receive_loop_deliver. cbv zeta. cbn [trace].
    rewrite sleeps_app. apply Forall_app. split; [apply reaction_sleeps|apply IH].
  - destruct hb.
    + rewrite receive_loop_wake. cbv zeta. cbn [trace].
      rewrite sleeps_app. apply Forall_app. split; [apply beat_sleeps|apply IH].
    + rewrite receive_loop_wake_dead. apply IH.
Qed.

Lemma process_sleeps endpoint token w :
  Forall known_pause (sleeps (trace (process endpoint token w))).
Proof.
  rewrite process_trace, !sleeps_app, connect_trace.
  rewrite (proj2 (proj2 (proj2 (prints_quiet _ (farewell_prints (connect_result w)))))).
  rewrite app_nil_r. change (sleeps banner) with (@nil event).
  rewrite app_nil_l.
  destruct (dial w) as [e|].
  - destruct (is_Exception e); constructor.
  - destruct (register_link w); [|constructor].
    rewrite !sleeps_app.
    rewrite (proj2 (proj2 (proj2 (prints_quiet _ (register_log_prints (platform w)))))).
    rewrite (proj2 (proj2 (proj2 (prints_quiet _ (closing_log_prints (finish w)))))).
    rewrite app_nil_r. apply loop_sleeps.
Qed.

(** C2, as the code has it.  The process opens the connection once and
    never again.  A failed attempt, or a registration request that cannot
    be written, ends the process with status 1; a connection that closes
    during the session (normally or not) leaves the agent stopped and ends
    the process with status 0.  There is no reconnection and no backoff:
    the only pauses of a process are the two seconds of a job and the ten
    seconds between heartbeats. *)
Theorem no_reconnection (endpoint token : string) (w : world) :
  connects (trace (process endpoint token w)) =
    [WsConnect endpoint (match dial w with None => true | Some _ => false end)]
  /\ Forall known_pause (sleeps (trace (process endpoint token w)))
  /\ (forall e, dial w = Some e -> is_Exception e = true ->
        exit_status (process endpoint token w) = Some 1%Z)
  /\ (dial w = None -> register_link w = false ->
        exit_status (process endpoint token w) = Some 1%Z)
  /\ (dial w = None -> register_link w = true ->
      finish w = Some Exhausted \/
      (exists e, finish w = Some (Broken e) /\ is_ConnectionClosed e = true) ->
        exit_status (process endpoint token w) = Some 0%Z /\
        running (final (process endpoint token w)) = false).
Proof.
  split.
  { rewrite process_trace, !connects_app, connect_trace.
    rewrite (proj1 (proj2 (proj2 (prints_quiet _ (farewell_prints (connect_result w)))))).
    rewrite app_nil_r. change (connects banner) with (@nil event).
    rewrite app_nil_l.
    destruct (dial w) as [e|].
    - destruct (is_Exception e); reflexivity.
    - destruct (register_link w); [|reflexivity].
      rewrite !connects_app, loop_connects.
      rewrite (proj1 (proj2 (proj2 (prints_quiet _ (register_log_prints (platform w)))))).
      rewrite (proj1 (proj2 (proj2 (prints_quiet _ (closing_log_prints (finish w)))))).
      reflexivity. }
  split; [apply process_sleeps|].
  split.
  { intros e Hd He. rewrite process_exit. unfold connect_result. rewrite Hd.
    destruct e; try discriminate He; reflexivity. }
  split.
  { intros Hd Hr. rewrite process_exit. unfold connect_result.
    rewrite Hd, Hr. reflexivity. }
  intros Hd Hr Hfin. split.
  - rewrite process_exit. unfold connect_result. rewrite Hd, Hr.
    destruct Hfin as [->|(e & -> & He)]; [reflexivity|].
    destruct e; try discriminate He; reflexivity.
  - unfold process. rewrite main_run. cbv zeta. cbn [final].
    rewrite (connect_served w _ Hd Hr). cbv zeta. cbn [final].
    destruct Hfin as [->|(e & -> & He)]; reflexivity.
Qed.

Lemma no_reconnection_witness :
  exit_status (process "ws://localhost:3003" "token-1" dropped) = Some 0%Z /\
  running (final (process "ws://localhost:3003" "token-1" dropped)) = false.
Proof.
  apply (proj2 (proj2 (proj2 (proj2
           (no_reconnection "ws://localhost:3003" "token-1" dropped))))).
  - reflexivity.
  - reflexivity.
  - right. exists ConnectionClosedError. split; reflexivity.
Defined.

(** C2 fails as stated: when the server cannot be reached the process
    ends with status 1 after its only attempt, and when the connection
    drops in a session the process ends with status 0; neither run holds a
    second attempt, and the only pause is the one of the heartbeat task. *)
Lemma transport_failure_ends_process :
  exit_status (process "ws://localhost:3003" "token-1" unreachable) = Some 1%Z
  /\ connects (trace (process "ws://localhost:3003" "token-1" unreachable)) =
       [WsConnect "ws://localhost:3003" false]
  /\ sleeps (trace (process "ws://localhost:3003" "token-1" unreachable)) = []
  /\ exit_status (process "ws://localhost:3003" "token-1" dropped) = Some 0%Z
  /\ connects (trace (process "ws://localhost:3003" "token-1" dropped)) =
       [WsConnect "ws://localhost:3003" true]
  /\ sleeps (trace (process "ws://localhost:3003" "token-1" dropped)) =
       [Sleep 10].
Proof. repeat split; vm_compute; reflexivity. Qed.

Lemma filter_none {A} (f : A -> bool) (P : A -> Prop) l :
  Forall P l -> (forall x, P x -> f x = false) -> filter f l = [].
Proof.
  intros Hl Hf. induction Hl as [|x l Hx _ IH]; [reflexivity|].
  simpl. rewrite (Hf x Hx). exact IH.
Qed.

Lemma loop_sends_no_registration stimuli fin hb self :
  filter (has_type "register")
         (send_calls (trace (receive_loop hb stimuli fin self))) = [].
Proof.
  eapply filter_none; [apply loop_calls_shape|].
  intros m [(j & n & ->)|(s & u & ->)]; reflexivity.
Qed.

Lemma filter_nil_incl {A} (f : A -> bool) (a b : list A) :
  incl a b -> filter f b = [] -> filter f a = [].
Proof.
  intros Hi Hb. destruct (filter f a) as [|x l] eqn:E; [reflexivity|].
  assert (Hx : In x (filter f a)) by (rewrite E; left; reflexivity).
  apply filter_In in Hx. destruct Hx as [Hx Hf].
  assert (Hx' : In x (filter f b)) by (apply filter_In; split; auto).
  rewrite Hb in Hx'. contradiction.
Qed.

Lemma loop_writes_no_registration stimuli fin hb self :
  filter (has_type "register")
         (sent (trace (receive_loop hb stimuli fin self))) = [].
Proof.
  apply (filter_nil_incl _ _ _ (sent_among_calls _)).
  apply loop_sends_no_registration.
Qed.

(** C8, as the code has it.  A process that opens its connection hands
    exactly one registration request to it (and none when the connection
    does not open); it is the first message handed over, its type tag is
    [register], it carries the token, and its [hostInfo] object carries the
    host name, the operating system, the architecture and the list of
    detected GPUs.  The request is written exactly once when the connection
    is still open at that moment; when it is not, nothing is ever written
    on this connection and the process ends with status 1. *)
Theorem one_registration_per_connection (endpoint token : string) (w : world) :
  filter (has_type "register") (send_calls (trace (process endpoint token w))) =
    match dial w with
    | None => [register_message (fresh endpoint token) (platform w)]
    | Some _ => []
    end
  /\ filter (has_type "register") (sent (trace (process endpoint token w))) =
    match dial w with
    | None =>
        if register_link w
        then [register_message (fresh endpoint token) (platform w)]
        else []
    | Some _ => []
    end
  /\ (dial w = None -> register_link w = false ->
      sent (trace (process endpoint token w)) = [] /\
      exit_status (process endpoint token w) = Some 1%Z)
  /\ hd_error (send_calls (trace (process endpoint token w))) =
     match dial w with
     | None => Some (register_message (fresh endpoint token) (platform w))
     | Some _ => None
     end
  /\ field "type" (register_message (fresh endpoint token) (platform w))
     = Some (JStr "register")
  /\ field "token" (register_message (fresh endpoint token) (platform w))
     = Some (JStr token)
  /\ exists info,
       field "hostInfo" (register_message (fresh endpoint token) (platform w))
       = Some info
       /\ field "hostname" info = Some (JStr (hostname (platform w)))
       /\ field "os" info = Some (JStr (system (platform w)))
       /\ field "arch" info = Some (JStr (machine (platform w)))
       /\ field "gpus" info =
          Some (JArr (gpus_of_outcome (nvidia_smi (platform w)))).
Proof.
  split.
  { rewrite process_send_calls. destruct (dial w); [reflexivity|].
    cbn [filter]. change (has_type "register" (register_message _ _)) with true.
    cbv iota. f_equal.
    destruct (register_link w); [apply loop_sends_no_registration|reflexivity]. }
  split.
  { rewrite process_sent. destruct (dial w); [reflexivity|].
    destruct (register_link w); [|reflexivity].
    cbn [filter]. change (has_type "register" (register_message _ _)) with true.
    cbv iota. f_equal. apply loop_writes_no_registration. }
  split.
  { intros Hd Hr. split.
    - rewrite process_sent, Hd, Hr. reflexivity.
    - rewrite process_exit. unfold connect_result. rewrite Hd, Hr. reflexivity. }
  split.
  { rewrite process_send_calls. destruct (dial w); reflexivity. }
  split; [reflexivity|]. split; [reflexivity|].
  exists (host_info (platform w)). repeat split; reflexivity.
Qed.

Lemma one_registration_per_connection_witness :
  sent (trace (process "ws://localhost:3003" "token-1" cut_off)) = [] /\
  exit_status (process "ws://localhost:3003" "token-1" cut_off) = Some 1%Z.
Proof.
  apply (proj1 (proj2 (proj2
           (one_registration_per_connection
              "ws://localhost:3003" "token-1" cut_off))));
    reflexivity.
Defined.

(** C8 fails as stated: the connection opens, it is closed before the
    registration request can be written, and the process ends without
    having sent a registration request. *)
Lemma registration_not_written :
  connects (trace (process "ws://localhost:3003" "token-1" cut_off)) =
    [WsConnect "ws://localhost:3003" true]
  /\ filter (has_type "register")
       (sent (trace (process "ws://localhost:3003" "token-1" cut_off))) = []
  /\ length (filter (has_type "register")
       (sent (trace (process "ws://localhost:3003" "token-1" cut_off)))) <> 1
  /\ exit_status (process "ws://localhost:3003" "token-1" cut_off) = Some 1%Z.
Proof.
  repeat split; try (vm_compute; reflexivity).
  vm_compute. discriminate.
Qed.

(** C4, as the code has it.  Every [jobResult] message of a process has
    exactly the fields [type], [jobId], [nodeId], [status] and [result];
    the status is [completed] and the result is a fixed text, not an
    object: it holds no logs, no exit code and no hashes. *)
Theorem job_result_fields (endpoint token : string) (w : world) (message : json) :
  In message (send_calls (trace (process endpoint token w))) ->
  has_type "jobResult" message = true ->
  (exists job_id node,
     message = JObj [("type", JStr "jobResult");
                     ("jobId", job_id);
                     ("nodeId", node);
                     ("status", JStr "completed");
                     ("result", JStr "Job completed successfully")])
  /\ structured_result message = false.
Proof.
  rewrite process_send_calls. intros Hin Ht.
  assert (H : is_job_result message).
  { destruct (dial w); [contradiction|].
    destruct Hin as [<-|Hin]; [discriminate Ht|].
    destruct (register_link w); [|contradiction].
    pose proof (loop_calls_shape (schedule w) (finish w) true
                  (connected (fresh endpoint token))) as Hall.
    rewrite Forall_forall in Hall.
    destruct (Hall _ Hin) as [Hj|(s & u & ->)]; [exact Hj|discriminate Ht]. }
  destruct H as (j & n & ->). split; [|reflexivity].
  exists j, n. reflexivity.
Qed.

Lemma job_result_fields_witness :
  (exists job_id node,
     job_result (JStr "job-1") (JStr "node-1") =
       JObj [("type", JStr "jobResult");
             ("jobId", job_id);
             ("nodeId", node);
             ("status", JStr "completed");
             ("result", JStr "Job completed successfully")])
  /\ structured_result (job_result (JStr "job-1") (JStr "node-1")) = false.
Proof.
  apply (job_result_fields "ws://localhost:3003" "token-1" one_job).
  - vm_compute. right. right. left. reflexivity.
  - reflexivity.
Defined.

(** C4 fails as stated: the [jobResult] sent for a job carries a text in
    its [result] field, not an object with logs, exit code and hashes. *)
Lemma job_result_not_structured :
  filter (has_type "jobResult")
         (sent (trace (process "ws://localhost:3003" "token-1" one_job))) =
    [JObj [("type", JStr "jobResult");
           ("jobId", JStr "job-1");
           ("nodeId", JStr "node-1");
           ("status", JStr "completed");
           ("result", JStr "Job completed successfully")]]
  /\ map structured_result
       (filter (has_type "jobResult")
          (sent (trace (process "ws://localhost:3003" "token-1" one_job)))) =
     [false].
Proof. split; vm_compute; reflexivity. Qed.

(** ** One result per job *)

Lemma process_result_ids endpoint token w :
  dial w = None -> register_link w = true ->
  result_ids (send_calls (trace (process endpoint token w))) =
    jobs_taken (schedule w) /\
  result_ids (sent (trace (process endpoint token w))) =
    jobs_answerable (schedule w).
Proof.
  intros Hd Hr. rewrite process_send_calls, process_sent, Hd, Hr.
  destruct (loop_result_ids (schedule w) (finish w) true
              (connected (fresh endpoint token))
              (Socket endpoint) eq_refl) as [H1 H2].
  unfold result_ids in *. cbn [flat_map].
  change (result_id (register_message _ _)) with (@nil json).
  rewrite H1, H2. split; reflexivity.
Qed.

Lemma answerable_at_most_taken j stimuli :
  occurrences j (jobs_answerable stimuli) <= occurrences j (jobs_taken stimuli).
Proof.
  unfold occurrences.
  induction stimuli as [|[message link|utcnow link] later IH]; simpl.
  - lia.
  - destruct (taken_job message) as [k|]; [|exact IH].
    destruct link; simpl; destruct (json_eq_dec k j); lia.
  - exact IH.
Qed.

Lemma taken_when_encodable j stimuli :
  encodable j = true ->
  occurrences j (jobs_taken stimuli) = occurrences j (jobs_received stimuli).
Proof.
  intros He. unfold occurrences.
  induction stimuli as [|[message link|utcnow link] later IH]; simpl.
  - reflexivity.
  - unfold taken_job. destruct (job_id_of message) as [k|]; [|exact IH].
    destruct (encodable k) eqn:Hk; simpl.
    + destruct (json_eq_dec k j); lia.
    + destruct (json_eq_dec k j) as [->|_]; [congruence|exact IH].
  - exact IH.
Qed.

Lemma delivered_is_received message link stimuli j :
  In (Deliver message link) stimuli -> job_id_of message = Some j ->
  In j (jobs_received stimuli).
Proof.
  intros Hin Hj.
  induction stimuli as [|[message' link'|utcnow link'] later IH]; simpl.
  - contradiction.
  - destruct Hin as [[= -> ->]|Hin].
    + rewrite Hj. left. reflexivity.
    + destruct (job_id_of message'); [right|]; apply IH; exact Hin.
  - destruct Hin as [Hin|Hin]; [discriminate|]. apply IH. exact Hin.
Qed.

Lemma absent_not_counted j l : ~ In j l -> occurrences j l = 0.
Proof. intros H. apply count_occ_not_In. exact H. Qed.

(** With distinct job ids, the result of a job is written or not as the
    connection is open or not at its own delivery. *)
Lemma answerable_by_link j stimuli : forall message link,
  NoDup (jobs_received stimuli) ->
  In (Deliver message link) stimuli ->
  job_id_of message = Some j ->
  encodable j = true ->
  occurrences j (jobs_answerable stimuli) = if link then 1 else 0.
Proof.
  induction stimuli as [|[message' link'|utcnow link'] later IH];
    intros message link Hn Hin Hj He.
  - contradiction.
  - cbn [jobs_received jobs_answerable] in *. unfold taken_job.
    destruct (job_id_of message') as [k|] eqn:Hk.
    + inversion Hn as [|? ? Hnot Hn']; subst.
      destruct Hin as [[= -> ->]|Hin].
      * rewrite Hj in Hk. injection Hk as <-. rewrite He.
        assert (Hz : occurrences j (jobs_answerable later) = 0).
        { pose proof (answerable_at_most_taken j later) as H1.
          rewrite (taken_when_encodable j later He) in H1.
          rewrite (absent_not_counted j _ Hnot) in H1. lia. }
        destruct link; [|exact Hz].
        unfold occurrences in *. cbn [count_occ].
        destruct (json_eq_dec j j); [|congruence]. rewrite Hz. reflexivity.
      * assert (Hkj : k <> j).
        { intros ->. apply Hnot.
          apply (delivered_is_received message link later j Hin Hj). }
        rewrite <- (IH message link Hn' Hin Hj He).
        destruct (encodable k); [|reflexivity].
        destruct link'; [|reflexivity].
        unfold occurrences. cbn [count_occ].
        destruct (json_eq_dec k j); [contradiction|reflexivity].
    + destruct Hin as [[= -> ->]|Hin]; [congruence|].
      apply (IH message link Hn Hin Hj He).
  - destruct Hin as [Hin|Hin]; [discriminate|].
    apply (IH message link Hn Hin Hj He).
Qed.

Lemma once_in_nodup j l : NoDup l -> In j l -> occurrences j l = 1.
Proof.
  intros Hn Hin. unfold occurrences.
  pose proof (proj1 (NoDup_count_occ json_eq_dec l) Hn j) as Hle.
  pose proof (proj1 (count_occ_In json_eq_dec l j) Hin) as Hpos.
  lia.
Qed.

(** C6, as the code has it.  In a session (the connection opened and the
    registration request written), for job assignments with pairwise
    distinct job ids, a job whose id the agent can print gets at most one
    [jobResult]: the handler hands exactly one to the connection, once, and
    the message is written exactly once when the connection is still open
    at that moment and not at all when it has closed by then; nothing is
    sent again later. *)
Theorem one_result_per_job (endpoint token : string) (w : world) (job_id : json) :
  dial w = None -> register_link w = true ->
  NoDup (jobs_received (schedule w)) ->
  In job_id (jobs_received (schedule w)) ->
  encodable job_id = true ->
  occurrences job_id
    (result_ids (send_calls (trace (process endpoint token w)))) = 1
  /\ occurrences job_id
       (result_ids (sent (trace (process endpoint token w)))) <= 1
  /\ (forall message link,
        In (Deliver message link) (schedule w) ->
        job_id_of message = Some job_id ->
        occurrences job_id
          (result_ids (sent (trace (process endpoint token w)))) =
        if link then 1 else 0).
Proof.
  intros Hd Hr Hn Hin He.
  destruct (process_result_ids endpoint token w Hd Hr) as [H1 H2].
  rewrite H1, H2.
  pose proof (once_in_nodup job_id _ Hn Hin) as Hone.
  rewrite (taken_when_encodable job_id _ He).
  split; [exact Hone|]. split.
  - rewrite <- Hone, <- (taken_when_encodable job_id _ He).
    apply answerable_at_most_taken.
  - intros message link Hdel Hj.
    apply (answerable_by_link job_id (schedule w) message link Hn Hdel Hj He).
Qed.

Lemma one_result_per_job_witness :
  occurrences (JStr "job-1")
    (result_ids (send_calls (trace (process "ws://localhost:3003" "token-1" one_job)))) = 1
  /\ occurrences (JStr "job-1")
       (result_ids (sent (trace (process "ws://localhost:3003" "token-1" one_job)))) = 1.
Proof.
  pose proof (one_result_per_job "ws://localhost:3003" "token-1" one_job
                (JStr "job-1") eq_refl eq_refl) as H.
  assert (Hn : NoDup (jobs_received (schedule one_job))).
  { vm_compute. constructor; [intros []|constructor]. }
  assert (Hin : In (JStr "job-1") (jobs_received (schedule one_job))).
  { vm_compute. left. reflexivity. }
  destruct (H Hn Hin eq_refl) as (H1 & _ & H3).
  split; [exact H1|].
  apply (H3 (full_job_frame "job-1" "print('done')" 300) true).
  - vm_compute. right. right. left. reflexivity.
  - reflexivity.
Defined.

(** C6 fails as stated: a job arrives, the connection closes during the
    two seconds the handler waits, and no [jobResult] for the job is ever
    sent; the process ends with status 0. *)
Lemma job_result_lost :
  dial lost_job = None /\ register_link lost_job = true
  /\ jobs_received (schedule lost_job) = [JStr "job-1"]
  /\ encodable (JStr "job-1") = true
  /\ occurrences (JStr "job-1")
       (result_ids (sent (trace (process "ws://localhost:3003" "token-1" lost_job))))
     = 0
  /\ occurrences (JStr "job-1")
       (result_ids (sent (trace (process "ws://localhost:3003" "token-1" lost_job))))
     <> 1
  /\ exit_status (process "ws://localhost:3003" "token-1" lost_job) = Some 0%Z.
Proof.
  repeat split; try (vm_compute; reflexivity).
  vm_compute. discriminate.
Qed.

(** ** Heartbeats *)

Lemma heartbeat_view_app a b :
  heartbeat_view (a ++ b) = heartbeat_view a ++ heartbeat_view b.
Proof. apply filter_app. Qed.

Lemma prints_no_heartbeat t :
  forallb is_print t = true -> heartbeat_view t = [].
Proof.
  induction t as [|ev t IH]; simpl; [reflexivity|].
  intros H. apply andb_true_iff in H. destruct H as [Hev Ht].
  destruct ev; try discriminate. simpl. apply IH. exact Ht.
Qed.

Lemma reaction_view message link self :
  heartbeat_view (reaction message link self) = [].
Proof.
  destruct message as [text|why|data]; [reflexivity|reflexivity|].
  destruct data; try reflexivity.
  unfold reaction.
  destruct (has_type "registered" (JObj fields)); [console_cases; reflexivity|].
  destruct (has_type "job" (JObj fields)).
  { unfold job_trace. destruct (encodable _); [|reflexivity].
    destruct (ws self); [destruct link|]; reflexivity. }
  destruct (has_type "error" (JObj fields)); console_cases; reflexivity.
Qed.

Lemma dead_loop_view stimuli fin : forall self,
  heartbeat_view (trace (receive_loop false stimuli fin self)) = [].
Proof.
  induction stimuli as [|[message link|utcnow link] later IH]; intros self.
  - destruct fin as [[|e]|]; reflexivity.
  - rewrite receive_loop_deliver. cbv zeta. cbn [trace].
    rewrite heartbeat_view_app, reaction_view, IH. reflexivity.
  - rewrite receive_loop_wake_dead. apply IH.
Qed.

Lemma loop_cadence stimuli fin : forall hb self,
  cadence (heartbeat_view (trace (receive_loop hb stimuli fin self))) = true.
Proof.
  induction stimuli as [|[message link|utcnow link] later IH]; intros hb self.
  - destruct fin as [[|e]|]; reflexivity.
  - rewrite receive_loop_deliver. cbv zeta. cbn [trace].
    rewrite heartbeat_view_app, reaction_view. apply IH.
  - destruct hb; [|rewrite receive_loop_wake_dead; apply IH].
    rewrite receive_loop_wake. cbv zeta. cbn [trace].
    rewrite heartbeat_view_app. unfold beat.
    destruct (running self); [|cbn [fst snd]; rewrite dead_loop_view; reflexivity].
    destruct (ws self); [|cbn [fst snd]; rewrite dead_loop_view; reflexivity].
    destruct link; cbn [fst snd].
    + change (heartbeat_view
                [WsSend (heartbeat_message self utcnow) true; Sleep 10])
        with [WsSend (heartbeat_message self utcnow) true; Sleep 10].
      cbn [app cadence]. apply IH.
    + rewrite dead_loop_view. reflexivity.
Qed.

Lemma process_heartbeat_view endpoint token w :
  heartbeat_view (trace (process endpoint token w)) =
  match dial w with
  | Some _ => []
  | None =>
      if register_link w then
        heartbeat_view (trace (receive_loop true (schedule w) (finish w)
                                 (connected (fresh endpoint token))))
      else []
  end.
Proof.
  rewrite process_trace, !heartbeat_view_app, connect_trace.
  rewrite (prints_no_heartbeat _ (farewell_prints (connect_result w))).
  rewrite app_nil_r. change (heartbeat_view banner) with (@nil event).
  rewrite app_nil_l.
  destruct (dial w) as [e|].
  - destruct (is_Exception e); reflexivity.
  - destruct (register_link w); [|reflexivity].
    rewrite !heartbeat_view_app.
    rewrite (prints_no_heartbeat _ (register_log_prints (platform w))).
    rewrite (prints_no_heartbeat _ (closing_log_prints (finish w))).
    rewrite app_nil_r. reflexivity.
Qed.

Lemma send_heartbeat_steady wakes : forall self sock,
  running self = true -> ws self = Some sock ->
  forallb snd wakes = true ->
  send_heartbeat wakes self =
  Run (flat_map (fun wake =>
                   [WsSend (heartbeat_message self (fst wake)) true; Sleep 10])
                wakes)
      self Waiting.
Proof.
  intros [ep tk nid sk rn] sock. cbn [running ws]. intros -> ->.
  induction wakes as [|[utcnow link] later IH]; [reflexivity|].
  cbn [forallb snd]. intros H. apply andb_true_iff in H. destruct H as [-> H].
  cbn [send_heartbeat]. run_step. cbn [running].
  erewrite bind_returned by reflexivity.
  cbn -[heartbeat_message]. rewrite (IH H). reflexivity.
Qed.

(** C5, as the code has it.  The heartbeat task is started as soon as the
    registration request has been handed to the connection, without
    waiting for the acknowledgment: no heartbeat precedes the registration
    request, and a heartbeat carries the node id held at that moment, null
    before an acknowledgment.  While the connection is open the task
    alternates one heartbeat and one pause of ten seconds (the interval is
    fixed in the code), and it ends with the first heartbeat that cannot
    be written. *)
Theorem heartbeat_after_registration_request (endpoint token : string) (w : world) :
  hd_error (send_calls (trace (process endpoint token w))) =
    match dial w with
    | None => Some (register_message (fresh endpoint token) (platform w))
    | Some _ => None
    end
  /\ (forall self utcnow,
        field "nodeId" (heartbeat_message self utcnow) = Some (node_id self))
  /\ (forall self sock wakes,
        running self = true -> ws self = Some sock ->
        forallb snd wakes = true ->
        send_heartbeat wakes self =
        Run (flat_map (fun wake =>
                         [WsSend (heartbeat_message self (fst wake)) true;
                          Sleep 10])
                      wakes)
            self Waiting)
  /\ cadence (heartbeat_view (trace (process endpoint token w))) = true.
Proof.
  split.
  { rewrite process_send_calls. destruct (dial w); reflexivity. }
  split; [reflexivity|].
  split; [intros self sock wakes; apply send_heartbeat_steady|].
  rewrite process_heartbeat_view.
  destruct (dial w); [reflexivity|].
  destruct (register_link w); [apply loop_cadence|reflexivity].
Qed.

Lemma heartbeat_after_registration_request_witness :
  send_heartbeat [("2025-01-01T00:00:00", true); ("2025-01-01T00:00:10", true)]
                 (serving JNull) =
  Run [WsSend (heartbeat_message (serving JNull) "2025-01-01T00:00:00") true;
       Sleep 10;
       WsSend (heartbeat_message (serving JNull) "2025-01-01T00:00:10") true;
       Sleep 10]
      (serving JNull) Waiting.
Proof.
  apply (proj1 (proj2 (proj2
           (heartbeat_after_registration_request
              "ws://localhost:3003" "token-1" unacknowledged)))
           (serving JNull) (Socket "ws://localhost:3003")
           [("2025-01-01T00:00:00", true); ("2025-01-01T00:00:10", true)]);
    reflexivity.
Defined.

(** C5 fails as stated: a heartbeat is written before any acknowledgment
    has arrived, with a null node id. *)
Lemma heartbeat_before_acknowledgment :
  sent (trace (process "ws://localhost:3003" "token-1" unacknowledged)) =
    [register_message (fresh "ws://localhost:3003" "token-1") cpu_host;
     JObj [("type", JStr "heartbeat"); ("nodeId", JNull);
           ("timestamp", JStr "2025-01-01T00:00:00")]]
  /\ jobs_received (schedule unacknowledged) = []
  /\ last_registered (schedule unacknowledged) JNull = JNull
  /\ node_id (final (process "ws://localhost:3003" "token-1" unacknowledged)) = JNull.
Proof. repeat split; vm_compute; reflexivity. Qed.

(* ================================================================== *)
(** * Further properties of the agent *)

(** ** What a session sends for its jobs *)









(** ** What a session leaves of the agent *)

Lemma receive_loop_final stimuli fin : forall hb self,
  final (receive_loop hb stimuli fin self) =
  with_node_id self (last_registered stimuli (node_id self)).
Proof.
  induction stimuli as [|[message link|utcnow link] later IH]; intros hb self.
  - destruct self. destruct fin as [[|e]|]; reflexivity.
  - rewrite receive_loop_deliver. cbv zeta. cbn [final last_registered].
    rewrite IH. unfold after_message.
    destruct (registered_id message); reflexivity.
  - destruct hb.
    + rewrite receive_loop_wake. cbv zeta. cbn [final]. apply IH.
    + rewrite receive_loop_wake_dead. apply IH.
Qed.

(** X2.  Frames and heartbeats change nothing but the node id: after any run of
    the receive loop the endpoint, the token, the socket and the running
    flag are those it started with. *)
Theorem session_keeps_identity (hb : bool) (stimuli : list stimulus)
    (fin : option ending) (self : agent) :
  final (receive_loop hb stimuli fin self) =
  Agent (endpoint self) (token self)
        (last_registered stimuli (node_id self))
        (ws self) (running self).
Proof. apply receive_loop_final. Qed.

(** X3.  [connect] clears the running flag when its receive loop is left,
    however it is left (stream exhausted, connection closed, interrupt, any
    other exception), and the node id is then the last one acknowledged;
    when the registration request cannot be written the flag stays set,
    and a failed connection attempt leaves the agent as it was. *)
Theorem connect_leaves (w : world) (self : agent) :
  final (connect w self) = after_connect w self
  /\ (dial w = None -> register_link w = true ->
      running (final (connect w self)) =
      match finish w with None => true | Some _ => false end)
  /\ (dial w = None -> register_link w = false ->
      running (final (connect w self)) = true).
Proof.
  assert (E : final (connect w self) = after_connect w self).
  { unfold after_connect. destruct (dial w) as [e|] eqn:Hd.
    - rewrite (connect_refused w self e Hd). reflexivity.
    - destruct (register_link w) eqn:Hr.
      + rewrite (connect_served w self Hd Hr). cbv zeta. cbn [final].
        rewrite receive_loop_final. reflexivity.
      + rewrite (connect_unregistered w self Hd Hr). reflexivity. }
  split; [exact E|]. rewrite E. unfold after_connect.
  split; intros -> ->; [destruct (finish w)|]; reflexivity.
Qed.

Lemma connect_leaves_witness :
  running (final (connect interrupted_session (fresh "ws://localhost:3003" "token-1"))) =
  match finish interrupted_session with None => true | Some _ => false end.
Proof.
  apply (proj1 (proj2 (connect_leaves interrupted_session
                         (fresh "ws://localhost:3003" "token-1"))));
    reflexivity.
Defined.

(** ** Interrupts *)

Lemma last_app_one {A} (l : list A) (x d : A) : last (l ++ [x]) d = x.
Proof. apply last_last. Qed.

(** X4.  An interrupt (Ctrl-C), during the connection attempt or during the
    session, ends the process with status 0: [main] prints its shutdown
    line last, prints no fatal error, and the agent is left stopped or
    never started. *)
Theorem interrupt_is_graceful (endpoint token : string) (w : world) :
  interrupted w ->
  exit_status (process endpoint token w) = Some 0%Z
  /\ last (trace (process endpoint token w)) shutdown_line = shutdown_line
  /\ farewell (connect_result w) = [shutdown_line]
  /\ running (final (process endpoint token w)) = false.
Proof.
  intros Hi.
  assert (Hres : connect_result w = Raised CancelledError).
  { unfold connect_result.
    destruct Hi as [->|(-> & -> & ->)]; reflexivity. }
  split; [rewrite process_exit, Hres; reflexivity|].
  split.
  { rewrite process_trace, Hres. cbn [farewell is_CancelledError orb].
    rewrite !app_assoc. apply last_app_one. }
  split; [rewrite Hres; reflexivity|].
  unfold process. rewrite main_run. cbv zeta. cbn [final].
  rewrite (proj1 (connect_leaves w _)). unfold after_connect.
  destruct Hi as [->|(-> & -> & ->)]; reflexivity.
Qed.

Lemma interrupt_is_graceful_witness :
  exit_status (process "ws://localhost:3003" "token-1" interrupted_session) = Some 0%Z
  /\ last (trace (process "ws://localhost:3003" "token-1" interrupted_session))
          shutdown_line = shutdown_line
  /\ farewell (connect_result interrupted_session) = [shutdown_line]
  /\ running (final (process "ws://localhost:3003" "token-1" interrupted_session)) = false.
Proof.
  apply (interrupt_is_graceful "ws://localhost:3003" "token-1" interrupted_session).
  right. repeat split; reflexivity.
Defined.

(** ** Jobs hold the receive loop *)

Lemma job_pauses_app a b : job_pauses (a ++ b) = job_pauses a ++ job_pauses b.
Proof. apply filter_app. Qed.



Lemma prints_no_job_pause t :
  forallb is_print t = true -> job_pauses t = [].
Proof.
  induction t as [|ev t IH]; simpl; [reflexivity|].
  intros H. apply andb_true_iff in H. destruct H as [Hev Ht].
  destruct ev; try discriminate. simpl. apply IH. exact Ht.
Qed.




(** ** A heartbeat that fails *)









(** ** A job id that cannot be printed *)




(** ** Methods used before a connection exists *)




(* ================================================================== *)
(** * Further properties of GPU detection *)

Lemma contains_app c a b :
  contains c (a ++ b)%string = contains c a || contains c b.
Proof.
  induction a as [|d a IH]; simpl; [reflexivity|].
  rewrite IH. apply orb_assoc.
Qed.

Lemma split_without sep s : contains sep s = false -> Py.split sep s = [s].
Proof.
  induction s as [|c s IH]; simpl; [reflexivity|].
  intros H. apply orb_false_iff in H. destruct H as [Hc Hs].
  rewrite Hc, (IH Hs). reflexivity.
Qed.

Lemma split_at sep a b :
  contains sep a = false ->
  Py.split sep (a ++ String sep b)%string = a :: Py.split sep b.
Proof.
  induction a as [|c a IH]; simpl.
  - intros _. rewrite Ascii.eqb_refl. reflexivity.
  - intros H. apply orb_false_iff in H. destruct H as [Hc Ha].
    rewrite Hc, (IH Ha). reflexivity.
Qed.

Lemma split_parts_without sep s part :
  In part (Py.split sep s) -> contains sep part = false.
Proof.
  revert part. induction s as [|c s IH]; intros part; simpl.
  - intros [<-|[]]. reflexivity.
  - destruct (Ascii.eqb c sep) eqn:Hc.
    + intros [<-|Hin]; [reflexivity|apply IH; exact Hin].
    + destruct (Py.split sep s) as [|head tail] eqn:E.
      * intros [<-|[]]. simpl. rewrite Hc. reflexivity.
      * intros [<-|Hin].
        -- simpl. rewrite Hc. apply IH. left. reflexivity.
        -- apply IH. right. exact Hin.
Qed.

Lemma split_length_contains sep s :
  (2 <=? length (Py.split sep s))%nat = contains sep s.
Proof.
  induction s as [|c s IH]; simpl; [reflexivity|].
  destruct (Ascii.eqb c sep) eqn:Hc; simpl.
  - destruct (Py.split sep s) as [|h t] eqn:E; [exfalso; exact (split_not_nil _ _ E)|].
    reflexivity.
  - destruct (Py.split sep s) as [|h t] eqn:E; [exfalso; exact (split_not_nil _ _ E)|].
    exact IH.
Qed.

Lemma lstrip_contains c s :
  contains c (Py.lstrip s) = true -> contains c s = true.
Proof.
  induction s as [|d s IH]; simpl; [discriminate|].
  destruct (Py.isspace d).
  - intros H. rewrite (IH H). apply orb_true_r.
  - simpl. intros H. exact H.
Qed.

Lemma rstrip_contains c s :
  contains c (Py.rstrip s) = true -> contains c s = true.
Proof.
  induction s as [|d s IH]; simpl; [discriminate|].
  destruct (Py.is_empty (Py.rstrip s) && Py.isspace d); simpl; [discriminate|].
  intros H. apply orb_true_iff in H. destruct H as [H|H].
  - rewrite H. reflexivity.
  - rewrite (IH H). apply orb_true_r.
Qed.

Lemma strip_keeps_out c s : contains c s = false -> contains c (Py.strip s) = false.
Proof.
  intros H. destruct (contains c (Py.strip s)) eqn:E; [|reflexivity].
  unfold Py.strip in E. apply lstrip_contains, rstrip_contains in E.
  rewrite H in E. discriminate.
Qed.

Lemma lstrip_lstrip s : Py.lstrip (Py.lstrip s) = Py.lstrip s.
Proof.
  induction s as [|c s IH]; simpl; [reflexivity|].
  destruct (Py.isspace c) eqn:Hc; [exact IH|].
  simpl. rewrite Hc. reflexivity.
Qed.

Lemma rstrip_rstrip s : Py.rstrip (Py.rstrip s) = Py.rstrip s.
Proof.
  induction s as [|c s IH]; simpl; [reflexivity|].
  destruct (Py.is_empty (Py.rstrip s) && Py.isspace c) eqn:E; [reflexivity|].
  simpl. rewrite IH, E. reflexivity.
Qed.

Lemma rstrip_lstrip_fixed r :
  Py.rstrip r = r -> Py.rstrip (Py.lstrip r) = Py.lstrip r.
Proof.
  induction r as [|c r IH]; simpl; [reflexivity|].
  intros H. destruct (Py.isspace c) eqn:Hc.
  - apply IH.
    destruct (Py.is_empty (Py.rstrip r) && true); [discriminate|].
    injection H as H. exact H.
  - simpl. rewrite Hc. exact H.
Qed.

Lemma strip_strip s : Py.strip (Py.strip s) = Py.strip s.
Proof.
  unfold Py.strip.
  rewrite (rstrip_lstrip_fixed _ (rstrip_rstrip s)).
  apply lstrip_lstrip.
Qed.

(** X8.  Every detected entry is tidy: its model and its memory text carry no
    blank at either end (stripping them again changes nothing) and hold no
    comma and no line feed. *)
Theorem detected_fields_are_clean (smi : smi_outcome) (gpu : json) :
  In gpu (gpus_of_outcome smi) ->
  exists model vram,
    gpu = gpu_entry model vram /\ clean_field model /\ clean_field vram.
Proof.
  intros Hin.
  destruct smi as [e|rc out]; [contradiction|].
  destruct rc; try contradiction.
  simpl in Hin. apply in_flat_map in Hin. destruct Hin as (text & Hl & Hg).
  unfold line_entry in Hg.
  destruct text as [|c rest]; [contradiction|].
  destruct (Py.split Py.comma (String c rest)) as [|first [|second more]] eqn:E;
    try contradiction.
  destruct Hg as [<-|[]].
  pose proof (split_parts_without _ _ _ Hl) as Hnl.
  assert (H1 : In first (Py.split Py.comma (String c rest)))
    by (rewrite E; left; reflexivity).
  assert (H2 : In second (Py.split Py.comma (String c rest)))
    by (rewrite E; right; left; reflexivity).
  assert (Hsub : forall part,
            In part (Py.split Py.comma (String c rest)) ->
            contains Py.newline part = false).
  { intros part Hp.
    destruct (contains Py.newline part) eqn:Ec; [|reflexivity].
    exfalso. clear - Hp Ec Hnl.
    assert (G : forall s p, In p (Py.split Py.comma s) ->
                contains Py.newline p = true -> contains Py.newline s = true).
    { clear. induction s as [|d s IH]; intros p; simpl.
      - intros [<-|[]] H. exact H.
      - destruct (Ascii.eqb d Py.comma) eqn:Hd.
        + intros [<-|Hin] H; [discriminate|].
          rewrite (IH _ Hin H). apply orb_true_r.
        + destruct (Py.split Py.comma s) as [|h t] eqn:E.
          * exfalso. exact (split_not_nil _ _ E).
          * intros [<-|Hin] H.
            -- simpl in H. apply orb_true_iff in H. destruct H as [H|H].
               ++ rewrite H. reflexivity.
               ++ rewrite (IH h (or_introl eq_refl) H). apply orb_true_r.
            -- rewrite (IH p (or_intror Hin) H). apply orb_true_r. }
    rewrite (G _ _ Hp Ec) in Hnl. discriminate. }
  exists (Py.strip first), (Py.strip second).
  split; [reflexivity|].
  split; (split; [apply strip_strip|]; split; apply strip_keeps_out).
  - apply (split_parts_without _ _ _ H1).
  - apply (Hsub _ H1).
  - apply (split_parts_without _ _ _ H2).
  - apply (Hsub _ H2).
Qed.

Lemma detected_fields_are_clean_witness :
  exists model vram,
    gpu_entry "NVIDIA GeForce RTX 4090" "24564 MiB" = gpu_entry model vram /\
    clean_field model /\ clean_field vram.
Proof.
  apply (detected_fields_are_clean (nvidia_smi one_gpu_host)).
  vm_compute. left. reflexivity.
Defined.

Lemma line_entry_length text :
  length (line_entry text) = if contains Py.comma text then 1 else 0.
Proof.
  unfold line_entry. destruct text as [|c rest]; [reflexivity|].
  rewrite <- split_length_contains.
  destruct (Py.split Py.comma (String c rest)) as [|first [|second more]];
    reflexivity.
Qed.

(** X9.  With exit code 0 the list has exactly one entry per output line that
    contains a comma: any such line counts as a GPU, whatever it says, and
    an output without a comma gives the empty list. *)
Theorem one_entry_per_comma_line (out : string) (S : Type) (s : S) :
  exists gpus,
    detect_gpus (SmiCompleted 0 out) s = Run [] s (Returned gpus) /\
    length gpus =
    length (filter (contains Py.comma) (Py.split Py.newline out)).
Proof.
  exists (gpus_of_outcome (SmiCompleted 0 out)).
  split; [apply detect_gpus_run|].
  cbn [gpus_of_outcome].
  induction (Py.split Py.newline out) as [|text lines IH]; [reflexivity|].
  cbn [flat_map filter]. rewrite length_app, line_entry_length, IH.
  destruct (contains Py.comma text); reflexivity.
Qed.

Lemma report_line_entry name memory :
  clean_field name -> clean_field memory ->
  line_entry (name ++ String Py.comma (String (ascii_of_nat 32) memory))%string =
  [gpu_entry name memory].
Proof.
  intros (Hn1 & Hn2 & _) (Hm1 & Hm2 & _).
  assert (Hsplit : Py.split Py.comma
            (name ++ String Py.comma (String (ascii_of_nat 32) memory))%string =
            [name; String (ascii_of_nat 32) memory]).
  { rewrite (split_at _ _ _ Hn2).
    rewrite split_without; [reflexivity|]. simpl. exact Hm2. }
  unfold line_entry. rewrite Hsplit.
  rewrite Hn1, (strip_cons_space (ascii_of_nat 32) memory eq_refl), Hm1.
  destruct name; reflexivity.
Qed.

Lemma report_lines gpus :
  Forall (fun g => clean_field (fst g) /\ clean_field (snd g)) gpus ->
  flat_map line_entry (Py.split Py.newline (smi_report gpus)) =
  map (fun g => gpu_entry (fst g) (snd g)) gpus.
Proof.
  induction 1 as [|[name memory] rest [Hn Hm] _ IH]; [reflexivity|].
  cbn [smi_report map fst snd] in *.
  assert (Hline : contains Py.newline
            (name ++ String Py.comma (String (ascii_of_nat 32) memory))%string
          = false).
  { rewrite contains_app. destruct Hn as (_ & _ & ->). destruct Hm as (_ & _ & Hm).
    simpl. exact Hm. }
  replace (name ++ String Py.comma (String (ascii_of_nat 32) memory)
                ++ String Py.newline (smi_report rest))%string
    with ((name ++ String Py.comma (String (ascii_of_nat 32) memory))
            ++ String Py.newline (smi_report rest))%string.
  - rewrite (split_at _ _ _ Hline). cbn [flat_map].
    rewrite (report_line_entry _ _ Hn Hm), IH. reflexivity.
  - clear. induction name as [|c name IH]; simpl; [reflexivity|].
    rewrite IH. reflexivity.
Qed.

(** X10.  Reading back a report: when the tool prints one CSV line per GPU
    (name, a comma and a blank, memory) and the texts are clean,
    [detect_gpus] returns exactly these GPUs, in the order printed. *)
Theorem report_round_trip (gpus : list (string * string)) (S : Type) (s : S) :
  Forall (fun g => clean_field (fst g) /\ clean_field (snd g)) gpus ->
  detect_gpus (SmiCompleted 0 (smi_report gpus)) s =
  Run [] s (Returned (map (fun g => gpu_entry (fst g) (snd g)) gpus)).
Proof.
  intros H. rewrite detect_gpus_run. cbn [gpus_of_outcome].
  rewrite (report_lines _ H). reflexivity.
Qed.

Lemma report_round_trip_witness :
  detect_gpus
    (SmiCompleted 0 (smi_report [("NVIDIA A100", "40960 MiB");
                                 ("Tesla T4", "15360 MiB")])) tt =
  Run [] tt (Returned [gpu_entry "NVIDIA A100" "40960 MiB";
                        gpu_entry "Tesla T4" "15360 MiB"]).
Proof.
  apply (report_round_trip [("NVIDIA A100", "40960 MiB");
                            ("Tesla T4", "15360 MiB")] unit tt).
  repeat constructor.
Defined.

(* ================================================================== *)
(** * The install script *)

(** Takes a machine apart and names the tests the script makes. *)
Ltac script_cases e :=
  destruct e as [[ms md] cdf ca ch p3 pp ag];
  unfold prepared, install_sh, Sh.run, Sh.try;
  cbn [fst snd Sh.mktemp_d Sh.cd Sh.cat_agent Sh.chmod_agent
       Sh.pip3_install Sh.python3_pip_install Sh.python3_agent].

(** X11.  Without a token (no parameter, or an empty one) the script prints the
    usage and exits with status 1; it runs no command at all: no directory
    is made, nothing is written or installed, the agent is not started. *)
Theorem install_requires_token (args : list string) (e : Sh.env) :
  Sh.positional 1 args = EmptyString ->
  snd (install_sh args e) = inr (Sh.Exited 1)
  /\ commands (fst (install_sh args e)) = []
  /\ agent_runs (fst (install_sh args e)) = [].
Proof.
  intros H. unfold install_sh. rewrite H. repeat split; reflexivity.
Qed.

Lemma install_requires_token_witness :
  snd (install_sh [] (smooth (Some 0%Z))) = inr (Sh.Exited 1)
  /\ commands (fst (install_sh [] (smooth (Some 0%Z)))) = []
  /\ agent_runs (fst (install_sh [] (smooth (Some 0%Z)))) = [].
Proof.
  apply (install_requires_token [] (smooth (Some 0%Z))). reflexivity.
Defined.

(** X12.  With a token and every step before it successful, the script starts
    the agent exactly once, last, with the token as given and with the
    second parameter as endpoint, or [ws://localhost:3003] when that
    parameter is absent or empty; the script ends with the status of the
    agent, and is still running while the agent is. *)
Theorem install_starts_agent (args : list string) (e : Sh.env) :
  Sh.positional 1 args <> EmptyString ->
  prepared e = true ->
  agent_runs (fst (install_sh args e)) =
    [agent_command
       (Sh.or_default (Sh.positional 2 args) "ws://localhost:3003")
       (Sh.positional 1 args)]
  /\ snd (install_sh args e) =
     inr (match Sh.python3_agent e
                  (Sh.or_default (Sh.positional 2 args) "ws://localhost:3003")
                  (Sh.positional 1 args) with
          | Some status => Sh.Exited status
          | None => Sh.Running
          end).
Proof.
  intros Ht. script_cases e. intros Hp.
  destruct (Sh.positional 1 args) as [|c token]; [contradiction|].
  cbn [Py.is_empty].
  apply andb_true_iff in Hp. destruct Hp as [Hp Hpip].
  apply andb_true_iff in Hp. destruct Hp as [Hp Hch].
  apply andb_true_iff in Hp. destruct Hp as [Hp Hca].
  apply andb_true_iff in Hp. destruct Hp as [Hms Hcd].
  rewrite Hms, Hcd, Hca, Hch.
  destruct (ag (Sh.or_default (Sh.positional 2 args) "ws://localhost:3003")
               (String c token)) as [status|];
    destruct (p3 =? 0)%Z; cbn [orb] in Hpip; try rewrite Hpip;
    split; reflexivity.
Qed.

Lemma install_starts_agent_witness :
  agent_runs (fst (install_sh ["token-1"] (smooth None))) =
    [agent_command "ws://localhost:3003" "token-1"]
  /\ snd (install_sh ["token-1"] (smooth None)) = inr Sh.Running.
Proof.
  apply (install_starts_agent ["token-1"] (smooth None)).
  - discriminate.
  - reflexivity.
Defined.

(** X13.  When a step before the agent fails (for the dependency: [pip3] and
    then [python3 -m pip] both fail) the script ends at once with the
    non-zero status of that step and the agent is not started. *)
Theorem install_stops_on_failure (args : list string) (e : Sh.env) :
  Sh.positional 1 args <> EmptyString ->
  prepared e = false ->
  agent_runs (fst (install_sh args e)) = []
  /\ exists status,
       snd (install_sh args e) = inr (Sh.Exited status) /\ status <> 0%Z
       /\ exists argv t, last (fst (install_sh args e)) (Sh.Echo EmptyString) = t
            /\ (t = Sh.Exec argv status \/ t = Sh.Write "agent.py" status).
Proof.
  intros Ht. script_cases e. intros Hp.
  destruct (Sh.positional 1 args) as [|c token]; [contradiction|].
  cbn [Py.is_empty].
  destruct (Z.eqb_spec ms 0) as [->|Hms].
  2:{ split; [reflexivity|]. exists ms. split; [reflexivity|].
      split; [exact Hms|]. eexists. eexists. split; [reflexivity|].
      left. reflexivity. }
  destruct (Z.eqb_spec (cdf md) 0) as [Hcd|Hcd].
  2:{ split; [reflexivity|]. exists (cdf md). split; [reflexivity|].
      split; [exact Hcd|]. eexists. eexists. split; [reflexivity|].
      left. reflexivity. }
  destruct (Z.eqb_spec ca 0) as [->|Hca].
  2:{ split; [reflexivity|]. exists ca. split; [reflexivity|].
      split; [exact Hca|]. exists []. eexists. split; [reflexivity|].
      right. reflexivity. }
  destruct (Z.eqb_spec ch 0) as [->|Hch].
  2:{ split; [reflexivity|]. exists ch. split; [reflexivity|].
      split; [exact Hch|]. eexists. eexists. split; [reflexivity|].
      left. reflexivity. }
  cbn [andb] in Hp. apply orb_false_iff in Hp. destruct Hp as [Hp3 Hpp].
  rewrite Hp3.
  destruct (Z.eqb_spec pp 0) as [->|Hppn]; [discriminate|].
  split; [reflexivity|]. exists pp. split; [reflexivity|].
  split; [exact Hppn|]. eexists. eexists. split; [reflexivity|].
  left. reflexivity.
Qed.

Lemma install_stops_on_failure_witness :
  agent_runs (fst (install_sh ["token-1"] no_pip)) = []
  /\ exists status,
       snd (install_sh ["token-1"] no_pip) = inr (Sh.Exited status)
       /\ status <> 0%Z
       /\ exists argv t,
            last (fst (install_sh ["token-1"] no_pip)) (Sh.Echo EmptyString) = t
            /\ (t = Sh.Exec argv status \/ t = Sh.Write "agent.py" status).
Proof.
  apply (install_stops_on_failure ["token-1"] no_pip).
  - discriminate.
  - reflexivity.
Defined.

(* ================================================================== *)
(** * The agent of the Windows installer *)

Lemma wire_app a b : wire (a ++ b) = wire a ++ wire b.
Proof. apply filter_app. Qed.

Lemma wire_prints t : forallb is_print t = true -> wire t = [].
Proof.
  induction t as [|ev t IH]; simpl; [reflexivity|].
  intros H. apply andb_true_iff in H. destruct H as [Hev Ht].
  destruct ev; try discriminate. simpl. apply IH. exact Ht.
Qed.

Lemma same_on_wire_prefix {A} t t' (win unix : run agent A) :
  wire t = map retext_event (wire t') ->
  same_on_wire win unix ->
  same_on_wire (prefix t win) (prefix t' unix).
Proof.
  intros Ht (H1 & H2 & H3). unfold same_on_wire, prefix. cbn [trace final result].
  rewrite !wire_app, map_app, Ht, H1. repeat split; assumption.
Qed.

Ltac win_read_tag fields :=
  unfold Win.handle_message_try, json_loads;
  rewrite bind_ret; cbn [dict_get]; rewrite bind_ret;
  fold (get_or_null "type" fields).

Lemma win_caught_and_logged message link self t s' e :
  Win.handle_message_try message link self = Run t s' (Raised e) ->
  is_Exception e = true ->
  Win.handle_message message link self =
  Run (t ++ [Win.handling_error e]) s' (Returned tt).
Proof.
  intros E He. unfold Win.handle_message, try_except. rewrite E.
  cbn [result trace final]. rewrite He. reflexivity.
Qed.

Lemma win_handle_message_run message link self :
  exists t,
    Win.handle_message message link self =
      Run t (after_message message self) (Returned tt)
    /\ wire t = map retext_event (wire (reaction message link self)).
Proof.
  destruct message as [text|why|data].
  { eexists. split; reflexivity. }
  { destruct why; eexists; split; reflexivity. }
  destruct data; try (eexists; split; reflexivity).
  unfold reaction, after_message, registered_id. rewrite !has_type_tag.
  destruct (eq_str (get_or_null "type" fields) "registered") eqn:H1.
  { unfold registered_trace.
    destruct (encodable (get_or_null "nodeId" fields)) eqn:He.
    - eexists. split.
      + apply try_except_returned. win_read_tag fields. rewrite H1.
        cbn [dict_get]. rewrite bind_ret. fold (get_or_null "nodeId" fields).
        do 5 run_step. cbn [node_id]. print_step He.
        repeat run_step. reflexivity.
      + reflexivity.
    - eexists. split.
      + eapply (win_caught_and_logged _ _ _ _ _ UnicodeEncodeError);
          [|reflexivity].
        win_read_tag fields. rewrite H1.
        cbn [dict_get]. rewrite bind_ret. fold (get_or_null "nodeId" fields).
        do 5 run_step. cbn [node_id]. print_step He.
        reflexivity.
      + reflexivity. }
  destruct (eq_str (get_or_null "type" fields) "job") eqn:H2.
  { unfold job_trace.
    destruct (encodable (get_or_null "jobId" fields)) eqn:He.
    - assert (E : exists t,
                Win.handle_message_try (Json (JObj fields)) link self =
                  Run t self
                    (match ws self with
                     | None => Raised AttributeError
                     | Some _ => if link then Returned tt
                                 else Raised ConnectionClosedError
                     end)
                /\ wire t =
                   Sleep 2 ::
                   match ws self with
                   | None => []
                   | Some _ =>
                       [WsSend (Win.job_result (get_or_null "jobId" fields)
                                  (node_id self)) link]
                   end).
      { win_read_tag fields. rewrite H1, H2.
        cbn [dict_get]. rewrite bind_ret. fold (get_or_null "jobId" fields).
        print_step He. do 2 run_step.
        destruct self as [ep tk nid [sock|] rn]; destruct link; cbn [ws node_id].
        - run_step.
          rewrite print_ok
            by (cbn [forallb piece_encodable]; rewrite He; reflexivity).
          eexists; split; reflexivity.
        - run_step. eexists; split; reflexivity.
        - run_step. eexists; split; reflexivity.
        - run_step. eexists; split; reflexivity. }
      unfold Win.handle_message, try_except.
      destruct E as (t & E & Ht). rewrite E.
      destruct (ws self); [destruct link|];
        (eexists; split; [reflexivity|]);
        cbn [trace]; rewrite ?wire_app, Ht; reflexivity.
    - eexists. split.
      + eapply (win_caught_and_logged _ _ _ [] self UnicodeEncodeError);
          [|reflexivity].
        win_read_tag fields. rewrite H1, H2.
        cbn [dict_get]. rewrite bind_ret. fold (get_or_null "jobId" fields).
        print_step He. reflexivity.
      + reflexivity. }
  destruct (eq_str (get_or_null "type" fields) "error") eqn:H3.
  { unfold error_trace, error_text.
    destruct (lookup "message" fields) as [v|] eqn:Hm.
    - destruct (encodable v) eqn:He.
      + eexists. split.
        * apply try_except_returned. win_read_tag fields. rewrite H1, H2, H3.
          cbn [dict_get]. rewrite bind_ret, Hm.
          apply print_ok. cbn [forallb piece_encodable]. rewrite He. reflexivity.
        * reflexivity.
      + eexists. split.
        * eapply (win_caught_and_logged _ _ _ [] self UnicodeEncodeError);
            [|reflexivity].
          win_read_tag fields. rewrite H1, H2, H3.
          cbn [dict_get]. rewrite bind_ret, Hm.
          apply print_fails. cbn [forallb piece_encodable]. rewrite He.
          reflexivity.
        * reflexivity.
    - eexists. split.
      + apply try_except_returned. win_read_tag fields. rewrite H1, H2, H3.
        cbn [dict_get]. rewrite bind_ret, Hm. reflexivity.
      + reflexivity. }
  eexists. split.
  - apply try_except_returned. win_read_tag fields. rewrite H1, H2, H3.
    reflexivity.
  - reflexivity.
Qed.

Lemma win_step_heartbeat utcnow link self :
  exists t,
    step_task (Win.send_heartbeat [(utcnow, link)]) self =
      Run t self (Returned (snd (beat self utcnow link)))
    /\ wire t = map retext_event (wire (fst (beat self utcnow link))).
Proof.
  destruct self as [ep tk nid [sock|] [|]]; destruct link;
    (eexists; split; reflexivity).
Qed.

Lemma win_loop_same stimuli fin : forall hb self,
  same_on_wire (Win.receive_loop hb stimuli fin self)
               (receive_loop hb stimuli fin self).
Proof.
  induction stimuli as [|[message link|utcnow link] later IH]; intros hb self.
  - destruct fin as [[|e]|]; repeat split; reflexivity.
  - rewrite receive_loop_deliver. cbv zeta.
    destruct (win_handle_message_run message link self) as (t & E & Ht).
    cbn [Win.receive_loop]. erewrite bind_returned by exact E.
    apply (same_on_wire_prefix _ _ _ _ Ht (IH hb (after_message message self))).
  - destruct hb; [|apply IH].
    rewrite receive_loop_wake. cbv zeta.
    destruct (win_step_heartbeat utcnow link self) as (t & E & Ht).
    cbn [Win.receive_loop]. erewrite bind_returned by exact E.
    apply (same_on_wire_prefix _ _ _ _ Ht (IH _ self)).
Qed.

Lemma win_register_run h link self sock :
  ws self = Some sock ->
  exists log,
    forallb is_print log = true /\
    Win.register h link self =
    Run (WsSend (register_message self h) link :: if link then log else [])
        self
        (if link then Returned tt else Raised ConnectionClosedError).
Proof.
  destruct self as [ep tk nid sk rn]. simpl. intros ->.
  unfold Win.register.
  destruct link.
  - pose proof (gpus_are_entries (nvidia_smi h)) as Hall.
    exists ([Print [Lit "["; Stamp; Lit "] Registration sent"];
             Print [Lit "  Hostname: "; Val (JStr (hostname h))];
             Print [Lit "  OS: "; Val (JStr (system h)); Lit " ";
                    Val (JStr (release h))];
             Print [Lit "  Arch: "; Val (JStr (machine h))]]
            ++ match gpus_of_outcome (nvidia_smi h) with
               | [] => [Print [Lit "  GPUs: None (CPU mode)"]]
               | g :: l =>
                   Print [Lit "  GPUs: "; Len (length (g :: l))]
                   :: map gpu_line (g :: l)
               end
            ++ [Print [Lit EmptyString]]).
    split.
    + rewrite !forallb_app. cbn [forallb is_print andb].
      destruct (gpus_of_outcome (nvidia_smi h)) as [|g l]; [reflexivity|].
      cbn [forallb is_print andb]. rewrite andb_true_r.
      clear. induction (g :: l); simpl; auto.
    + erewrite bind_returned by apply get_host_info_run.
      unfold register_message, host_info.
      destruct (gpus_of_outcome (nvidia_smi h)) as [|g l] eqn:Eg.
      * repeat run_step. reflexivity.
      * do 12 run_step. cbv beta iota zeta.
        erewrite bind_returned
          by (erewrite bind_returned by (run_norm; reflexivity);
              rewrite for_each_gpu_lines by exact Hall; reflexivity).
        reflexivity.
  - exists []. split; [reflexivity|].
    erewrite bind_returned by apply get_host_info_run.
    run_step. run_step. reflexivity.
Qed.

Lemma guarded_run (loop : M agent unit) (line : list piece)
    (fin : option ending) (self : agent) :
  forallb piece_encodable line = true ->
  result (loop self) = loop_result fin ->
  try_finally
    (try_except is_ConnectionClosed loop (fun _ => print line))
    (set_running false) self =
  Run (trace (loop self) ++
       match fin with
       | Some (Broken e) => if is_ConnectionClosed e then [Print line] else []
       | _ => []
       end)
      (closing_state fin (final (loop self)))
      (closing_result fin).
Proof.
  intros Hline Hres. unfold try_finally, try_except.
  destruct (loop self) as [t f res]. cbn [result] in Hres. subst res.
  destruct fin as [[|e]|]; [|destruct e|];
    cbn [loop_result result trace final is_ConnectionClosed];
    rewrite ?(print_ok line f Hline);
    cbn; rewrite ?app_nil_r; reflexivity.
Qed.

Lemma win_loop_result stimuli fin hb self :
  result (Win.receive_loop hb stimuli fin self) = loop_result fin.
Proof.
  destruct (win_loop_same stimuli fin hb self) as (_ & _ & ->).
  apply receive_loop_result.
Qed.

Lemma try_except_log {A} (body : M agent A) (handler : exn -> M agent A)
    (hlog : exn -> list event) s t s' res :
  body s = Run t s' res ->
  (forall e, handler e s' = Run (hlog e) s' (Raised e)) ->
  try_except is_Exception body handler s =
  Run (t ++ match res with
            | Raised e => if is_Exception e then hlog e else []
            | _ => []
            end) s' res.
Proof.
  intros Hb Hh. unfold try_except. rewrite Hb. cbn [result trace final].
  destruct res as [a|e|]; rewrite ?app_nil_r; try reflexivity.
  destruct (is_Exception e); [|rewrite app_nil_r; reflexivity].
  rewrite Hh. reflexivity.
Qed.

Lemma win_connect_same w self :
  same_on_wire (Win.connect w self) (connect w self).
Proof.
  destruct (dial w) as [e|] eqn:Hd.
  - rewrite (connect_refused w self e Hd).
    unfold Win.connect. do 2 run_step. rewrite Hd.
    unfold try_except. erewrite bind_raised by reflexivity.
    destruct e; repeat split; reflexivity.
  - destruct (register_link w) eqn:Hr.
    + rewrite (connect_served w self Hd Hr). cbv zeta.
      destruct (win_register_run (platform w) true (connected self)
                  (Socket (endpoint self)) eq_refl) as (log & Hlog & Ereg).
      pose proof (win_loop_same (schedule w) (finish w) true (connected self))
        as (L1 & L2 & L3).
      assert (E : exists post,
                forallb is_print post = true /\
                Win.connect w self =
                Run ([Print [Lit "["; Stamp; Lit "] Connecting to ";
                             Val (JStr (endpoint self)); Lit "..."];
                      WsConnect (endpoint self) true;
                      Print [Lit "["; Stamp; Lit "] Connected successfully!"];
                      Print [Lit EmptyString];
                      WsSend (register_message self (platform w)) true]
                     ++ log
                     ++ trace (Win.receive_loop true (schedule w) (finish w)
                                 (connected self))
                     ++ post)
                    (closing_state (finish w)
                       (final (Win.receive_loop true (schedule w) (finish w)
                                 (connected self))))
                    (closing_result (finish w))).
      { unfold Win.connect. do 2 run_step. rewrite Hd, Hr.
        assert (B : exists mid,
                  forallb is_print mid = true /\
                  (websocket <- websockets_connect (endpoint self) None ;;
                   set_ws websocket ;;
                   set_running true ;;
                   print [Lit "["; Stamp; Lit "] Connected successfully!"] ;;
                   print [Lit EmptyString] ;;
                   Win.register (platform w) true ;;
                   try_finally
                     (try_except is_ConnectionClosed
                        (Win.receive_loop true (schedule w) (finish w))
                        (fun _ => print [Lit "["; Stamp;
                                         Lit "] Connection closed by server"]))
                     (set_running false)) self =
                  Run ([WsConnect (endpoint self) true;
                        Print [Lit "["; Stamp; Lit "] Connected successfully!"];
                        Print [Lit EmptyString];
                        WsSend (register_message self (platform w)) true]
                       ++ log
                       ++ trace (Win.receive_loop true (schedule w) (finish w)
                                   (connected self))
                       ++ mid)
                      (closing_state (finish w)
                         (final (Win.receive_loop true (schedule w) (finish w)
                                   (connected self))))
                      (closing_result (finish w))).
        { eexists. split; [|
            do 5 run_step;
            erewrite bind_returned by exact Ereg;
            cbv beta zeta;
            change {| endpoint := endpoint self; token := token self;
                      node_id := node_id self;
                      ws := Some (Socket (endpoint self)); running := true |}
              with (connected self);
            rewrite (guarded_run _
                       [Lit "["; Stamp; Lit "] Connection closed by server"]
                       (finish w) (connected self)
                       eq_refl (win_loop_result _ _ _ _));
            rewrite !prefix_run; reflexivity].
          destruct (finish w) as [[|e]|]; try reflexivity.
          destruct (is_ConnectionClosed e); reflexivity. }
        destruct B as (mid & Hmid & B).
        rewrite (try_except_log _ _
                   (fun e => [Print [Lit "["; Stamp; Lit "] Connection error: "; Err e];
                              Print [Lit EmptyString];
                              Print [Lit "Possible issues:"];
                              Print [Lit "  - Backend server not running"];
                              Print [Lit "  - Wrong endpoint address"];
                              Print [Lit "  - Firewall blocking connection"]])
                   _ _ _ _ B (fun e => eq_refl)).
        rewrite !prefix_run.
        eexists. split; [|cbn [app]; rewrite <- !app_assoc; reflexivity].
        rewrite forallb_app, Hmid.
        destruct (closing_result (finish w)) as [a|e|]; try reflexivity.
        destruct (is_Exception e); reflexivity. }
      destruct E as (post & Hpost & E). rewrite E.
      unfold same_on_wire. cbn [trace final result].
      rewrite !wire_app, !map_app.
      rewrite (wire_prints _ Hlog), (wire_prints _ Hpost).
      rewrite (wire_prints _ (register_log_prints (platform w))).
      rewrite (wire_prints _ (closing_log_prints (finish w))).
      rewrite L1, L2. cbn [map app]. rewrite !app_nil_r.
      repeat split; reflexivity.
    + rewrite (connect_unregistered w self Hd Hr).
      destruct (win_register_run (platform w) false (connected self)
                  (Socket (endpoint self)) eq_refl) as (log & Hlog & Ereg).
      unfold Win.connect. do 2 run_step. rewrite Hd, Hr.
      unfold try_except. do 5 run_step.
      erewrite bind_raised by exact Ereg.
      repeat split; reflexivity.
Qed.

Lemma win_main_run w self :
  exists before after,
    forallb is_print before = true /\ forallb is_print after = true /\
    Win.main w self =
    Run (before ++ trace (Win.connect w self) ++ after)
        (final (Win.connect w self))
        (verdict (result (Win.connect w self))).
Proof.
  exists [Print [Lit rule]; Print [Lit "   HYPERNODE GPU HOST AGENT"];
          Print [Lit rule]; Print [Lit EmptyString]].
  unfold Win.main.
  destruct (Win.connect w self) as [t f res] eqn:E.
  destruct res as [[]|e|].
  - exists []. split; [reflexivity|]. split; [reflexivity|].
    do 4 run_step. unfold asyncio_run, try_except. rewrite E.
    cbn. rewrite app_nil_r. reflexivity.
  - destruct e;
      first
        [ exists []; split; [reflexivity|]; split; [reflexivity|];
          do 4 run_step; unfold asyncio_run, try_except; rewrite E;
          cbn; rewrite app_nil_r; reflexivity
        | (eexists; split; [reflexivity|]; split;
           [|do 4 run_step; unfold asyncio_run, try_except; rewrite E;
             cbn [result trace final is_CancelledError is_KeyboardInterrupt
                  is_Exception orb bind print emit raise];
             rewrite !prefix_run; rewrite <- ?app_assoc; cbn [app];
             reflexivity]);
          reflexivity ].
  - exists []. split; [reflexivity|]. split; [reflexivity|].
    do 4 run_step. unfold asyncio_run, try_except. rewrite E.
    cbn. rewrite app_nil_r. reflexivity.
Qed.

(** X14.  Where both can print their lines, that is on a standard output
    that encodes UTF-8 as this file takes it, the two installers ship
    agents that cannot be told apart from outside the console: the Windows
    agent opens the connection, sends, pauses and ends exactly as the other
    one does, also on frames whose values cannot be printed, and leaves the
    same agent state and the same exit status; the messages are the same
    except for the text in the [result] field of a [jobResult].  (The
    lines of the Windows agent are ASCII and those of the other one hold
    emoji, so that on an output with another encoding the two need not
    agree; that case is outside this statement.) *)
Theorem windows_agent_same_on_wire (endpoint token : string) (w : world) :
  wire (trace (Win.process endpoint token w)) =
    map retext_event (wire (trace (process endpoint token w)))
  /\ final (Win.process endpoint token w) = final (process endpoint token w)
  /\ exit_status (Win.process endpoint token w) =
     exit_status (process endpoint token w)
  /\ (forall job_id node, retext (job_result job_id node) = Win.job_result job_id node)
  /\ (forall self h, retext (register_message self h) = register_message self h)
  /\ (forall self utcnow,
        retext (heartbeat_message self utcnow) = heartbeat_message self utcnow).
Proof.
  assert (H : same_on_wire (Win.process endpoint token w) (process endpoint token w)).
  { unfold Win.process, process.
    destruct (win_main_run w (HypernodeAgent endpoint token))
      as (before & after & Hb & Ha & E).
    rewrite E, main_run. cbv zeta.
    destruct (win_connect_same w (HypernodeAgent endpoint token)) as (C1 & C2 & C3).
    unfold same_on_wire. cbn [trace final result].
    rewrite !wire_app, !map_app, (wire_prints _ Hb), (wire_prints _ Ha).
    rewrite (wire_prints _ (farewell_prints _)).
    change (wire banner) with (@nil event).
    rewrite C1, C2, C3. cbn [map app]. rewrite !app_nil_r.
    repeat split; reflexivity. }
  destruct H as (H1 & H2 & H3).
  split; [exact H1|]. split; [exact H2|].
  split; [unfold exit_status; rewrite H3; reflexivity|].
  repeat split; reflexivity.
Qed.

(* ================================================================== *)
(** * The agent of the PowerShell module *)

Ltac ps_read_tag fields :=
  unfold Ps.handle_message, json_loads;
  rewrite bind_ret; cbn [dict_get]; rewrite bind_ret;
  fold (get_or_null "type" fields).

Lemma ps_handle_bad message self err :
  frame_error message = Some err ->
  Ps.handle_message message self =
  Run [] (after_message message self) (Raised err).
Proof.
  destruct message as [text|why|data].
  - intros [= <-]. reflexivity.
  - intros [= <-]. destruct why; reflexivity.
  - destruct data; simpl; try discriminate;
      try (intros [= <-]; reflexivity).
    fold (has_type "registered" (JObj fields)).
    unfold after_message, registered_id.
    destruct (has_type "registered" (JObj fields)) eqn:H; [|discriminate].
    destruct (encodable (get_or_null "nodeId" fields)) eqn:He; [discriminate|].
    intros [= <-]. rewrite has_type_tag in H.
    ps_read_tag fields. rewrite H.
    cbn [dict_get]. rewrite bind_ret. fold (get_or_null "nodeId" fields).
    do 2 run_step. cbn [node_id]. print_step He. reflexivity.
Qed.

Lemma ps_handle_good message self :
  frame_error message = None ->
  exists t,
    forallb is_print t = true /\
    Ps.handle_message message self =
    Run t (after_message message self) (Returned tt).
Proof.
  destruct message as [text|why|data]; [discriminate|discriminate|].
  destruct data; try discriminate.
  unfold frame_error, after_message, registered_id. rewrite has_type_tag.
  destruct (eq_str (get_or_null "type" fields) "registered") eqn:H.
  - destruct (encodable (get_or_null "nodeId" fields)) eqn:He; [|discriminate].
    intros _. eexists. split; [|
      ps_read_tag fields; rewrite H;
      cbn [dict_get]; rewrite bind_ret; fold (get_or_null "nodeId" fields);
      do 2 run_step; cbn [node_id]; print_step He; reflexivity].
    reflexivity.
  - intros _. exists []. split; [reflexivity|].
    ps_read_tag fields. rewrite H. reflexivity.
Qed.

Lemma ps_step_heartbeat utcnow link self :
  exists t alive,
    step_task (Ps.send_heartbeat [(utcnow, link)]) self =
      Run t self (Returned alive)
    /\ Forall is_heartbeat (send_calls t)
    /\ job_pauses t = [].
Proof.
  destruct self as [ep tk nid [sock|] [|]]; destruct link;
    (eexists; eexists; split; [reflexivity|]);
    (split; [|reflexivity]);
    repeat constructor;
    eexists; eexists; reflexivity.
Qed.

Lemma ps_loop_calls stimuli fin : forall hb self,
  Forall is_heartbeat (send_calls (trace (Ps.receive_loop hb stimuli fin self))).
Proof.
  induction stimuli as [|[message link|utcnow link] later IH]; intros hb self.
  - destruct fin as [[|e]|]; constructor.
  - cbn [Ps.receive_loop].
    destruct (frame_error message) as [err|] eqn:Hf.
    + erewrite bind_raised by (apply ps_handle_bad; exact Hf). constructor.
    + destruct (ps_handle_good message self Hf) as (t & Ht & E).
      erewrite bind_returned by exact E.
      unfold prefix. cbn [trace]. rewrite send_calls_app.
      rewrite (proj1 (prints_quiet _ Ht)). apply IH.
  - destruct hb; [|apply IH].
    destruct (ps_step_heartbeat utcnow link self) as (t & alive & E & Ht & _).
    cbn [Ps.receive_loop]. erewrite bind_returned by exact E.
    unfold prefix. cbn [trace]. rewrite send_calls_app.
    apply Forall_app. split; [exact Ht|apply IH].
Qed.

Lemma ps_loop_pauses stimuli fin : forall hb self,
  job_pauses (trace (Ps.receive_loop hb stimuli fin self)) = [].
Proof.
  induction stimuli as [|[message link|utcnow link] later IH]; intros hb self.
  - destruct fin as [[|e]|]; reflexivity.
  - cbn [Ps.receive_loop].
    destruct (frame_error message) as [err|] eqn:Hf.
    + erewrite bind_raised by (apply ps_handle_bad; exact Hf). reflexivity.
    + destruct (ps_handle_good message self Hf) as (t & Ht & E).
      erewrite bind_returned by exact E.
      unfold prefix. cbn [trace]. rewrite job_pauses_app.
      rewrite (prints_no_job_pause _ Ht). apply IH.
  - destruct hb; [|apply IH].
    destruct (ps_step_heartbeat utcnow link self) as (t & alive & E & _ & Hp).
    cbn [Ps.receive_loop]. erewrite bind_returned by exact E.
    unfold prefix. cbn [trace]. rewrite job_pauses_app, Hp.
    apply IH.
Qed.


Lemma ps_register_run h link self sock :
  ws self = Some sock ->
  exists log,
    forallb is_print log = true /\
    Ps.register h link self =
    Run (WsSend (register_message self h) link :: if link then log else [])
        self
        (if link then Returned tt else Raised ConnectionClosedError).
Proof.
  destruct self as [ep tk nid sk rn]. simpl. intros ->.
  unfold Ps.register.
  destruct link.
  - erewrite bind_returned by apply get_host_info_run.
    unfold register_message, host_info.
    destruct (gpus_of_outcome (nvidia_smi h)) as [|g l];
      (eexists; split; [|repeat run_step; reflexivity]; reflexivity).
  - exists []. split; [reflexivity|].
    erewrite bind_returned by apply get_host_info_run.
    run_step. run_step. reflexivity.
Qed.

Lemma finally_stop {A} (body : M agent A) self :
  try_finally body (set_running false) self =
  Run (trace (body self))
      (match result (body self) with
       | Waiting => final (body self)
       | _ => stopped (final (body self))
       end)
      (result (body self)).
Proof.
  unfold try_finally. destruct (body self) as [t f res].
  destruct res; cbn; rewrite ?app_nil_r; reflexivity.
Qed.

Lemma ps_connect_served w self :
  dial w = None -> register_link w = true ->
  exists log,
    forallb is_print log = true /\
    Ps.connect w self =
    let r := Ps.receive_loop true (schedule w) (finish w) (connected self) in
    Run ([connecting_line self; WsConnect (endpoint self) true; connected_line;
          WsSend (register_message self (platform w)) true]
         ++ log ++ trace r)
        (match result r with
         | Waiting => final r
         | _ => stopped (final r)
         end)
        (result r).
Proof.
  intros Hd Hr.
  destruct (ps_register_run (platform w) true (connected self)
              (Socket (endpoint self)) eq_refl) as (log & Hlog & Ereg).
  exists log. split; [exact Hlog|].
  unfold Ps.connect. do 2 run_step. rewrite Hd, Hr. do 4 run_step.
  erewrite bind_returned by exact Ereg.
  cbv beta zeta.
  change {| endpoint := endpoint self; token := token self;
            node_id := node_id self;
            ws := Some (Socket (endpoint self)); running := true |}
    with (connected self).
  rewrite finally_stop, !prefix_run. reflexivity.
Qed.

Lemma asyncio_run_run {A} (m : M agent A) self :
  asyncio_run m self =
  Run (trace (m self)) (final (m self))
      (match result (m self) with
       | Raised e => if is_CancelledError e then Raised KeyboardInterrupt
                     else Raised e
       | other => other
       end).
Proof.
  unfold asyncio_run, try_except. destruct (m self) as [t f [a|e|]];
    cbn [trace final result]; try reflexivity.
  destruct e; cbn; rewrite ?app_nil_r; reflexivity.
Qed.

Lemma ps_program_run e t w :
  Ps.program e t w =
  prefix [Print [Lit rule]; Print [Lit "🚀 Hypernode GPU Host Agent"];
          Print [Lit rule; Lit (String Py.newline EmptyString)]]
         (asyncio_run (Ps.connect w) (fresh e t)).
Proof.
  unfold Ps.program, fresh. do 3 run_step.
  destruct (asyncio_run (Ps.connect w) (HypernodeAgent e t)). reflexivity.
Qed.


Lemma ps_connect_refused w self e :
  dial w = Some e ->
  Ps.connect w self =
  Run [connecting_line self; WsConnect (endpoint self) false] self (Raised e).
Proof.
  intros Hd. unfold Ps.connect. do 2 run_step. rewrite Hd.
  erewrite bind_raised by reflexivity. reflexivity.
Qed.

Lemma ps_connect_unregistered w self :
  dial w = None -> register_link w = false ->
  Ps.connect w self =
  Run [connecting_line self; WsConnect (endpoint self) true; connected_line;
       WsSend (register_message self (platform w)) false]
      (connected self) (Raised ConnectionClosedError).
Proof.
  intros Hd Hr.
  destruct (ps_register_run (platform w) false (connected self)
              (Socket (endpoint self)) eq_refl) as (log & Hlog & Ereg).
  unfold Ps.connect. do 2 run_step. rewrite Hd, Hr. do 4 run_step.
  erewrite bind_raised by exact Ereg.
  reflexivity.
Qed.



Lemma filter_none_forall {A} (f : A -> bool) (l : list A) :
  Forall (fun x => f x = false) l -> filter f l = [].
Proof.
  induction 1 as [|x l Hx _ IH]; simpl; [reflexivity|].
  rewrite Hx. exact IH.
Qed.

(** X16.  The agent embedded in the PowerShell module sends only its
    registration request and heartbeats, whatever the server delivers and
    however the session ends: a job assignment is never answered with a
    [jobResult], and the agent never pauses for a job. *)
Theorem module_agent_never_answers (e t : string) (w : world) :
  Forall (fun message =>
            message = register_message (fresh e t) (platform w) \/
            is_heartbeat message)
         (send_calls (trace (Ps.program e t w))) /\
  filter (has_type "jobResult") (send_calls (trace (Ps.program e t w))) = [] /\
  job_pauses (trace (Ps.program e t w)) = [].
Proof.
  assert (Hcalls : Forall (fun message =>
            message = register_message (fresh e t) (platform w) \/
            is_heartbeat message)
         (send_calls (trace (Ps.program e t w)))).
  { rewrite ps_program_run, asyncio_run_run. unfold prefix.
    cbn [trace app send_calls].
    destruct (dial w) as [ex|] eqn:Hd.
    - rewrite (ps_connect_refused w _ ex Hd). constructor.
    - destruct (register_link w) eqn:Hr.
      + destruct (ps_connect_served w (fresh e t) Hd Hr) as (log & Hlog & Ec).
        rewrite Ec. cbv zeta. cbn [trace app send_calls].
        constructor; [left; reflexivity|].
        rewrite send_calls_app, (proj1 (prints_quiet _ Hlog)). cbn [app].
        eapply Forall_impl; [|apply ps_loop_calls].
        intros m Hm. right. exact Hm.
      + rewrite (ps_connect_unregistered w _ Hd Hr).
        constructor; [left; reflexivity|constructor]. }
  split; [exact Hcalls|]. split.
  - apply filter_none_forall. eapply Forall_impl; [|exact Hcalls].
    intros m [->|(self & utcnow & ->)]; reflexivity.
  - rewrite ps_program_run, asyncio_run_run. unfold prefix.
    cbn [trace]. rewrite job_pauses_app. cbn [app job_pauses filter is_job_pause].
    destruct (dial w) as [ex|] eqn:Hd.
    + rewrite (ps_connect_refused w _ ex Hd). reflexivity.
    + destruct (register_link w) eqn:Hr.
      * destruct (ps_connect_served w (fresh e t) Hd Hr) as (log & Hlog & Ec).
        rewrite Ec. cbv zeta. cbn [trace].
        rewrite !job_pauses_app, (prints_no_job_pause _ Hlog).
        rewrite ps_loop_pauses. reflexivity.
      * rewrite (ps_connect_unregistered w _ Hd Hr). reflexivity.
Qed.
